(** * parkinsons: the statistics and summarisation core, embedded in Rocq

    The Python package [parkinsons] wraps pandas, numpy and scipy.  This file
    embeds the parts that compute something:

    - [Numpy]: the few numpy primitives the code calls, on binary64 floats
      (Rocq's primitive floats are IEEE 754 binary64 with round-to-nearest-even,
      which is what numpy's float64 is);
    - [Outlier]: [parkinsons/statistics/outlier.py];
    - [Pandas]: a column-major data frame as [pandas.read_csv] produces it;
    - [DataBase]: [parkinsons/data/base.py], class [Dataset];
    - [AnalysisBase]: [parkinsons/analysis/base.py], class [Dataset], whose
      [info] caches its table in [self._info] and plots;
    - [Fog]: [parkinsons/analysis/fog.py], class [FOGDataset], as a Python
      object with an attribute dictionary;
    - [Inherited]: the methods of the two [Dataset] classes as an instance of
      a subclass runs them;
    - [Duration], [MetadataEvent], [MetadataTask], [AnalysisEvent] and
      [AnalysisTask]: the classes [Event] and [Task] of
      [parkinsons/data/metadata.py], [parkinsons/analysis/event.py] and
      [parkinsons/analysis/task.py], which derive the column [Duration]. *)

From Stdlib Require Import ZArith List Bool Floats Lia String.
From stdpp Require Import gmap strings.
Import ListNotations.

Set Warnings "-inexact-float".

(** ** Python exceptions and results *)

Inductive exn : Type :=
  | AttributeError (attr : string)
  | KeyError (key : string)
  | IndexError
  | ValueError
  | TypeError.

Inductive result (A : Type) : Type :=
  | Ok (a : A)
  | Raise (e : exn).
Arguments Ok {A} a.
Arguments Raise {A} e.

(** The exception monad; [x ← r; k] runs [k] when [r] returned. *)
#[global] Instance result_ret : MRet result := fun A a => Ok a.
#[global] Instance result_bind : MBind result :=
  fun A B k r =>
    match r with
    | Ok a => k a
    | Raise e => Raise e
    end.

(** ** numpy on one-dimensional float64 arrays *)

Module Numpy.
#[local] Open Scope float_scope.

Definition ndarray := list float.

(** [(double) z] for a 64-bit integer [z]. *)
Definition of_Z (z : Z) : float :=
  if (z <? 0)%Z then - of_uint63 (Uint63.of_Z (- z)) else of_uint63 (Uint63.of_Z z).

Definition of_nat (n : nat) : float := of_Z (Z.of_nat n).

(** The integer nearest to [m / d], ties to the even one, for [d > 0]. *)
Definition round_half_even (m d : Z) : Z :=
  let q := (m / d)%Z in
  match (2 * (m mod d) ?= d)%Z with
  | Lt => q
  | Gt => (q + 1)%Z
  | Eq => if Z.even q then q else (q + 1)%Z
  end.

(** [np.rint]: the nearest integer, ties to even, with the sign of the
    argument.  A float64 [m * 2 ^ e] with [0 <= e] is an integer already, and
    so are the infinities; NaN stays NaN. *)
Definition rint (x : float) : float :=
  match Prim2SF x with
  | S754_finite s m e =>
      if (e <? 0)%Z then
        let k := of_Z (round_half_even (Zpos m) (2 ^ (- e))) in
        if s then - k else k
      else x
  | _ => x
  end.

(** [np.around x decimals], for [decimals >= 0]: scale by [10 ** decimals],
    [rint], and scale back. *)
Definition around (decimals : Z) (x : float) : float :=
  let p := of_Z (10 ^ decimals) in
  rint (x * p) / p.

(** [0 <= x <= 1] *)
Definition in_unit (x : float) : bool := (0 <=? x) && (x <=? 1).

(** [a - m], [a / m] with the scalar broadcast, [np.abs a], [a < t]. *)
Definition sub_scalar (a : ndarray) (m : float) : ndarray := map (fun x => x - m) a.
Definition div_scalar (a : ndarray) (m : float) : ndarray := map (fun x => x / m) a.
Definition np_abs (a : ndarray) : ndarray := map abs a.
Definition lt_scalar (a : ndarray) (t : float) : list bool := map (fun x => x <? t) a.

(** [a[mask]] for a boolean array [mask]: the elements under a [True], in
    order; numpy raises [IndexError] when the two lengths differ. *)
Fixpoint getitem_mask (a : ndarray) (mask : list bool) : result ndarray :=
  match a, mask with
  | [], [] => Ok []
  | x :: a', b :: mask' =>
      r ← getitem_mask a' mask'; Ok (if b then x :: r else r)
  | _, _ => Raise IndexError
  end.

(** The order numpy's sort and partition leave the data in: ascending by
    [<=].  (Where [+0.0] and [-0.0] meet their relative order is the
    algorithm's; here it is that of a stable insertion sort.) *)
Fixpoint insert (x : float) (l : ndarray) : ndarray :=
  match l with
  | [] => [x]
  | y :: l' => if x <=? y then x :: l else y :: insert x l'
  end.

Fixpoint sort (l : ndarray) : ndarray :=
  match l with
  | [] => []
  | x :: l' => insert x (sort l')
  end.

(** [np.mean] of a slice shorter than eight elements: [add.reduce] from the
    first element, left to right, then a division by the count.  The empty
    slice gives [0.0 / 0.0 = nan]. *)
Definition mean (a : ndarray) : float :=
  fold_left add (tl a) (hd 0 a) / of_nat (length a).

(** [np.median a]: partition, take the mean of the middle element (odd size)
    or of the two middle elements (even size); a NaN anywhere in the data
    makes the result NaN ([_median_nancheck]). *)
Definition median (a : ndarray) : float :=
  let sz := length a in
  let part := sort a in
  let index := Nat.div sz 2 in
  let rout :=
    if Nat.odd sz then mean (firstn 1 (skipn index part))
    else mean (firstn 2 (skipn (index - 1) part)) in
  if existsb is_nan a then nan else rout.
End Numpy.

(** ** parkinsons/statistics/outlier.py *)

Module Outlier.
Import Numpy.
#[local] Open Scope float_scope.

Definition __b : float := 1.4826.
Definition __threshold : float := 3.

(** [Outlier.univariate], on a sample given as a numpy array.  (The
    annotation also admits a Python list; the boolean indexing of the last
    line is an operation of arrays.)  The comparison is against the literal
    [3] of the source, not against [__threshold]. *)
Definition univariate (a : ndarray) : result ndarray :=
  let median := Numpy.median a in
  let centered := np_abs (sub_scalar a median) in
  let mad := Numpy.median centered * __b in
  getitem_mask a (lt_scalar (np_abs (div_scalar (sub_scalar a median) mad)) 3).

(** The robust z-score in the words of the specification:
    [|x - median| / (1.4826 * median(|x - median|))]. *)
Definition robust_z (a : ndarray) (x : float) : float :=
  abs (x - Numpy.median a)
  / (1.4826 * Numpy.median (map (fun y => abs (y - Numpy.median a)) a)).
End Outlier.

(** ** What is taken from the interpreter and the libraries as given

    CPython's object sizes, the text of a float, pandas' floating-point
    reductions and scipy's Anderson-Darling routine are not code of this
    package; the embedding is stated for any of them. *)

Record Anderson_ksampResult : Type := {
  statistic : float;
  critical_values : list float;
  significance_level : float
}.

Class Libs : Type := {
  (** [sys.getsizeof] of the object in a cell of an object column: a [str], or
      the float NaN that stands for a missing field. *)
  getsizeof : option string -> Z;
  (** [str(x)] of a float64, as [Series.astype(str)] writes it. *)
  float_str : float -> string;
  (** pandas' reductions over the non-missing values of a numeric column. *)
  nanmean : list float -> float;
  nanstd : list float -> float;
  nanmin : list float -> float;
  nanmax : list float -> float;
  quantile : list float -> float -> float;
  (** The row label [describe] gives a percentile, as ["5%"] for [0.05]. *)
  format_percentile : float -> string;
  (** [scipy.stats.anderson_ksamp]. *)
  anderson_ksamp : list (list float) -> result Anderson_ksampResult
}.

(** ** pandas: data frames *)

Module Pandas.
Import Numpy.

Inductive dtype : Type := int64 | float64 | bool_ | object_.

Definition dtype_name (d : dtype) : string :=
  match d with
  | int64 => "int64"
  | float64 => "float64"
  | bool_ => "bool"
  | object_ => "object"
  end.

(** The values of a column, by dtype.  A float64 column marks a missing value
    by NaN; an object column holds strings, and [None] where the field is
    missing; int64 and bool columns have no missing values. *)
Inductive column_values : Type :=
  | Int64Values (v : list Z)
  | Float64Values (v : list float)
  | BoolValues (v : list bool)
  | ObjectValues (v : list (option string)).

Definition dtype_of (v : column_values) : dtype :=
  match v with
  | Int64Values _ => int64
  | Float64Values _ => float64
  | BoolValues _ => bool_
  | ObjectValues _ => object_
  end.

Definition size (v : column_values) : nat :=
  match v with
  | Int64Values l => length l
  | Float64Values l => length l
  | BoolValues l => length l
  | ObjectValues l => length l
  end.

Record Series : Type := { name : string; values : column_values }.

Inductive Index : Type :=
  | RangeIndex (stop : nat)
  | LabelIndex (labels : list string).

Definition index_len (i : Index) : nat :=
  match i with
  | RangeIndex n => n
  | LabelIndex l => length l
  end.

Record DataFrame : Type := { index : Index; columns : list Series }.

(** [df.shape[0]] *)
Definition shape0 (df : DataFrame) : nat := index_len (index df).

(** Every column of a frame is as long as its index. *)
Definition well_formed (df : DataFrame) : bool :=
  forallb (fun c => Nat.eqb (size (values c)) (shape0 df)) (columns df).

(** *** Missing values, counts, distinct values *)

Definition isna (v : column_values) : list bool :=
  match v with
  | Int64Values l => map (fun _ => false) l
  | Float64Values l => map is_nan l
  | BoolValues l => map (fun _ => false) l
  | ObjectValues l => map (fun o => match o with None => true | Some _ => false end) l
  end.

(** The sum of a boolean array, as an int64. *)
Definition sum_bool (l : list bool) : Z :=
  fold_left (fun acc (b : bool) => if b then (acc + 1)%Z else acc) l 0%Z.

(** [Series.count]: [notna(values).sum()]. *)
Definition count (v : column_values) : Z := sum_bool (map negb (isna v)).

(** [Series.isna().sum()] *)
Definition isna_sum (v : column_values) : Z := sum_bool (isna v).

(** [unique]: the values in order of first appearance. *)
Fixpoint unique_from {A : Type} (eqb : A -> A -> bool) (seen l : list A) : list A :=
  match l with
  | [] => []
  | x :: l' =>
      if existsb (eqb x) seen then unique_from eqb seen l'
      else x :: unique_from eqb (x :: seen) l'
  end.

Definition unique {A : Type} (eqb : A -> A -> bool) (l : list A) : list A :=
  unique_from eqb [] l.

(** Equality of two float64 keys in pandas' hash table: [==], or both NaN. *)
Definition float_key_eqb (x y : float) : bool :=
  (x =? y)%float || (is_nan x && is_nan y).

Definition object_key_eqb (x y : option string) : bool :=
  match x, y with
  | Some a, Some b => String.eqb a b
  | None, None => true
  | _, _ => false
  end.

(** [Series.nunique()], with [dropna=True]: the distinct values that are not
    missing. *)
Definition nunique (v : column_values) : Z :=
  match v with
  | Int64Values l => Z.of_nat (length (unique Z.eqb l))
  | Float64Values l =>
      Z.of_nat (length (List.filter (fun x => negb (is_nan x)) (unique float_key_eqb l)))
  | BoolValues l => Z.of_nat (length (unique Bool.eqb l))
  | ObjectValues l =>
      Z.of_nat (length (List.filter (fun o => match o with None => false | Some _ => true end)
                          (unique object_key_eqb l)))
  end.

(** [Series.memory_usage(index=False, deep=True)]: the bytes of the array,
    and for an object column the size of every object it points to. *)
Definition memory_usage `{Libs} (v : column_values) : Z :=
  match v with
  | Int64Values l => 8 * Z.of_nat (length l)
  | Float64Values l => 8 * Z.of_nat (length l)
  | BoolValues l => Z.of_nat (length l)
  | ObjectValues l =>
      8 * Z.of_nat (length l) + fold_left (fun acc o => acc + getsizeof o) l 0
  end%Z.

(** *** Columns by name *)

Fixpoint find_column (key : string) (cols : list Series) : option Series :=
  match cols with
  | [] => None
  | c :: cols' => if String.eqb (name c) key then Some c else find_column key cols'
  end.

(** [df[key]]: the values of the column, [KeyError] when there is none. *)
Definition getitem (df : DataFrame) (key : string) : result column_values :=
  match find_column key (columns df) with
  | Some c => Ok (values c)
  | None => Raise (KeyError key)
  end.

(** [df[[k1, ..., kn]]] *)
Fixpoint getitem_columns (df : DataFrame) (keys : list string) : result (list Series) :=
  match keys with
  | [] => Ok []
  | k :: keys' =>
      v ← getitem df k;
      rest ← getitem_columns df keys';
      Ok ({| name := k; values := v |} :: rest)
  end.

Definition getitem_list (df : DataFrame) (keys : list string) : result DataFrame :=
  cols ← getitem_columns df keys;
  Ok {| index := index df; columns := cols |}.

Fixpoint assign (key : string) (v : column_values) (cols : list Series) : list Series :=
  match cols with
  | [] => [{| name := key; values := v |}]
  | c :: cols' =>
      if String.eqb (name c) key then {| name := key; values := v |} :: cols'
      else c :: assign key v cols'
  end.

(** [df[key] = v] for an array [v]: replaces the column of that name or
    appends one; [ValueError] when [v] is not as long as the index. *)
Definition setitem (df : DataFrame) (key : string) (v : column_values) : result DataFrame :=
  if Nat.eqb (size v) (shape0 df)
  then Ok {| index := index df; columns := assign key v (columns df) |}
  else Raise ValueError.

(** [df.columns = names] *)
Definition set_columns (df : DataFrame) (names : list string) : result DataFrame :=
  if Nat.eqb (length names) (length (columns df))
  then Ok {| index := index df;
             columns := map (fun '(n, c) => {| name := n; values := values c |})
                          (combine names (columns df)) |}
  else Raise ValueError.

(** [series.to_frame()] *)
Definition to_frame (idx : Index) (key : string) (v : column_values) : DataFrame :=
  {| index := idx; columns := [{| name := key; values := v |}] |}.

(** [df.dtypes.to_frame().reset_index()]: one row per column of [df], the
    column's name under ["index"] and its dtype under [0]. *)
Definition dtypes_frame (df : DataFrame) : DataFrame :=
  {| index := RangeIndex (length (columns df));
     columns :=
       [ {| name := "index"; values := ObjectValues (map (fun c => Some (name c)) (columns df)) |};
         {| name := "0";
            values := ObjectValues
                        (map (fun c => Some (dtype_name (dtype_of (values c)))) (columns df)) |} ] |}.

(** *** Arithmetic and rounding *)

(** [series / n] for a Python int [n]: true division in float64. *)
Definition truediv (v : column_values) (n : Z) : result column_values :=
  match v with
  | Int64Values l => Ok (Float64Values (map (fun z => of_Z z / of_Z n)%float l))
  | Float64Values l => Ok (Float64Values (map (fun x => x / of_Z n)%float l))
  | BoolValues l =>
      Ok (Float64Values (map (fun b : bool => of_Z (if b then 1 else 0) / of_Z n)%float l))
  | ObjectValues _ => Raise TypeError
  end.

(** [round(df, decimals)]: float columns are rounded, the others are kept. *)
Definition round_values (decimals : Z) (v : column_values) : column_values :=
  match v with
  | Float64Values l => Float64Values (map (around decimals) l)
  | _ => v
  end.

Definition round (df : DataFrame) (decimals : Z) : DataFrame :=
  {| index := index df;
     columns := map (fun c => {| name := name c; values := round_values decimals (values c) |})
                  (columns df) |}.

(** [df.head(n)]: the first [n] rows, or all but the last [-n]. *)
Definition head_count (len : nat) (n : Z) : nat :=
  if (n <? 0)%Z then len - Z.to_nat (- n) else Nat.min len (Z.to_nat n).

Definition head_values (k : nat) (v : column_values) : column_values :=
  match v with
  | Int64Values l => Int64Values (firstn k l)
  | Float64Values l => Float64Values (firstn k l)
  | BoolValues l => BoolValues (firstn k l)
  | ObjectValues l => ObjectValues (firstn k l)
  end.

Definition head (df : DataFrame) (n : Z) : DataFrame :=
  let k := head_count (shape0 df) n in
  {| index := match index df with
              | RangeIndex _ => RangeIndex k
              | LabelIndex l => LabelIndex (firstn k l)
              end;
     columns := map (fun c => {| name := name c; values := head_values k (values c) |})
                  (columns df) |}.
End Pandas.

(** ** Python objects, and the state a method runs in *)

Module Py.
Import Pandas.

Inductive value : Type :=
  | VNone
  | VStr (s : string)
  | VFrame (df : DataFrame)
  | VLogger (name : string)
  | VMethod (name : string).

(** An instance is its attribute dictionary, [self.__dict__]. *)
Abbreviation object := (gmap string value).

(** A bar plot drawn on one axes, and a figure with its axes. *)
Record Axes : Type := { title : string; x : string; y : string; data : DataFrame }.
Record Figure : Type := { suptitle : string; axes : list Axes }.

(** What a method can read and write: the instance, and the figures
    matplotlib holds. *)
Record world : Type := { self : object; figures : list Figure }.

(** A method: it returns a value and a new state, or raises.  (The state an
    exception leaves behind is not kept.) *)
Definition M (A : Type) : Type := world -> result (A * world).

#[global] Instance M_ret : MRet M := fun A a w => Ok (a, w).
#[global] Instance M_bind : MBind M :=
  fun A B k m w =>
    match m w with
    | Ok (a, w') => k a w'
    | Raise e => Raise e
    end.

Definition lift {A : Type} (r : result A) : M A :=
  fun w => match r with Ok a => Ok (a, w) | Raise e => Raise e end.

(** [self.attr]: the instance dictionary first, then the names bound in the
    class and its bases [namespace]; [AttributeError] otherwise. *)
Definition getattr (namespace : list string) (attr : string) : M value :=
  fun w =>
    match self w !! attr with
    | Some v => Ok (v, w)
    | None =>
        if existsb (String.eqb attr) namespace then Ok (VMethod attr, w)
        else Raise (AttributeError attr)
    end.

(** [self.attr = v] *)
Definition setattr (attr : string) (v : value) : M unit :=
  fun w => Ok (tt, {| self := <[attr := v]> (self w); figures := figures w |}).

(** [plt.subplots] and the drawing calls leave a figure behind. *)
Definition show (f : Figure) : M unit :=
  fun w => Ok (tt, {| self := self w; figures := figures w ++ [f] |}).

(** The value must be a data frame to be used as one. *)
Definition as_frame (v : value) : result DataFrame :=
  match v with
  | VFrame df => Ok df
  | VNone | VStr _ | VLogger _ | VMethod _ => Raise TypeError
  end.

(** The value inside an f-string. *)
Definition format (v : value) : string :=
  match v with
  | VStr s => s
  | VNone => "None"
  | VFrame _ => "<DataFrame>"
  | VLogger n => "<Logger " +:+ n +:+ ">"
  | VMethod n => "<bound method " +:+ n +:+ ">"
  end.
End Py.

(** ** The body shared by [Dataset.info] and [Dataset._info_table]

    The two methods, in [data/base.py] and [analysis/base.py], run the same
    statements on [self._df]; [info] is the local variable of the first and
    [self._info] in the second. *)

Module InfoTable.
Import Pandas.

Definition build `{Libs} (_df : DataFrame) : result DataFrame :=
  let per_column (f : column_values -> Z) := Int64Values (map (fun c => f (values c)) (columns _df)) in
  info ← set_columns (dtypes_frame _df) ["Column"; "Dtype"];
  info ← setitem info "Valid" (per_column count);
  info ← setitem info "Null" (per_column isna_sum);
  valid ← getitem info "Valid";
  validity ← truediv valid (Z.of_nat (shape0 _df));
  info ← setitem info "Validity" validity;
  info ← setitem info "Unique" (per_column nunique);
  unique ← getitem info "Unique";
  cardinality ← truediv unique (Z.of_nat (shape0 _df));
  info ← setitem info "Cardinality" cardinality;
  info ← setitem info "Size" (per_column memory_usage);
  mret (round info 2).
End InfoTable.

(** ** The body shared by the two [Dataset.describe] *)

Module Describe.
Import Pandas Numpy.

Definition PERCENTILES : list float := [0.05; 0.25; 0.5; 0.75; 0.95]%float.

(** The non-missing values of a numeric column, as float64. *)
Definition numeric_values (v : column_values) : option (list float) :=
  match v with
  | Int64Values l => Some (map of_Z l)
  | Float64Values l => Some (List.filter (fun x => negb (is_nan x)) l)
  | BoolValues _ | ObjectValues _ => None
  end.

Definition is_numeric (v : column_values) : bool :=
  match numeric_values v with Some _ => true | None => false end.

(** [Series.describe(percentiles)]: the labels and values it computes.  A
    numeric column gets count, mean, std, min, the percentiles and max; any
    other gets count, unique, top and freq, which are left out here but for
    their labels. *)
Definition describe_labels `{Libs} (numeric : bool) : list string :=
  if numeric
  then ["count"; "mean"; "std"; "min"] ++ map format_percentile PERCENTILES ++ ["max"]
  else ["count"; "unique"; "top"; "freq"].

Definition describe_numeric `{Libs} (l : list float) : list float :=
  [of_nat (length l); nanmean l; nanstd l; nanmin l] ++ map (quantile l) PERCENTILES
  ++ [nanmax l].

(** The transposed description of a list of numeric columns: one row per
    column, one column per statistic. *)
Definition description_of `{Libs} (cols : list (string * list float)) : DataFrame :=
  {| index := LabelIndex (map fst cols);
     columns :=
       map (fun '(i, label) =>
              {| name := label;
                 values := Float64Values
                             (map (fun c => nth i (describe_numeric (snd c)) nan) cols) |})
         (combine (seq 0 (length (describe_labels true))) (describe_labels true)) |}.

(** The transposed description of columns that are not numeric: the
    statistics are objects, of which only the presence matters here. *)
Definition description_of_objects `{Libs} (names : list string) : DataFrame :=
  {| index := LabelIndex names;
     columns := map (fun label => {| name := label; values := ObjectValues (map (fun _ => None) names) |})
                  (describe_labels false) |}.

Definition numeric_columns (df : DataFrame) : list (string * list float) :=
  flat_map (fun c => match numeric_values (values c) with
                     | Some l => [(name c, l)]
                     | None => []
                     end) (columns df).

(** [df.describe(percentiles=PERCENTILES).T]: the numeric columns, or all
    columns when none is numeric. *)
Definition describe_frame `{Libs} (df : DataFrame) : DataFrame :=
  match numeric_columns df with
  | [] => description_of_objects (map name (columns df))
  | cols => description_of cols
  end.

(** [df[column].describe(percentiles=PERCENTILES).to_frame().T] *)
Definition describe_column `{Libs} (df : DataFrame) (column : string) : result DataFrame :=
  v ← getitem df column;
  match numeric_values v with
  | Some l => mret (description_of [(column, l)])
  | None => mret (description_of_objects [column])
  end.

(** [series.astype(str)] *)
Definition astype_str `{Libs} (v : column_values) : result (list (option string)) :=
  match v with
  | Float64Values l => Ok (map (fun x => Some (float_str x)) l)
  | ObjectValues l => Ok l
  | Int64Values _ | BoolValues _ => Raise TypeError
  end.

(** [series + " "] and [series + series] on strings. *)
Definition add_str (l : list (option string)) (s : string) : list (option string) :=
  map (fun o => match o with Some a => Some (a +:+ s) | None => None end) l.

Definition add_series (l r : list (option string)) : list (option string) :=
  map (fun '(a, b) => match a, b with
                      | Some a, Some b => Some (a +:+ b)
                      | _, _ => None
                      end) (combine l r).

(** The statements of [describe] after [description] is computed. *)
Definition finish `{Libs} (description : DataFrame) (verbose : bool) : result DataFrame :=
  if verbose then mret description
  else
    desc ← getitem_list description ["mean"; "std"];
    let desc := round desc 1 in
    mean ← getitem desc "mean";
    mean ← astype_str mean;
    std ← getitem desc "std";
    std ← astype_str std;
    desc ← setitem desc "Average"
             (ObjectValues (add_series (add_str (add_str (add_str mean " ") "±") " ") std));
    average ← getitem desc "Average";
    mret (to_frame (index desc) "Average" average).

Definition describe `{Libs} (_df : DataFrame) (column : option string) (verbose : bool)
  : result DataFrame :=
  description ← match column with
                | None => mret (describe_frame _df)
                | Some c => describe_column _df c
                end;
  finish description verbose.

End Describe.

(** ** parkinsons/data/base.py *)

Module DataBase.
Import Pandas Py.

(** The names bound in the body of [Dataset]; [ABC] and [object] bind only
    names with two leading underscores. *)
Definition namespace : list string :=
  ["__init__"; "info"; "head"; "sample"; "countplot"; "histplot"; "boxplot"; "barplot";
   "describe"; "describe_group"].

(** [Dataset.__init__], with [df] what [pd.read_csv] read at [filepath] and
    [cls] the name of the class of the instance. *)
Definition __init__ (cls name filepath : string) (df : DataFrame) : object :=
  <["_logger" := VLogger cls]>
    (<["_info" := VNone]>
       (<["_df" := VFrame df]>
          (<["_filepath" := VStr filepath]>
             (<["_name" := VStr name]> ∅)))).

Definition info `{Libs} : M DataFrame :=
  _df ← getattr namespace "_df";
  _df ← lift (as_frame _df);
  lift (InfoTable.build _df).

Definition head (n : Z) : M DataFrame :=
  _df ← getattr namespace "_df";
  _df ← lift (as_frame _df);
  mret (Pandas.head _df n).

Definition describe `{Libs} (column : option string) (verbose : bool) : M DataFrame :=
  _df ← getattr namespace "_df";
  _df ← lift (as_frame _df);
  lift (Describe.describe _df column verbose).
End DataBase.

(** ** pandas: rows selected by a comparison *)

Module Selection.
Import Pandas.

(** The labels of the rows a selection keeps: positions, when the data frame
    had a [RangeIndex], or the strings that labelled them. *)
Inductive RowLabels : Type :=
  | IntLabels (labels : list nat)
  | StrLabels (labels : list string).

(** What [Dataset.get] returns: the data frame, one of its columns, or some
    of the rows of either. *)
Inductive selection : Type :=
  | WholeFrame (df : DataFrame)
  | WholeColumn (idx : Index) (column : Series)
  | Rows (labels : RowLabels) (cols : list Series).

(** [series == val] for a string or [None]: a cell equals a string when it
    holds that string; a number, a boolean, a missing value and [None] equal
    nothing. *)
Definition eq_scalar (v : column_values) (val : option string) : list bool :=
  match v, val with
  | ObjectValues l, Some s =>
      map (fun o => match o with Some a => String.eqb a s | None => false end) l
  | ObjectValues l, None => map (fun _ => false) l
  | Int64Values l, _ => map (fun _ => false) l
  | Float64Values l, _ => map (fun _ => false) l
  | BoolValues l, _ => map (fun _ => false) l
  end.

(** The elements of [l] under a [True] of the mask. *)
Fixpoint keep {A : Type} (mask : list bool) (l : list A) : list A :=
  match mask, l with
  | b :: mask', x :: l' => if b then x :: keep mask' l' else keep mask' l'
  | _, _ => []
  end.

Definition keep_values (mask : list bool) (v : column_values) : column_values :=
  match v with
  | Int64Values l => Int64Values (keep mask l)
  | Float64Values l => Float64Values (keep mask l)
  | BoolValues l => BoolValues (keep mask l)
  | ObjectValues l => ObjectValues (keep mask l)
  end.

(** [df[mask]] for a boolean column [mask] of [df]: the rows under a [True],
    with the labels they had. *)
Definition getitem_mask (df : DataFrame) (mask : list bool) : selection :=
  Rows match index df with
       | RangeIndex stop => IntLabels (keep mask (seq 0 stop))
       | LabelIndex labels => StrLabels (keep mask labels)
       end
    (map (fun c => {| name := name c; values := keep_values mask (values c) |}) (columns df)).

(** What a test on a Python string comes to: [None] and the empty string
    are false. *)
Definition truthy (s : option string) : bool :=
  match s with
  | Some (String _ _) => true
  | Some EmptyString | None => false
  end.

(** *** Reading a frame and a selection by position *)

Inductive cell : Type :=
  | IntCell (z : Z)
  | FloatCell (x : float)
  | BoolCell (b : bool)
  | ObjectCell (o : option string).

Inductive label : Type :=
  | IntLabel (n : nat)
  | StrLabel (s : string).

(** [series.iloc[i]]: the cell at position [i], when there is one. *)
Definition iloc (v : column_values) (i : nat) : option cell :=
  match v with
  | Int64Values l => IntCell <$> l !! i
  | Float64Values l => FloatCell <$> l !! i
  | BoolValues l => BoolCell <$> l !! i
  | ObjectValues l => ObjectCell <$> l !! i
  end.

(** [index[i]]: the label of the row at position [i]. *)
Definition label_at (idx : Index) (i : nat) : option label :=
  match idx with
  | RangeIndex stop => if Nat.ltb i stop then Some (IntLabel i) else None
  | LabelIndex labels => StrLabel <$> labels !! i
  end.

(** The label of the row at position [j] of a selection of rows. *)
Definition kept_label (labels : RowLabels) (j : nat) : option label :=
  match labels with
  | IntLabels l => IntLabel <$> l !! j
  | StrLabels l => StrLabel <$> l !! j
  end.

(** The cell is the string [val]. *)
Definition holds (c : option cell) (val : option string) : bool :=
  match c, val with
  | Some (ObjectCell (Some a)), Some s => String.eqb a s
  | _, _ => false
  end.
End Selection.

(** [series[key]] for a string [key] on a column whose index holds strings,
    and the rows the comparison of that with a value then selects, are
    resolved by pandas from the labels; they are taken as given.  (A data
    frame read by [pd.read_csv(filepath)] has a [RangeIndex].) *)
Class Labelled : Type := {
  filter_by_label :
    list string -> Pandas.Series -> string -> option string -> result Selection.selection
}.

(** ** parkinsons/analysis/base.py *)

Module AnalysisBase.
Import Pandas Py.

Definition namespace : list string :=
  ["__init__"; "reset"; "info"; "head"; "sample"; "get"; "compare"; "_info_table";
   "_info_plot"; "plot_dtypes"; "plot_validity"; "plot_cardinality"; "plot_size";
   "countplot"; "histplot"; "boxplot"; "barplot"; "describe"; "describe_group"].

Definition __init__ (cls name filepath : string) (df : DataFrame) : object :=
  <["_logger" := VLogger cls]>
    (<["_info" := VNone]>
       (<["_df" := VFrame df]>
          (<["_filepath" := VStr filepath]>
             (<["_name" := VStr name]> ∅)))).

Definition reset : M unit :=
  _ ← setattr "_info" VNone;
  setattr "_summary" VNone.

Definition _info_table `{Libs} : M unit :=
  _info ← getattr namespace "_info";
  match _info with
  | VNone =>
      _df ← getattr namespace "_df";
      _df ← lift (as_frame _df);
      t ← lift (InfoTable.build _df);
      setattr "_info" (VFrame t)
  | _ => mret tt
  end.

Definition plot_validity (normalized : bool) : M Axes :=
  _info ← getattr namespace "_info";
  _info ← lift (as_frame _info);
  let y := if normalized then "Validity" else "Valid" in
  data ← lift (getitem_list _info ["Column"; y]);
  mret {| title := "Validity"; x := "Column"; y := y; data := data |}.

Definition plot_cardinality (normalized : bool) : M Axes :=
  _info ← getattr namespace "_info";
  _info ← lift (as_frame _info);
  let y := if normalized then "Cardinality" else "Unique" in
  data ← lift (getitem_list _info ["Column"; y]);
  mret {| title := "Cardinality"; x := "Column"; y := y; data := data |}.

Definition _info_plot : M unit :=
  _name ← getattr namespace "_name";
  let suptitle := format _name +:+ " Dataset Summary" in
  ax00 ← plot_cardinality false;
  ax01 ← plot_cardinality true;
  ax10 ← plot_validity false;
  ax11 ← plot_validity true;
  show {| suptitle := suptitle; axes := [ax00; ax01; ax10; ax11] |}.

(** [Dataset.info]: the table is returned only under [table=True]; the
    defaults are [table=False], [plot=True]. *)
Definition info `{Libs} (table plot : bool) : M value :=
  _ ← _info_table;
  _ ← (if plot then _info_plot else mret tt);
  if table then
    _info ← getattr namespace "_info";
    _info ← lift (as_frame _info);
    mret (VFrame (round _info 2))
  else mret VNone.

Definition head (n : Z) : M DataFrame :=
  _df ← getattr namespace "_df";
  _df ← lift (as_frame _df);
  mret (Pandas.head _df n).

Definition compare `{Libs} (a b : list float) : M Anderson_ksampResult :=
  lift (anderson_ksamp [a; b]).

Definition describe `{Libs} (column : option string) (verbose : bool) : M DataFrame :=
  _df ← getattr namespace "_df";
  _df ← lift (as_frame _df);
  lift (Describe.describe _df column verbose).

Definition plot_size : M Axes :=
  _info ← getattr namespace "_info";
  _info ← lift (as_frame _info);
  data ← lift (getitem_list _info ["Column"; "Size"]);
  mret {| title := "Size"; x := "Column"; y := "Size"; data := data |}.

(** [Dataset.get(x, filter_var, filter_val)], each argument a string or
    [None].  With [x] the local [df] is a column, and [df[filter_var]] looks
    [filter_var] up among the labels of its rows: on a [RangeIndex] no label
    is a string. *)
Definition get `{Labelled} (x filter_var filter_val : option string)
  : M Selection.selection :=
  _df ← getattr namespace "_df";
  _df ← lift (as_frame _df);
  match x with
  | None =>
      match filter_var with
      | Some var =>
          if Selection.truthy filter_var then
            tested ← lift (getitem _df var);
            mret (Selection.getitem_mask _df (Selection.eq_scalar tested filter_val))
          else mret (Selection.WholeFrame _df)
      | None => mret (Selection.WholeFrame _df)
      end
  | Some x =>
      _df ← getattr namespace "_df";
      _df ← lift (as_frame _df);
      v ← lift (getitem _df x);
      let df := {| name := x; values := v |} in
      match filter_var with
      | Some var =>
          if Selection.truthy filter_var then
            match index _df with
            | RangeIndex _ => lift (Raise (KeyError var))
            | LabelIndex labels => lift (filter_by_label labels df var filter_val)
            end
          else mret (Selection.WholeColumn (index _df) df)
      | None => mret (Selection.WholeColumn (index _df) df)
      end
  end.
End AnalysisBase.

(** ** The methods of the two [Dataset] classes, run by a subclass

    An instance of a subclass runs the methods it inherits with its own class
    in scope: [namespace] lists the names bound in that class and its
    bases.  With the namespace of the base they are the methods above. *)

Module Inherited.
Import Pandas Py.

Section Methods.
Variable namespace : list string.
Context `{Libs}.

(** [info] of [data/base.py]. *)
Definition data_info : M DataFrame :=
  _df ← getattr namespace "_df";
  _df ← lift (as_frame _df);
  lift (InfoTable.build _df).

(** [reset], [_info_table], the plots and [info] of [analysis/base.py]. *)
Definition reset : M unit :=
  _ ← setattr "_info" VNone;
  setattr "_summary" VNone.

Definition _info_table : M unit :=
  _info ← getattr namespace "_info";
  match _info with
  | VNone =>
      _df ← getattr namespace "_df";
      _df ← lift (as_frame _df);
      t ← lift (InfoTable.build _df);
      setattr "_info" (VFrame t)
  | _ => mret tt
  end.

Definition plot_validity (normalized : bool) : M Axes :=
  _info ← getattr namespace "_info";
  _info ← lift (as_frame _info);
  let y := if normalized then "Validity" else "Valid" in
  data ← lift (getitem_list _info ["Column"; y]);
  mret {| title := "Validity"; x := "Column"; y := y; data := data |}.

Definition plot_cardinality (normalized : bool) : M Axes :=
  _info ← getattr namespace "_info";
  _info ← lift (as_frame _info);
  let y := if normalized then "Cardinality" else "Unique" in
  data ← lift (getitem_list _info ["Column"; y]);
  mret {| title := "Cardinality"; x := "Column"; y := y; data := data |}.

Definition _info_plot : M unit :=
  _name ← getattr namespace "_name";
  let suptitle := format _name +:+ " Dataset Summary" in
  ax00 ← plot_cardinality false;
  ax01 ← plot_cardinality true;
  ax10 ← plot_validity false;
  ax11 ← plot_validity true;
  show {| suptitle := suptitle; axes := [ax00; ax01; ax10; ax11] |}.

Definition info (table plot : bool) : M value :=
  _ ← _info_table;
  _ ← (if plot then _info_plot else mret tt);
  if table then
    _info ← getattr namespace "_info";
    _info ← lift (as_frame _info);
    mret (VFrame (round _info 2))
  else mret VNone.
End Methods.
End Inherited.

(** ** parkinsons/analysis/fog.py *)

Module Fog.
Import Pandas Py.

(** The names bound in the body of [FOGDataset], before those of its base
    [Dataset]. *)
Definition namespace : list string :=
  ["__init__"; "head"; "subject_summary"; "subject_series"; "subject_visits";
   "subject_tests"; "subject_meds"] ++ AnalysisBase.namespace.

(** [FOGDataset.__init__]; it does not call the initialiser of [Dataset]. *)
Definition __init__ (filepath : string) (df : DataFrame) : object :=
  <["_subject_summary" := VNone]>
    (<["_info" := VNone]>
       (<["_df" := VFrame df]>
          (<["_filepath" := VStr filepath]> ∅))).

Definition head (n : Z) : M DataFrame :=
  _flog ← getattr namespace "_flog";
  _flog ← lift (as_frame _flog);
  mret (Pandas.head _flog n).

(** The methods of [FOGDataset] that assign an attribute of the instance
    are inherited: [reset], and [_info_table], which [info] calls. *)
Definition reset : M unit := AnalysisBase.reset.

Definition _info_table `{Libs} : M unit :=
  _info ← getattr namespace "_info";
  match _info with
  | VNone =>
      _df ← getattr namespace "_df";
      _df ← lift (as_frame _df);
      t ← lift (InfoTable.build _df);
      setattr "_info" (VFrame t)
  | _ => mret tt
  end.

(** One call that runs to its end, of [head] or of a method that assigns an
    attribute. *)
Inductive step `{Libs} : world -> world -> Prop :=
  | step_reset w w' : reset w = Ok (tt, w') -> step w w'
  | step_info_table w w' : _info_table w = Ok (tt, w') -> step w w'
  | step_head n w r w' : head n w = Ok (r, w') -> step w w'.

(** The states an instance goes through after its construction. *)
Inductive reachable `{Libs} (filepath : string) (df : DataFrame) : world -> Prop :=
  | reach_init figs :
      reachable filepath df {| self := __init__ filepath df; figures := figs |}
  | reach_step w w' : reachable filepath df w -> step w w' -> reachable filepath df w'.

(** [info], inherited from [Dataset]. *)
Definition info `{Libs} (table plot : bool) : M value :=
  Inherited.info namespace table plot.
End Fog.

(** ** The summary table read row by row

    The specification speaks of a mapping from column names to
    [ColumnSummary] records; the code returns a data frame with one row per
    column.  [rows] reads that frame into the records. *)

Module Summary.
Import Pandas.

Record ColumnSummary : Type := {
  Column : string;
  Dtype : string;
  Valid : Z;
  Null : Z;
  Validity : float;
  Unique : Z;
  Cardinality : float;
  Size : Z
}.

Definition object_at (v : column_values) (i : nat) : result string :=
  match v with
  | ObjectValues l =>
      match l !! i with
      | Some (Some s) => Ok s
      | Some None => Raise TypeError
      | None => Raise IndexError
      end
  | _ => Raise TypeError
  end.

Definition int_at (v : column_values) (i : nat) : result Z :=
  match v with
  | Int64Values l => match l !! i with Some z => Ok z | None => Raise IndexError end
  | _ => Raise TypeError
  end.

Definition float_at (v : column_values) (i : nat) : result float :=
  match v with
  | Float64Values l => match l !! i with Some x => Ok x | None => Raise IndexError end
  | _ => Raise TypeError
  end.

Definition row (t : DataFrame) (i : nat) : result ColumnSummary :=
  column ← getitem t "Column"; column ← object_at column i;
  dtype ← getitem t "Dtype"; dtype ← object_at dtype i;
  valid ← getitem t "Valid"; valid ← int_at valid i;
  null ← getitem t "Null"; null ← int_at null i;
  validity ← getitem t "Validity"; validity ← float_at validity i;
  unique ← getitem t "Unique"; unique ← int_at unique i;
  cardinality ← getitem t "Cardinality"; cardinality ← float_at cardinality i;
  size ← getitem t "Size"; size ← int_at size i;
  mret {| Column := column; Dtype := dtype; Valid := valid; Null := null;
          Validity := validity; Unique := unique; Cardinality := cardinality;
          Size := size |}.

Fixpoint rows_from (t : DataFrame) (i n : nat) : result (list ColumnSummary) :=
  match n with
  | O => Ok []
  | S n' => r ← row t i; rest ← rows_from t (S i) n'; mret (r :: rest)
  end.

Definition rows (t : DataFrame) : result (list ColumnSummary) :=
  rows_from t 0 (shape0 t).

(** The record the code computes for the column [c] of [df]: see
    [rows_build] below, which derives it from the statements of the code. *)
Definition of_column `{Libs} (df : DataFrame) (c : Series) : ColumnSummary :=
  {| Column := name c;
     Dtype := dtype_name (dtype_of (values c));
     Valid := count (values c);
     Null := isna_sum (values c);
     Validity :=
       Numpy.around 2 (Numpy.of_Z (count (values c)) / Numpy.of_Z (Z.of_nat (shape0 df)));
     Unique := nunique (values c);
     Cardinality :=
       Numpy.around 2 (Numpy.of_Z (nunique (values c)) / Numpy.of_Z (Z.of_nat (shape0 df)));
     Size := memory_usage (values c) |}.

(** A record after [round(table, decimals)]. *)
Definition round_row (decimals : Z) (s : ColumnSummary) : ColumnSummary :=
  {| Column := Column s; Dtype := Dtype s; Valid := Valid s; Null := Null s;
     Validity := Numpy.around decimals (Validity s);
     Unique := Unique s;
     Cardinality := Numpy.around decimals (Cardinality s);
     Size := Size s |}.

(** The frame has exactly the eight columns of a summary, in this order. *)
Definition is_summary_table (t : DataFrame) : bool :=
  match rows t with
  | Ok _ =>
      bool_decide
        (map name (columns t)
         = ["Column"; "Dtype"; "Valid"; "Null"; "Validity"; "Unique"; "Cardinality"; "Size"])
  | Raise _ => false
  end.
End Summary.

(** ** Sample data *)

Module Example.
Import Pandas Py.

(** CPython 3.10 on a 64-bit machine gives an ASCII [str] 49 bytes and one per
    character, and a float 24 bytes; the other routines are placeholders. *)
Definition libs : Libs :=
  {| getsizeof := fun o => match o with
                           | Some s => (49 + Z.of_nat (String.length s))%Z
                           | None => 24%Z
                           end;
     float_str := fun x => if is_nan x then "nan" else "0.0";
     nanmean := fun l => hd nan l;
     nanstd := fun _ => nan;
     nanmin := fun l => hd nan l;
     nanmax := fun l => hd nan l;
     quantile := fun l _ => hd nan l;
     format_percentile := fun _ => "%";
     anderson_ksamp := fun _ => Raise ValueError |}.

(** Three subjects. *)
Definition subjects : DataFrame :=
  {| index := RangeIndex 3;
     columns :=
       [ {| name := "Subject"; values := ObjectValues [Some "a1"; Some "b2"; Some "a1"] |};
         {| name := "Age"; values := Float64Values [61.5; nan; 70]%float |};
         {| name := "Visit"; values := Int64Values [1; 2; 2]%Z |} ] |}.

(** The header of the same file and no row. *)
Definition no_subjects : DataFrame :=
  {| index := RangeIndex 0;
     columns :=
       [ {| name := "Subject"; values := ObjectValues [] |};
         {| name := "Age"; values := Float64Values [] |};
         {| name := "Visit"; values := Int64Values [] |} ] |}.

Definition data_dataset (df : DataFrame) : world :=
  {| self := DataBase.__init__ "Subject" "Subject" "subjects.csv" df; figures := [] |}.

Definition analysis_dataset (df : DataFrame) : world :=
  {| self := AnalysisBase.__init__ "Subject" "Subject" "subjects.csv" df; figures := [] |}.

Definition fog_dataset (df : DataFrame) : world :=
  {| self := Fog.__init__ "tdcsfog_metadata.csv" df; figures := [] |}.
End Example.

(** ** What a bar plot of the summary is given *)

Module Figures.
Import Pandas Py.

(** The data of a plot over the summary of [df]: the column [Column] and the
    column drawn, with one row for each column of [df]. *)
Definition plotted (df : DataFrame) (ax : Axes) : Prop :=
  x ax = "Column"
  /\ map Pandas.name (columns (data ax)) = [x ax; y ax]
  /\ shape0 (data ax) = length (columns df)
  /\ well_formed (data ax) = true.
End Figures.

(** ** pandas: the difference of two columns *)

(** The difference of two columns of which one is not numeric is computed by
    Python's operators on the objects in it; it is taken as given. *)
Class Operators : Type := {
  other_sub : Pandas.column_values -> Pandas.column_values -> result Pandas.column_values
}.

Module PandasArith.
Import Numpy Pandas.

(** int64 arithmetic wraps around. *)
Definition wrap64 (z : Z) : Z := ((z + 2 ^ 63) mod 2 ^ 64 - 2 ^ 63)%Z.

(** [a - b] for two columns of one data frame: element by element, in int64
    when both are int64 and in float64 when one of them is float64. *)
Definition sub `{Operators} (a b : column_values) : result column_values :=
  match a, b with
  | Int64Values x, Int64Values y =>
      Ok (Int64Values (zip_with (fun p q => wrap64 (p - q)) x y))
  | Float64Values x, Float64Values y =>
      Ok (Float64Values (zip_with (fun p q => p - q)%float x y))
  | Int64Values x, Float64Values y =>
      Ok (Float64Values (zip_with (fun p q => of_Z p - q)%float x y))
  | Float64Values x, Int64Values y =>
      Ok (Float64Values (zip_with (fun p q => p - of_Z q)%float x y))
  | _, _ => other_sub a b
  end.

(** A column of numbers: int64 or float64. *)
Definition is_number (v : column_values) : bool :=
  match v with
  | Int64Values _ | Float64Values _ => true
  | BoolValues _ | ObjectValues _ => false
  end.
End PandasArith.

(** ** The derived column of [Event] and [Task]

    The four classes, two in [data/metadata.py] and one each in
    [analysis/event.py] and [analysis/task.py], call the initialiser of their
    base and then run the same statement on two columns of [self._df]. *)

Module Duration.
Import Pandas Py PandasArith.

(** [self._df["Duration"] = self._df[stop] - self._df[start]].  The data
    frame is changed in place; [self._df] is the only name it has. *)
Definition assign `{Operators} (namespace : list string) (stop start : string) : M unit :=
  _df ← getattr namespace "_df";
  _df ← lift (as_frame _df);
  stop ← lift (getitem _df stop);
  _df ← getattr namespace "_df";
  _df ← lift (as_frame _df);
  start ← lift (getitem _df start);
  duration ← lift (sub stop start);
  _df ← getattr namespace "_df";
  _df ← lift (as_frame _df);
  _df ← lift (setitem _df "Duration" duration);
  setattr "_df" (VFrame _df).

(** The instance a constructor returns: [init] is what the initialiser of
    the base leaves, [body] the statements that follow. *)
Definition construct (init : object) (body : M unit) : result object :=
  match body {| self := init; figures := [] |} with
  | Ok (_, w) => Ok (self w)
  | Raise e => Raise e
  end.
End Duration.

(** ** parkinsons/data/metadata.py: [Event] and [Task] *)

Module MetadataEvent.
Import Pandas Py.

Definition namespace : list string := ["__init__"] ++ DataBase.namespace.

Definition __init__ `{Operators} (name filepath : string) (df : DataFrame) : result object :=
  Duration.construct (DataBase.__init__ "Event" name filepath df)
    (Duration.assign namespace "Completion" "Init").

Definition info `{Libs} : M DataFrame := Inherited.data_info namespace.
End MetadataEvent.

Module MetadataTask.
Import Pandas Py.

Definition namespace : list string := ["__init__"] ++ DataBase.namespace.

Definition __init__ `{Operators} (name filepath : string) (df : DataFrame) : result object :=
  Duration.construct (DataBase.__init__ "Task" name filepath df)
    (Duration.assign namespace "End" "Begin").

Definition info `{Libs} : M DataFrame := Inherited.data_info namespace.
End MetadataTask.

(** ** parkinsons/analysis/event.py and parkinsons/analysis/task.py *)

Module AnalysisEvent.
Import Pandas Py.

Definition namespace : list string := ["__init__"] ++ AnalysisBase.namespace.

Definition __init__ `{Operators} (name filepath : string) (df : DataFrame) : result object :=
  Duration.construct (AnalysisBase.__init__ "Event" name filepath df)
    (Duration.assign namespace "Completion" "Init").

Definition info `{Libs} (table plot : bool) : M value := Inherited.info namespace table plot.
End AnalysisEvent.

Module AnalysisTask.
Import Pandas Py.

Definition namespace : list string := ["__init__"] ++ AnalysisBase.namespace.

Definition __init__ `{Operators} (name filepath : string) (df : DataFrame) : result object :=
  Duration.construct (AnalysisBase.__init__ "Task" name filepath df)
    (Duration.assign namespace "End" "Begin").

Definition info `{Libs} (table plot : bool) : M value := Inherited.info namespace table plot.
End AnalysisTask.

(** ** Sample data: an instance whose cached table is out of date *)

Module ExampleCache.
Import Pandas Py.

(** The summary of the three subjects. *)
Definition summary : DataFrame :=
  match InfoTable.build (H := Example.libs) Example.subjects with
  | Ok t => t
  | Raise _ => Example.subjects
  end.

(** After [info] on the three subjects, [_df] was bound to the data frame
    without rows. *)
Definition stale_dataset : object :=
  <["_df" := VFrame Example.no_subjects]>
    (<["_info" := VFrame summary]>
       (AnalysisBase.__init__ "Subject" "Subject" "subjects.csv" Example.subjects)).
End ExampleCache.

(** ** Sample data: tasks and events *)

Module ExampleMetadata.
Import Pandas Py.

(** Subtraction of columns that are not numeric is refused here. *)
Definition operators : Operators := {| other_sub := fun _ _ => Raise TypeError |}.

(** No label of a row is found here. *)
Definition labelled : Labelled :=
  {| filter_by_label := fun _ _ key _ => Raise (KeyError key) |}.

(** Three tasks; the second has no end. *)
Definition tasks : DataFrame :=
  {| index := RangeIndex 3;
     columns :=
       [ {| name := "Id"; values := ObjectValues [Some "02ab"; Some "02ab"; Some "3f1c"] |};
         {| name := "Begin"; values := Float64Values [10; 190.5; 4.25]%float |};
         {| name := "End"; values := Float64Values [190.5; nan; 29.75]%float |};
         {| name := "Task"; values := ObjectValues [Some "Rest1"; Some "4MW"; Some "TUG"] |} ] |}.

(** Two events, and no column [Completion]. *)
Definition events_without_completion : DataFrame :=
  {| index := RangeIndex 2;
     columns :=
       [ {| name := "Id"; values := ObjectValues [Some "02ab"; Some "3f1c"] |};
         {| name := "Init"; values := Float64Values [8.5; 11]%float |} ] |}.
End ExampleMetadata.

(** ** Order of a sorted sample *)

Module Ascending.
#[local] Open Scope float_scope.
(** Every element is at most every later one. *)
Fixpoint ascending (l : list float) : Prop :=
  match l with
  | [] => True
  | x :: l' => Forall (fun y => (x <=? y) = true) l' /\ ascending l'
  end.
End Ascending.

(** ** Sign of a float, on its specification *)

Module FloatSign.
(** [has_sign s x]: [x] is NaN or carries the sign bit [s]. *)
Definition has_sign (s : bool) (x : spec_float) : Prop :=
  match x with
  | S754_nan => True
  | S754_zero s' | S754_infinity s' | S754_finite s' _ _ => s' = s
  end.

(** NaN or sign bit clear: what [np.abs] returns. *)
Definition nonneg (x : float) : Prop := has_sign false (Prim2SF x).
End FloatSign.

(** ** Bounds of a float, on its specification *)

Module FloatBound.
#[local] Open Scope Z_scope.

(** Shifting a mantissa [m0] with location [l0] right by [k] bits: the new
    mantissa is a floor, and a location other than exact records that
    something was cut off or was inexact before. *)
Definition shr_inv (m0 : Z) (l0 : location) (k : Z) (mrs : shr_record) : Prop :=
  0 <= shr_m mrs
  /\ shr_m mrs * 2 ^ k <= m0
  /\ (loc_of_shr_record mrs <> loc_Exact -> shr_m mrs * 2 ^ k < m0 \/ l0 <> loc_Exact).

(** Zero, or positive and at most one. *)
Definition le_one (x : spec_float) : Prop :=
  match x with
  | S754_zero s => s = false
  | S754_finite s m e => s = false /\ e <= 0 /\ Zpos m <= 2 ^ (- e)
  | S754_infinity _ | S754_nan => False
  end.

(** Zero, or positive and at most one hundred. *)
Definition le_hundred (x : spec_float) : Prop :=
  match x with
  | S754_zero s => s = false
  | S754_finite s m e =>
      s = false /\ ((e <= 0 /\ Zpos m <= 100 * 2 ^ (- e)) \/ (0 < e /\ Zpos m * 2 ^ e <= 100))
  | S754_infinity _ | S754_nan => False
  end.

(** The location of a remainder [r] against the half [h] of the divisor. *)
Definition loc_of_rem (r h : Z) : location :=
  if r =? 0 then loc_Exact else loc_Inexact (r ?= h).

(** Shifting an exact mantissa [m0] right by [k] bits gives the quotient by
    [2 ^ k] and the location of the remainder. *)
Definition shr_exact (m0 k : Z) (mrs : shr_record) : Prop :=
  shr_m mrs = m0 / 2 ^ k
  /\ loc_of_shr_record mrs = loc_of_rem (m0 mod 2 ^ k) (2 ^ (k - 1)).

(** The integer a float64 holds after [of_Z v], for [0 <= v < 2 ^ 63]: [v]
    itself below [2 ^ 53], else [v] rounded half to even to 53 bits. *)
Definition conv_value (v : Z) : Z :=
  if v <? 2 ^ 53 then v
  else Numpy.round_half_even v (2 ^ (Zdigits2 v - 53)) * 2 ^ (Zdigits2 v - 53).
End FloatBound.

(** * Properties *)

(** ** Floats: signs through rounding *)

Section FloatSignFacts.
Import FloatSign.

Lemma round_aux_has_sign s m e l :
  has_sign s (binary_round_aux prec emax s m e l).
Proof.
  unfold binary_round_aux.
  destruct (shr_fexp prec emax m e l) as [mrs' e'].
  destruct (shr_fexp prec emax _ e' loc_Exact) as [mrs'' e''].
  destruct (shr_m mrs''); simpl; trivial.
  destruct (Z.leb e'' _); reflexivity.
Qed.

Lemma SFabs_round_aux s m e l :
  SFabs (binary_round_aux prec emax s m e l) = binary_round_aux prec emax false m e l.
Proof.
  unfold binary_round_aux.
  destruct (shr_fexp prec emax m e l) as [mrs' e'].
  destruct (shr_fexp prec emax _ e' loc_Exact) as [mrs'' e''].
  destruct (shr_m mrs''); simpl; trivial.
  destruct (Z.leb e'' _); reflexivity.
Qed.

Lemma round_has_sign s m e : has_sign s (binary_round prec emax s m e).
Proof.
  unfold binary_round. destruct (shl_align _ _ _) as [mz ez].
  apply round_aux_has_sign.
Qed.

Lemma SFabs_has_sign x : has_sign false (SFabs x).
Proof. destruct x; simpl; trivial. Qed.

Lemma SFadd_nonneg x y :
  has_sign false x -> has_sign false y -> has_sign false (SF64add x y).
Proof.
  destruct x as [sx|sx| |sx mx ex], y as [sy|sy| |sy my ey];
    simpl; intros Hx Hy; subst; simpl; trivial.
  apply round_has_sign.
Qed.

Lemma SFmul_nonneg x y :
  has_sign false x -> has_sign false y -> has_sign false (SF64mul x y).
Proof.
  destruct x as [sx|sx| |sx mx ex], y as [sy|sy| |sy my ey];
    simpl; intros Hx Hy; subst; simpl; trivial.
  apply (round_aux_has_sign false).
Qed.

Lemma SFdiv_nonneg x y :
  has_sign false x -> has_sign false y -> has_sign false (SF64div x y).
Proof.
  destruct x as [sx|sx| |sx mx ex], y as [sy|sy| |sy my ey];
    simpl; intros Hx Hy; subst; simpl; trivial.
  destruct (SFdiv_core_binary _ _ _ _ _ _) as [[mz ez] lz].
  apply (round_aux_has_sign false).
Qed.

Lemma SFabs_div x y :
  has_sign false y -> SFabs (SF64div x y) = SF64div (SFabs x) y.
Proof.
  destruct x as [sx|sx| |sx mx ex], y as [sy|sy| |sy my ey];
    simpl; intros Hy; subst; simpl; trivial.
  destruct (SFdiv_core_binary _ _ _ _ _ _) as [[mz ez] lz].
  apply SFabs_round_aux.
Qed.

Lemma SFmul_comm x y : SF64mul x y = SF64mul y x.
Proof.
  destruct x as [sx|sx| |sx mx ex], y as [sy|sy| |sy my ey];
    simpl; trivial; try (rewrite xorb_comm; reflexivity).
  rewrite xorb_comm, Pos.mul_comm, Z.add_comm. reflexivity.
Qed.

Lemma abs_nonneg x : nonneg (abs x).
Proof. unfold nonneg. rewrite abs_spec. apply SFabs_has_sign. Qed.

Lemma add_nonneg x y : nonneg x -> nonneg y -> nonneg (x + y)%float.
Proof. unfold nonneg. rewrite add_spec. apply SFadd_nonneg. Qed.

Lemma mul_nonneg x y : nonneg x -> nonneg y -> nonneg (x * y)%float.
Proof. unfold nonneg. rewrite mul_spec. apply SFmul_nonneg. Qed.

Lemma div_nonneg x y : nonneg x -> nonneg y -> nonneg (x / y)%float.
Proof. unfold nonneg. rewrite div_spec. apply SFdiv_nonneg. Qed.

Lemma abs_div x y : nonneg y -> (abs (x / y) = abs x / y)%float.
Proof.
  intros Hy. apply Prim2SF_inj.
  rewrite abs_spec, !div_spec, abs_spec. apply SFabs_div, Hy.
Qed.

Lemma mul_comm x y : (x * y = y * x)%float.
Proof. apply Prim2SF_inj. rewrite !mul_spec. apply SFmul_comm. Qed.

Lemma of_uint63_nonneg n : nonneg (of_uint63 n).
Proof.
  unfold nonneg. rewrite of_uint63_spec.
  pose proof (Uint63.to_Z_bounded n) as [Hn _].
  destruct (Uint63.to_Z n); simpl; trivial.
  - apply round_has_sign.
  - lia.
Qed.

Lemma of_nat_nonneg n : nonneg (Numpy.of_nat n).
Proof.
  unfold Numpy.of_nat, Numpy.of_Z.
  destruct (Z.ltb_spec (Z.of_nat n) 0); [lia|]. apply of_uint63_nonneg.
Qed.

End FloatSignFacts.

(** ** Floats: bounds through rounding *)

Section FloatBoundFacts.
Import Numpy FloatBound.
#[local] Open Scope Z_scope.

Lemma digits2_pos_bounds (p : positive) :
  2 ^ (Zpos (digits2_pos p) - 1) <= Zpos p < 2 ^ Zpos (digits2_pos p).
Proof.
  induction p as [p IH|p IH|]; cbn [digits2_pos].
  - rewrite Pos2Z.inj_succ. replace (Z.succ (Zpos (digits2_pos p)) - 1) with (Z.succ (Zpos (digits2_pos p) - 1)) by lia.
    rewrite !Z.pow_succ_r by lia. lia.
  - rewrite Pos2Z.inj_succ. replace (Z.succ (Zpos (digits2_pos p)) - 1) with (Z.succ (Zpos (digits2_pos p) - 1)) by lia.
    rewrite !Z.pow_succ_r by lia. lia.
  - simpl. lia.
Qed.

Lemma Zdigits2_bounds (m : Z) : 0 < m -> 2 ^ (Zdigits2 m - 1) <= m < 2 ^ Zdigits2 m.
Proof. destruct m as [|p|p]; try lia. intros _. apply digits2_pos_bounds. Qed.

Lemma Zdigits2_nonneg (m : Z) : 0 <= Zdigits2 m.
Proof. destruct m; simpl; lia. Qed.

Lemma Zdigits2_le (m k : Z) : 0 <= m < 2 ^ k -> 0 <= k -> Zdigits2 m <= k.
Proof.
  intros [Hm Hlt] Hk. destruct (Z.eq_dec m 0) as [->|Hne]; [simpl; lia|].
  destruct (Zdigits2_bounds m) as [Hlo _]; [lia|].
  destruct (Z.le_gt_cases (Zdigits2 m) k) as [|Hgt]; [assumption|].
  exfalso. assert (2 ^ k <= 2 ^ (Zdigits2 m - 1)) by (apply Z.pow_le_mono_r; lia). lia.
Qed.

Lemma shr_inv_init (m : Z) (l : location) :
  0 <= m -> shr_inv m l 0 (shr_record_of_loc m l).
Proof.
  intros Hm. unfold shr_inv.
  destruct l as [|[]]; simpl; (split; [lia|]); (split; [lia|]); intros Hl;
    try (right; discriminate); contradiction.
Qed.

Lemma shr_1_inv (m0 : Z) (l0 : location) (k : Z) (mrs : shr_record) :
  0 <= k -> shr_inv m0 l0 k mrs -> shr_inv m0 l0 (k + 1) (shr_1 mrs).
Proof.
  intros Hk (Hm & Hle & Hloc). unfold shr_inv.
  rewrite Z.pow_add_r by lia. change (2 ^ 1) with 2.
  assert (Hp : 0 < 2 ^ k) by (apply Z.pow_pos_nonneg; lia).
  destruct mrs as [m r s]. cbn [shr_m] in *.
  assert (Hold : (r || s = true) -> m * 2 ^ k < m0 \/ l0 <> loc_Exact).
  { intros Hrs. apply Hloc. destruct r, s; simpl in *; discriminate. }
  destruct m as [|[p|p|]|p]; cbn [shr_1 shr_m]; try lia.
  - (* 0 *) split; [lia|]. split; [lia|].
    intros Hl. apply Hold. destruct (r || s); [reflexivity|]. simpl in Hl. contradiction.
  - (* 2p *)
    assert (Hrs : loc_of_shr_record {| shr_m := Z.pos p; shr_r := false; shr_s := r || s |}
                  <> loc_Exact -> r || s = true).
    { destruct (r || s); [reflexivity|]. simpl. contradiction. }
    split; [lia|]. split; [lia|].
    intros Hl. destruct (Hold (Hrs Hl)) as [Hlt|Hne]; [left; lia | right; exact Hne].
Qed.

Lemma iter_pos_shr_inv (m0 : Z) (l0 : location) (p : positive) :
  forall (k : Z) (mrs : shr_record),
    0 <= k -> shr_inv m0 l0 k mrs ->
    shr_inv m0 l0 (k + Zpos p) (SpecFloat.iter_pos shr_1 p mrs).
Proof.
  induction p as [p IH|p IH|]; intros k mrs Hk Hinv; cbn [SpecFloat.iter_pos].
  - replace (k + Zpos p~1) with ((k + 1 + Zpos p) + Zpos p) by lia.
    apply IH; [lia|]. apply IH; [lia|]. apply shr_1_inv; assumption.
  - replace (k + Zpos p~0) with ((k + Zpos p) + Zpos p) by lia.
    apply IH; [lia|]. apply IH; assumption.
  - apply shr_1_inv; assumption.
Qed.

Lemma shr_fexp_spec (m e : Z) (l : location) :
  0 <= m ->
  exists k, 0 <= k
    /\ snd (shr_fexp prec emax m e l) = e + k
    /\ e + k = Z.max e (fexp prec emax (Zdigits2 m + e))
    /\ shr_inv m l k (fst (shr_fexp prec emax m e l)).
Proof.
  intros Hm. unfold shr_fexp, shr.
  destruct (fexp prec emax (Zdigits2 m + e) - e) as [|p|p] eqn:E.
  - exists 0. cbn [fst snd]. split; [lia|]. split; [lia|]. split; [lia|].
    apply shr_inv_init, Hm.
  - exists (Zpos p). cbn [fst snd]. split; [lia|]. split; [lia|]. split; [lia|].
    apply (iter_pos_shr_inv m l p 0); [lia|]. apply shr_inv_init, Hm.
  - exists 0. cbn [fst snd]. split; [lia|]. split; [lia|]. split; [lia|].
    apply shr_inv_init, Hm.
Qed.

Lemma round_nearest_even_cases (m : Z) (l : location) :
  round_nearest_even m l = m
  \/ (round_nearest_even m l = m + 1 /\ l <> loc_Exact).
Proof.
  destruct l as [|[]]; simpl; auto;
    try (right; split; [reflexivity | discriminate]).
  destruct (Z.even m); [left; reflexivity | right; split; [reflexivity | discriminate]].
Qed.

(** Rounding does not cross a bound [J] (in units of [2 ^ e]) that is on the
    grid of the result. *)
Lemma round_aux_upper (s : bool) (m e : Z) (l : location) (J : Z) :
  0 <= m -> m <= J -> (l <> loc_Exact -> m < J) ->
  (2 ^ (Z.max e (fexp prec emax (Zdigits2 m + e)) - e) | J) ->
  e <= emax - prec -> J < 2 ^ (emax - prec + 1 - e) ->
  match binary_round_aux prec emax s m e l with
  | S754_zero s' => s' = s
  | S754_finite s' m' e' => s' = s /\ e <= e' /\ Zpos m' * 2 ^ (e' - e) <= J
  | S754_infinity _ | S754_nan => False
  end.
Proof.
  intros Hm HJ Hstrict Hdiv He Hover.
  unfold binary_round_aux.
  destruct (shr_fexp_spec m e l Hm) as (k & Hk & He1 & Hmax & Hm1 & Hle1 & Hloc1).
  destruct (shr_fexp prec emax m e l) as [mrs1 e1]. cbn [fst snd] in *. subst e1.
  set (m1 := round_nearest_even (shr_m mrs1) (loc_of_shr_record mrs1)).
  assert (Hm1J : 0 <= m1 /\ m1 * 2 ^ k <= J).
  { assert (Hp : 0 < 2 ^ k) by (apply Z.pow_pos_nonneg; lia).
    destruct (round_nearest_even_cases (shr_m mrs1) (loc_of_shr_record mrs1))
      as [E|[E Hl]]; fold m1 in E; rewrite E.
    - split; lia.
    - split; [lia|].
      assert (Hlt : shr_m mrs1 * 2 ^ k < J).
      { destruct (Hloc1 Hl) as [Hlt|Hne]; [lia|]. specialize (Hstrict Hne). lia. }
      rewrite <- Hmax in Hdiv. replace (e + k - e) with k in Hdiv by lia.
      destruct Hdiv as [c ->].
      assert (shr_m mrs1 < c) by (apply (Z.mul_lt_mono_pos_r (2 ^ k)); assumption).
      apply Z.mul_le_mono_nonneg_r; lia. }
  destruct Hm1J as [Hm1' Hm1J].
  destruct (shr_fexp_spec m1 (e + k) loc_Exact Hm1') as (k2 & Hk2 & He2 & _ & Hm2 & Hle2 & _).
  destruct (shr_fexp prec emax m1 (e + k) loc_Exact) as [mrs2 e2]. cbn [fst snd] in *. subst e2.
  assert (Hp2 : 0 < 2 ^ k2) by (apply Z.pow_pos_nonneg; lia).
  assert (Hp1 : 0 < 2 ^ k) by (apply Z.pow_pos_nonneg; lia).
  assert (Hfinal : shr_m mrs2 * 2 ^ (e + k + k2 - e) <= J).
  { replace (e + k + k2 - e) with (k2 + k) by lia. rewrite Z.pow_add_r by lia. nia. }
  destruct (shr_m mrs2) as [|p|p] eqn:Em2; [reflexivity| |lia].
  assert (Hexp : e + k + k2 <= emax - prec).
  { destruct (Z.le_gt_cases (e + k + k2) (emax - prec)) as [|Hgt]; [assumption|exfalso].
    assert (2 ^ (emax - prec + 1 - e) <= 2 ^ (e + k + k2 - e)) by (apply Z.pow_le_mono_r; lia).
    nia. }
  apply Z.leb_le in Hexp. rewrite Hexp. repeat split; [lia | exact Hfinal].
Qed.

(** A mantissa that is already in canonical position is left as it is. *)
Lemma round_aux_exact (s : bool) (m : positive) (e : Z) :
  fexp prec emax (Zpos (digits2_pos m) + e) = e -> e <= emax - prec ->
  binary_round_aux prec emax s (Zpos m) e loc_Exact = S754_finite s m e.
Proof.
  intros Hcanon He. unfold binary_round_aux, shr_fexp. cbn [Zdigits2].
  rewrite Hcanon, Z.sub_diag. cbn [shr shr_record_of_loc shr_m loc_of_shr_record round_nearest_even].
  cbn [Zdigits2]. rewrite Hcanon, Z.sub_diag. cbn [shr shr_record_of_loc shr_m].
  apply Z.leb_le in He. rewrite He. reflexivity.
Qed.

Lemma iter_xO_spec (p n : positive) :
  Zpos (Pos.iter xO p n) = Zpos p * 2 ^ Zpos n
  /\ Zpos (digits2_pos (Pos.iter xO p n)) = Zpos (digits2_pos p) + Zpos n.
Proof.
  induction n as [|n IH] using Pos.peano_ind.
  - cbn [Pos.iter digits2_pos]. split; lia.
  - rewrite Pos.iter_succ. cbn [digits2_pos]. destruct IH as [IH1 IH2].
    rewrite Pos2Z.inj_xO, IH1, !Pos2Z.inj_succ, IH2, Z.pow_succ_r by lia. split; lia.
Qed.

(** The conversion of an integer below [2 ^ 53] is exact. *)
Lemma Prim2SF_of_Z_exact (v : Z) :
  0 < v < 2 ^ 53 ->
  exists m e, Prim2SF (of_Z v) = S754_finite false m e
    /\ - 52 <= e <= 0 /\ Zpos m = v * 2 ^ (- e)
    /\ Zpos (digits2_pos m) = 53.
Proof.
  intros [Hpos Hlt]. unfold of_Z.
  destruct (Z.ltb_spec v 0) as [|_]; [lia|].
  rewrite of_uint63_spec, Uint63.of_Z_spec, Z.mod_small
    by (split; [lia|]; apply (Z.lt_trans _ (2 ^ 53)); [assumption | reflexivity]).
  destruct v as [|p|p]; try lia. cbn [binary_normalize]. unfold binary_round.
  pose proof (digits2_pos_bounds p) as [Hlo Hhi].
  assert (Hd : Zpos (digits2_pos p) <= 53).
  { apply (Zdigits2_le (Zpos p)); lia. }
  unfold shl_align.
  replace (fexp prec emax (Zpos (digits2_pos p) + 0)) with (Zpos (digits2_pos p) - 53)
    by (unfold fexp, emin, emax, prec; lia).
  destruct (Zpos (digits2_pos p) - 53 - 0) as [|d|d] eqn:Ed; try lia.
  - exists p, 0. rewrite round_aux_exact.
    + repeat split; lia.
    + unfold fexp, emin, emax, prec. lia.
    + unfold emax, prec. lia.
  - destruct (iter_xO_spec p d) as [Hval Hdig].
    exists (Pos.iter xO p d), (Zpos (digits2_pos p) - 53). rewrite round_aux_exact.
    + replace (- (Zpos (digits2_pos p) - 53)) with (Zpos d) by lia.
      repeat split; lia.
    + unfold fexp, emin, emax, prec. lia.
    + unfold emax, prec. lia.
Qed.

Lemma new_location_inexact (n r : Z) : new_location n r <> loc_Exact -> r <> 0.
Proof.
  unfold new_location, new_location_even, new_location_odd.
  intros Hl ->. destruct (Z.even n); simpl in Hl; contradiction.
Qed.

Lemma pow2_le_inv (a b : Z) : 0 <= b -> 2 ^ a <= 2 ^ b -> a <= b.
Proof.
  intros Hb Hle. destruct (Z.le_gt_cases a b) as [|Hgt]; [assumption|exfalso].
  assert (2 ^ b < 2 ^ a) by (apply Z.pow_lt_mono_r; lia). lia.
Qed.

(** What [round_aux_upper] gives when the bound is one. *)
Lemma le_one_of_upper (x : spec_float) (e : Z) :
  e <= 0 ->
  match x with
  | S754_zero s' => s' = false
  | S754_finite s' m' e' => s' = false /\ e <= e' /\ Zpos m' * 2 ^ (e' - e) <= 2 ^ (- e)
  | S754_infinity _ | S754_nan => False
  end -> le_one x.
Proof.
  intros He. destruct x as [s'|s'| |s' m' e']; simpl; trivial.
  intros (Hs & Hee & Hle). split; [exact Hs|].
  assert (Hp : 0 < 2 ^ (e' - e)) by (apply Z.pow_pos_nonneg; lia).
  assert (He' : e' <= 0).
  { assert (e' - e <= - e); [|lia]. apply pow2_le_inv; [lia|]. nia. }
  split; [exact He'|].
  replace (- e) with (- e' + (e' - e)) in Hle by lia.
  rewrite Z.pow_add_r in Hle by lia. nia.
Qed.

(** The quotient of two normal numbers, the first no greater than the
    second, is at most one. *)
Lemma SFdiv_le_one (mx my : positive) (ex ey : Z) :
  Zpos (digits2_pos mx) = 53 -> Zpos (digits2_pos my) = 53 ->
  - 52 <= ex -> ex <= ey -> ey <= 11 ->
  Zpos mx <= Zpos my * 2 ^ (ey - ex) ->
  le_one (SF64div (S754_finite false mx ex) (S754_finite false my ey)).
Proof.
  intros Hdx Hdy Hex Hexy Hey Hle.
  unfold SF64div, SFdiv, SFdiv_core_binary. cbn [Zdigits2 xorb]. rewrite Hdx, Hdy.
  replace (Z.min (fexp prec emax (53 + ex - (53 + ey))) (ex - ey)) with (ex - ey - 53)
    by (unfold fexp, emin, emax, prec; lia).
  replace (ex - ey - (ex - ey - 53)) with 53 by lia.
  rewrite Z.shiftl_mul_pow2 by lia.
  pose proof (Z_div_mod (Zpos mx * 2 ^ 53) (Zpos my) eq_refl) as Hdiv.
  destruct (Z.div_eucl (Zpos mx * 2 ^ 53) (Zpos my)) as [q r]. destruct Hdiv as [Hq Hr].
  set (e' := ex - ey - 53).
  assert (HJ : 2 ^ (- e') = 2 ^ (ey - ex) * 2 ^ 53).
  { unfold e'. replace (- (ex - ey - 53)) with (ey - ex + 53) by lia.
    apply Z.pow_add_r; lia. }
  assert (Hq0 : 0 <= q) by nia.
  assert (HqJ : q <= 2 ^ (- e')) by (rewrite HJ; nia).
  apply (le_one_of_upper _ e'); [unfold e'; lia|].
  apply round_aux_upper.
  - exact Hq0.
  - exact HqJ.
  - intros Hl%new_location_inexact. rewrite HJ. nia.
  - assert (Hdq : Zdigits2 q <= - e' + 1).
    { apply Zdigits2_le; [|unfold e'; lia]. split; [exact Hq0|].
      rewrite Z.pow_add_r by (unfold e'; lia). lia. }
    set (k := Z.max e' (fexp prec emax (Zdigits2 q + e')) - e').
    assert (Hk : 0 <= k <= - e') by (unfold k, fexp, emin, emax, prec, e' in *; lia).
    exists (2 ^ (- e' - k)). rewrite <- Z.pow_add_r by lia. f_equal. lia.
  - unfold e', emax, prec. lia.
  - apply Z.pow_lt_mono_r; unfold e', emax, prec; lia.
Qed.

Lemma SFmul_hundred (x : spec_float) :
  le_one x -> le_hundred (SF64mul x (S754_finite false 7036874417766400 (-46))).
Proof.
  destruct x as [s|s| |s mx ex]; simpl; try contradiction.
  - intros ->. reflexivity.
  - intros (-> & Hex & Hmx). cbn [xorb].
    set (e := ex + -46). set (J := 100 * 2 ^ (- e)).
    assert (Hp : 2 ^ (- e) = 2 ^ 46 * 2 ^ (- ex)).
    { unfold e. replace (- (ex + -46)) with (46 + - ex) by lia. apply Z.pow_add_r; lia. }
    assert (Hm : Zpos (mx * 7036874417766400) <= J).
    { unfold J. rewrite Hp, Pos2Z.inj_mul.
      change (Zpos 7036874417766400) with (100 * 2 ^ 46). nia. }
    assert (HJ : J < 2 ^ (53 - ex)).
    { unfold J. rewrite Hp. replace (53 - ex) with (7 + 46 + - ex) by lia.
      rewrite !Z.pow_add_r by lia.
      assert (0 < 2 ^ 46 * 2 ^ (- ex)) by (apply Z.mul_pos_pos; apply Z.pow_pos_nonneg; lia).
      change (2 ^ 7) with 128. lia. }
    assert (Hup : match binary_round_aux prec emax false (Zpos (mx * 7036874417766400)) e
                          loc_Exact with
                  | S754_zero s' => s' = false
                  | S754_finite s' m' e' => s' = false /\ e <= e' /\ Zpos m' * 2 ^ (e' - e) <= J
                  | S754_infinity _ | S754_nan => False
                  end).
    { apply round_aux_upper; [lia | exact Hm | contradiction | | unfold e, emax, prec; lia |].
      - assert (Hd : Zdigits2 (Zpos (mx * 7036874417766400)) <= 53 - ex).
        { apply Zdigits2_le; lia. }
        set (k := Z.max e (fexp prec emax (Zdigits2 (Zpos (mx * 7036874417766400)) + e)) - e).
        assert (Hk : 0 <= k <= 48 - ex) by (unfold k, fexp, emin, emax, prec, e in *; lia).
        exists (25 * 2 ^ (48 - ex - k)). unfold J, e.
        rewrite <- Z.mul_assoc, <- Z.pow_add_r by lia.
        replace (48 - ex - k + k) with (2 + - (ex + -46)) by lia.
        rewrite Z.pow_add_r by lia. change (2 ^ 2) with 4. lia.
      - eapply Z.lt_le_trans; [exact HJ|]. apply Z.pow_le_mono_r; unfold e, emax, prec; lia. }
    destruct (binary_round_aux prec emax false (Zpos (mx * 7036874417766400)) e loc_Exact)
      as [s'|s'| |s' m' e']; simpl; trivial.
    destruct Hup as (-> & Hee & Hle). split; [reflexivity|].
    assert (Hpe : 0 < 2 ^ (e' - e)) by (apply Z.pow_pos_nonneg; lia).
    unfold J in Hle.
    destruct (Z.le_gt_cases e' 0) as [He'|He'].
    + left. split; [exact He'|].
      replace (- e) with (- e' + (e' - e)) in Hle by lia.
      rewrite Z.pow_add_r in Hle by lia. nia.
    + right. split; [exact He'|].
      replace (e' - e) with (e' + - e) in Hle by lia.
      rewrite Z.pow_add_r in Hle by (unfold e; lia).
      assert (0 < 2 ^ (- e)) by (apply Z.pow_pos_nonneg; unfold e; lia). nia.
Qed.

Lemma round_half_even_bounds (m d n : Z) :
  0 <= m -> 0 < d -> m <= n * d -> 0 <= round_half_even m d <= n.
Proof.
  intros Hm Hd Hle. unfold round_half_even.
  pose proof (Z.div_mod m d ltac:(lia)) as Hdm.
  pose proof (Z.mod_pos_bound m d Hd) as Hr.
  assert (Hq : 0 <= m / d) by (apply Z.div_pos; lia).
  assert (Hqn : m / d <= n) by nia.
  assert (Hup : 0 < m mod d -> m / d + 1 <= n) by nia.
  destruct (Z.compare_spec (2 * (m mod d)) d) as [E|E|E]; [|lia|lia].
  destruct (Z.even (m / d)); lia.
Qed.

Lemma rint_hundred (t : float) :
  le_hundred (Prim2SF t) -> exists k, 0 <= k <= 100 /\ rint t = of_Z k.
Proof.
  intros Ht. unfold rint. pose proof (Prim2SF_valid t) as Hv.
  destruct (Prim2SF t) as [s|s| |s m e] eqn:E; simpl in Ht; try contradiction.
  - subst s. exists 0. split; [lia|]. apply Prim2SF_inj. rewrite E. reflexivity.
  - destruct Ht as (-> & Ht).
    destruct (Z.ltb_spec e 0) as [He|He].
    + destruct Ht as [[_ Hm]|[He' _]]; [|lia].
      eexists. split; [|reflexivity].
      apply round_half_even_bounds; [lia | apply Z.pow_pos_nonneg; lia | exact Hm].
    + exfalso. simpl in Hv. unfold bounded, canonical_mantissa in Hv.
      apply andb_true_iff in Hv as [Hc _]. apply Z.eqb_eq in Hc.
      pose proof (digits2_pos_bounds m) as [Hlo _].
      assert (Hd : Zpos (digits2_pos m) = 53) by (unfold fexp, emin, emax, prec in Hc; lia).
      rewrite Hd in Hlo. change (2 ^ (53 - 1)) with 4503599627370496 in Hlo.
      assert (Hpe : 1 <= 2 ^ e) by (apply (Z.pow_le_mono_r 2 0 e); lia).
      destruct Ht as [[He' Hm]|[_ Hm]].
      * replace e with 0 in Hm by lia. simpl in Hm. lia.
      * nia.
Qed.

Lemma forallb_upto (P : Z -> bool) (n : nat) :
  forallb P (map Z.of_nat (seq 0 (S n))) = true ->
  forall k, 0 <= k <= Z.of_nat n -> P k = true.
Proof.
  intros Hall k Hk. rewrite forallb_forall in Hall. apply Hall.
  apply in_map_iff. exists (Z.to_nat k). split; [lia|]. apply in_seq. lia.
Qed.

(** The hundred and one values a ratio rounded to two decimals can take, and
    what a second rounding makes of them. *)
Lemma hundredths_in_unit (k : Z) :
  0 <= k <= 100 ->
  in_unit (of_Z k / of_Z (10 ^ 2)) = true
  /\ in_unit (around 2 (of_Z k / of_Z (10 ^ 2))) = true.
Proof.
  intros Hk.
  pose proof (forallb_upto
                (fun k => in_unit (of_Z k / of_Z (10 ^ 2))
                          && in_unit (around 2 (of_Z k / of_Z (10 ^ 2)))) 100) as Hall.
  apply andb_true_iff. apply Hall; [vm_compute; reflexivity | exact Hk].
Qed.

Lemma SFdiv_zero_le_one (m : positive) (e : Z) :
  le_one (SF64div (S754_zero false) (S754_finite false m e)).
Proof. reflexivity. Qed.

(** *** Integers of 53 bits and more *)

Lemma shr_exact_init (m : Z) : shr_exact m 0 (shr_record_of_loc m loc_Exact).
Proof.
  unfold shr_exact. cbn [shr_record_of_loc shr_m loc_of_shr_record].
  change (2 ^ 0) with 1. rewrite Z.div_1_r, Z.mod_1_r. split; reflexivity.
Qed.

Lemma shr_1_exact (m0 k : Z) (mrs : shr_record) :
  0 <= m0 -> 0 <= k -> shr_exact m0 k mrs -> shr_exact m0 (k + 1) (shr_1 mrs).
Proof.
  intros Hm0 Hk [Hm Hloc]. unfold shr_exact.
  assert (Hp : 0 < 2 ^ k) by (apply Z.pow_pos_nonneg; lia).
  replace (k + 1 - 1) with k by lia.
  rewrite Z.pow_add_r by lia. change (2 ^ 1) with 2.
  rewrite <- Z.div_div by lia. rewrite <- Hm.
  assert (Hrem : m0 mod (2 ^ k * 2) = (shr_m mrs mod 2) * 2 ^ k + m0 mod 2 ^ k).
  { rewrite Z.rem_mul_r by lia. rewrite <- Hm. lia. }
  rewrite Hrem.
  pose proof (Z.mod_pos_bound m0 (2 ^ k) Hp) as Hr.
  assert (Hm' : 0 <= shr_m mrs) by (rewrite Hm; apply Z.div_pos; lia).
  assert (Hs : shr_r mrs || shr_s mrs = negb (m0 mod 2 ^ k =? 0)).
  { unfold loc_of_rem in Hloc. destruct mrs as [m r s]. cbn [shr_r shr_s].
    destruct (m0 mod 2 ^ k =? 0); destruct r, s; simpl in Hloc; try discriminate; reflexivity. }
  destruct mrs as [m r s]. cbn [shr_m shr_r shr_s] in *. clear Hloc Hm.
  unfold loc_of_rem.
  destruct m as [|[p|p|]|p]; cbn [shr_1 shr_m loc_of_shr_record]; try lia.
  - (* 0 *) split; [reflexivity|]. rewrite Hs. change (0 mod 2) with 0.
    destruct (Z.eqb_spec (m0 mod 2 ^ k) 0) as [E|E].
    + rewrite E. reflexivity.
    + replace (0 * 2 ^ k + m0 mod 2 ^ k =? 0) with false by (symmetry; apply Z.eqb_neq; lia).
      replace (0 * 2 ^ k + m0 mod 2 ^ k ?= 2 ^ k) with Lt
        by (symmetry; apply Z.compare_lt_iff; lia).
      reflexivity.
  - (* 2p+1 *) split; [rewrite Pos2Z.inj_xI; apply Z.div_unique with 1; lia|].
    replace (Zpos p~1 mod 2) with 1
      by (rewrite Pos2Z.inj_xI; apply Z.mod_unique with (Zpos p); lia).
    rewrite Hs.
    replace (1 * 2 ^ k + m0 mod 2 ^ k =? 0) with false by (symmetry; apply Z.eqb_neq; lia).
    destruct (Z.eqb_spec (m0 mod 2 ^ k) 0) as [E|E]; simpl negb.
    + rewrite E. replace (1 * 2 ^ k + 0 ?= 2 ^ k) with Eq
        by (symmetry; apply Z.compare_eq_iff; lia). reflexivity.
    + replace (1 * 2 ^ k + m0 mod 2 ^ k ?= 2 ^ k) with Gt
        by (symmetry; apply Z.compare_gt_iff; lia). reflexivity.
  - (* 2p *) split; [rewrite Pos2Z.inj_xO; apply Z.div_unique with 0; lia|].
    replace (Zpos p~0 mod 2) with 0
      by (rewrite Pos2Z.inj_xO; apply Z.mod_unique with (Zpos p); lia).
    rewrite Hs.
    destruct (Z.eqb_spec (m0 mod 2 ^ k) 0) as [E|E]; simpl negb.
    + rewrite E. reflexivity.
    + replace (0 * 2 ^ k + m0 mod 2 ^ k =? 0) with false by (symmetry; apply Z.eqb_neq; lia).
      replace (0 * 2 ^ k + m0 mod 2 ^ k ?= 2 ^ k) with Lt
        by (symmetry; apply Z.compare_lt_iff; lia).
      reflexivity.
  - (* 1 *) split; [reflexivity|]. change (1 mod 2) with 1. rewrite Hs.
    replace (1 * 2 ^ k + m0 mod 2 ^ k =? 0) with false by (symmetry; apply Z.eqb_neq; lia).
    destruct (Z.eqb_spec (m0 mod 2 ^ k) 0) as [E|E]; simpl negb.
    + rewrite E. replace (1 * 2 ^ k + 0 ?= 2 ^ k) with Eq
        by (symmetry; apply Z.compare_eq_iff; lia). reflexivity.
    + replace (1 * 2 ^ k + m0 mod 2 ^ k ?= 2 ^ k) with Gt
        by (symmetry; apply Z.compare_gt_iff; lia). reflexivity.
Qed.

Lemma iter_pos_shr_exact (m0 : Z) (p : positive) :
  0 <= m0 ->
  forall (k : Z) (mrs : shr_record),
    0 <= k -> shr_exact m0 k mrs ->
    shr_exact m0 (k + Zpos p) (SpecFloat.iter_pos shr_1 p mrs).
Proof.
  intros Hm0. induction p as [p IH|p IH|]; intros k mrs Hk Hinv; cbn [SpecFloat.iter_pos].
  - replace (k + Zpos p~1) with ((k + 1 + Zpos p) + Zpos p) by lia.
    apply IH; [lia|]. apply IH; [lia|]. apply shr_1_exact; assumption.
  - replace (k + Zpos p~0) with ((k + Zpos p) + Zpos p) by lia.
    apply IH; [lia|]. apply IH; assumption.
  - apply shr_1_exact; assumption.
Qed.

(** Rounding the shifted mantissa to nearest even is [round_half_even]. *)
Lemma round_nearest_even_rem (m0 k : Z) :
  0 <= m0 -> 0 < k ->
  round_nearest_even (m0 / 2 ^ k) (loc_of_rem (m0 mod 2 ^ k) (2 ^ (k - 1)))
  = round_half_even m0 (2 ^ k).
Proof.
  intros Hm0 Hk. unfold round_half_even, loc_of_rem.
  assert (Hd : 2 ^ k = 2 * 2 ^ (k - 1)).
  { replace k with (1 + (k - 1)) at 1 by lia. rewrite Z.pow_add_r by lia. reflexivity. }
  assert (Hh : 0 < 2 ^ (k - 1)) by (apply Z.pow_pos_nonneg; lia).
  pose proof (Z.mod_pos_bound m0 (2 ^ k) ltac:(lia)) as Hr.
  set (r := m0 mod 2 ^ k) in *. set (q := m0 / 2 ^ k).
  assert (Hc : (2 * r ?= 2 ^ k) = (r ?= 2 ^ (k - 1))).
  { rewrite Hd. destruct (Z.compare_spec r (2 ^ (k - 1)));
      [apply Z.compare_eq_iff | apply Z.compare_lt_iff | apply Z.compare_gt_iff]; lia. }
  rewrite Hc.
  destruct (Z.eqb_spec r 0) as [E|E]; cbn [round_nearest_even].
  - rewrite E. replace (0 ?= 2 ^ (k - 1)) with Lt by (symmetry; apply Z.compare_lt_iff; lia).
    reflexivity.
  - destruct (r ?= 2 ^ (k - 1)); reflexivity.
Qed.

Lemma Zdigits2_unique (m d : Z) : 2 ^ (d - 1) <= m < 2 ^ d -> 0 < d -> Zdigits2 m = d.
Proof.
  intros [Hlo Hhi] Hd.
  assert (Hm : 0 < m).
  { assert (0 < 2 ^ (d - 1)) by (apply Z.pow_pos_nonneg; lia). lia. }
  destruct (Zdigits2_bounds m Hm) as [Hlo' Hhi'].
  assert (Zdigits2 m <= d) by (apply Zdigits2_le; lia).
  destruct (Z.eq_dec (Zdigits2 m) d) as [|Hne]; [assumption|exfalso].
  assert (2 ^ Zdigits2 m <= 2 ^ (d - 1)) by (apply Z.pow_le_mono_r; lia). lia.
Qed.

(** The last step of rounding, on a mantissa of 53 bits or on [2 ^ 53]. *)
Lemma shr_fexp_normal (m1 k : Z) :
  2 ^ 52 <= m1 <= 2 ^ 53 -> 0 <= k <= 900 ->
  exists m e, shr_m (fst (shr_fexp prec emax m1 k loc_Exact)) = Zpos m
    /\ snd (shr_fexp prec emax m1 k loc_Exact) = e
    /\ Zpos (digits2_pos m) = 53 /\ k <= e <= k + 1
    /\ Zpos m * 2 ^ e = m1 * 2 ^ k.
Proof.
  intros [Hlo Hhi] Hk.
  destruct (Z.eq_dec m1 (2 ^ 53)) as [->|Hne].
  - exists 4503599627370496%positive, (k + 1). unfold shr_fexp.
    change (Zdigits2 (2 ^ 53)) with 54.
    replace (fexp prec emax (54 + k) - k) with 1 by (unfold fexp, emin, emax, prec; lia).
    cbn [shr fst snd]. rewrite Z.pow_add_r by lia.
    repeat split; try reflexivity; try lia.
  - assert (Hd : Zdigits2 m1 = 53) by (apply Zdigits2_unique; [simpl Z.sub|]; lia).
    destruct m1 as [|p|p]; try (change (2 ^ 52) with 4503599627370496 in Hlo; lia).
    exists p, k. unfold shr_fexp. rewrite Hd.
    replace (fexp prec emax (53 + k) - k) with 0 by (unfold fexp, emin, emax, prec; lia).
    cbn [shr fst snd shr_record_of_loc shr_m].
    repeat split; try reflexivity; try lia. exact Hd.
Qed.

(** The conversion of an integer of 54 to 63 bits rounds it to 53 bits. *)
Lemma Prim2SF_of_Z_big (v : Z) :
  2 ^ 53 <= v < 2 ^ 63 ->
  exists m e, Prim2SF (of_Z v) = S754_finite false m e
    /\ Zpos (digits2_pos m) = 53 /\ 1 <= e <= 11
    /\ Zpos m * 2 ^ e
       = round_half_even v (2 ^ (Zdigits2 v - 53)) * 2 ^ (Zdigits2 v - 53).
Proof.
  intros [Hlo Hhi]. unfold of_Z.
  assert (H53 : 0 < 2 ^ 53) by reflexivity.
  destruct (Z.ltb_spec v 0) as [|_]; [lia|].
  rewrite of_uint63_spec, Uint63.of_Z_spec, Z.mod_small by (split; [lia | exact Hhi]).
  destruct v as [|p|p]; try lia. cbn [binary_normalize Zdigits2]. unfold binary_round.
  pose proof (digits2_pos_bounds p) as [Hdlo Hdhi].
  set (d := Zpos (digits2_pos p)) in *.
  assert (Hd : 54 <= d <= 63).
  { split.
    - destruct (Z.le_gt_cases 54 d) as [|Hlt]; [assumption|exfalso].
      assert (2 ^ d <= 2 ^ 53) by (apply Z.pow_le_mono_r; lia). lia.
    - apply (Zdigits2_le (Zpos p)); lia. }
  unfold shl_align.
  replace (fexp prec emax (d + 0)) with (d - 53) by (unfold fexp, emin, emax, prec; lia).
  destruct (d - 53 - 0) as [|k|k] eqn:Ek; try lia.
  unfold binary_round_aux, shr_fexp at 1. cbn [Zdigits2]. fold d.
  replace (fexp prec emax (d + 0) - 0) with (Zpos k) by (unfold fexp, emin, emax, prec; lia).
  cbn [shr].
  destruct (iter_pos_shr_exact (Zpos p) k ltac:(lia) 0 _ ltac:(lia) (shr_exact_init (Zpos p)))
    as [Hm Hloc].
  rewrite Z.add_0_l in Hm, Hloc. replace (0 + Zpos k) with (Zpos k) by lia.
  rewrite Hm, Hloc, round_nearest_even_rem by lia.
  replace (d - 53) with (Zpos k) by lia.
  set (m1 := round_half_even (Zpos p) (2 ^ Zpos k)).
  assert (Hpk : 0 < 2 ^ Zpos k) by (apply Z.pow_pos_nonneg; lia).
  assert (Hm1 : 2 ^ 52 <= m1 <= 2 ^ 53).
  { assert (Hsplit : 2 ^ d = 2 ^ 53 * 2 ^ Zpos k /\ 2 ^ (d - 1) = 2 ^ 52 * 2 ^ Zpos k).
    { split; rewrite <- Z.pow_add_r by lia; f_equal; lia. }
    destruct Hsplit as [E1 E2]. rewrite E1 in Hdhi. rewrite E2 in Hdlo.
    split.
    - unfold m1, round_half_even.
      assert (2 ^ 52 <= Zpos p / 2 ^ Zpos k) by (apply Z.div_le_lower_bound; lia).
      destruct (_ ?= _); [destruct (Z.even _)| |]; lia.
    - apply round_half_even_bounds; lia. }
  destruct (shr_fexp_normal m1 (Zpos k) Hm1 ltac:(lia)) as (m & e & Hsm & He & Hdm & Hek & Hval).
  destruct (shr_fexp prec emax m1 (Zpos k) loc_Exact) as [mrs2 e2]. cbn [fst snd] in *.
  subst e2. rewrite Hsm.
  replace (e <=? emax - prec) with true by (symmetry; apply Z.leb_le; unfold emax, prec; lia).
  exists m, e. repeat split; try assumption; lia.
Qed.

Lemma Prim2SF_of_Z_conv (v : Z) :
  0 < v < 2 ^ 63 ->
  exists m e, Prim2SF (of_Z v) = S754_finite false m e
    /\ Zpos (digits2_pos m) = 53 /\ - 52 <= e <= 11
    /\ Zpos m * 2 ^ (e + 52) = conv_value v * 2 ^ 52.
Proof.
  intros [Hpos Hlt]. unfold conv_value.
  destruct (Z.ltb_spec v (2 ^ 53)) as [Hsmall|Hbig].
  - destruct (Prim2SF_of_Z_exact v) as (m & e & E & He & Hm & Hd); [lia|].
    exists m, e. repeat split; try assumption; try lia.
    rewrite Hm, <- Z.mul_assoc, <- Z.pow_add_r by lia. do 2 f_equal. lia.
  - destruct (Prim2SF_of_Z_big v) as (m & e & E & Hd & He & Hm); [lia|].
    exists m, e. repeat split; try assumption; try lia.
    rewrite Z.pow_add_r by lia. rewrite Z.mul_assoc, Hm. reflexivity.
Qed.

Lemma round_half_even_mono (m1 m2 d : Z) :
  0 < d -> m1 <= m2 -> round_half_even m1 d <= round_half_even m2 d.
Proof.
  intros Hd Hle. unfold round_half_even.
  pose proof (Z.div_mod m1 d ltac:(lia)) as E1.
  pose proof (Z.div_mod m2 d ltac:(lia)) as E2.
  pose proof (Z.mod_pos_bound m1 d Hd) as R1.
  pose proof (Z.mod_pos_bound m2 d Hd) as R2.
  assert (Hq : m1 / d <= m2 / d) by (apply Z.div_le_mono; lia).
  destruct (Z.eq_dec (m1 / d) (m2 / d)) as [Eq|Hne].
  - rewrite Eq in *. assert (m1 mod d <= m2 mod d) by lia.
    destruct (Z.compare_spec (2 * (m1 mod d)) d), (Z.compare_spec (2 * (m2 mod d)) d);
      try lia; destruct (Z.even (m2 / d)); lia.
  - assert (m1 / d + 1 <= m2 / d) by lia.
    destruct (2 * (m1 mod d) ?= d), (2 * (m2 mod d) ?= d);
      try destruct (Z.even (m1 / d)); try destruct (Z.even (m2 / d)); lia.
Qed.

Lemma Zdigits2_mono (v n : Z) : 0 < v <= n -> Zdigits2 v <= Zdigits2 n.
Proof.
  intros [Hv Hvn]. destruct (Zdigits2_bounds n) as [_ Hhi]; [lia|].
  apply Zdigits2_le; [lia | apply Zdigits2_nonneg].
Qed.

Lemma conv_value_bounds (v : Z) :
  2 ^ 53 <= v -> 2 ^ (Zdigits2 v - 1) <= conv_value v <= 2 ^ Zdigits2 v.
Proof.
  intros Hbig. unfold conv_value.
  assert (H53 : 0 < 2 ^ 53) by reflexivity.
  destruct (Z.ltb_spec v (2 ^ 53)) as [|_]; [lia|].
  destruct (Zdigits2_bounds v) as [Hlo Hhi]; [lia|].
  set (d := Zdigits2 v) in *.
  assert (Hd : 54 <= d).
  { destruct (Z.le_gt_cases 54 d) as [|Hlt]; [assumption|exfalso].
    assert (2 ^ d <= 2 ^ 53) by (apply Z.pow_le_mono_r; unfold d; try lia; apply Zdigits2_nonneg).
    lia. }
  assert (Hpk : 0 < 2 ^ (d - 53)) by (apply Z.pow_pos_nonneg; lia).
  assert (E1 : 2 ^ d = 2 ^ 53 * 2 ^ (d - 53)) by (rewrite <- Z.pow_add_r by lia; f_equal; lia).
  assert (E2 : 2 ^ (d - 1) = 2 ^ 52 * 2 ^ (d - 53))
    by (rewrite <- Z.pow_add_r by lia; f_equal; lia).
  rewrite E1, E2. rewrite E1 in Hhi. rewrite E2 in Hlo.
  destruct (round_half_even_bounds v (2 ^ (d - 53)) (2 ^ 53)) as [_ Hup]; [lia..|].
  pose proof (round_half_even_mono (2 ^ 52 * 2 ^ (d - 53)) v (2 ^ (d - 53)) Hpk Hlo) as Hdown.
  assert (E : round_half_even (2 ^ 52 * 2 ^ (d - 53)) (2 ^ (d - 53)) = 2 ^ 52).
  { unfold round_half_even. rewrite Z.mod_mul, Z.div_mul by lia.
    replace (2 * 0 ?= 2 ^ (d - 53)) with Lt by (symmetry; apply Z.compare_lt_iff; lia).
    reflexivity. }
  rewrite E in Hdown. split; nia.
Qed.

(** Conversion to float64 is monotone. *)
Lemma conv_value_mono (v n : Z) : 0 < v <= n -> conv_value v <= conv_value n.
Proof.
  intros [Hv Hvn].
  assert (H53 : 0 < 2 ^ 53) by reflexivity.
  destruct (Z.lt_ge_cases n (2 ^ 53)) as [Hn|Hn].
  - unfold conv_value.
    destruct (Z.ltb_spec v (2 ^ 53)), (Z.ltb_spec n (2 ^ 53)); lia.
  - destruct (conv_value_bounds n Hn) as [Hnlo _].
    destruct (Z.lt_ge_cases v (2 ^ 53)) as [Hvs|Hvb].
    + assert (2 ^ 53 <= 2 ^ (Zdigits2 n - 1)).
      { apply Z.pow_le_mono_r; [lia|].
        destruct (Zdigits2_bounds n) as [_ Hhi]; [lia|].
        destruct (Z.le_gt_cases 54 (Zdigits2 n)) as [|Hlt]; [lia|exfalso].
        assert (2 ^ Zdigits2 n <= 2 ^ 53)
          by (apply Z.pow_le_mono_r; try lia; apply Zdigits2_nonneg). lia. }
      unfold conv_value at 1. destruct (Z.ltb_spec v (2 ^ 53)); lia.
    + destruct (conv_value_bounds v Hvb) as [_ Hvhi].
      pose proof (Zdigits2_mono v n ltac:(lia)) as Hd.
      destruct (Z.eq_dec (Zdigits2 v) (Zdigits2 n)) as [E|Hne].
      * unfold conv_value.
        destruct (Z.ltb_spec v (2 ^ 53)), (Z.ltb_spec n (2 ^ 53)); try lia.
        rewrite E.
        assert (0 < 2 ^ (Zdigits2 n - 53)).
        { apply Z.pow_pos_nonneg; [lia|].
          destruct (conv_value_bounds n Hn) as [_ _].
          destruct (Zdigits2_bounds n) as [_ Hhi]; [lia|].
          destruct (Z.le_gt_cases 53 (Zdigits2 n)) as [|Hlt]; [lia|exfalso].
          assert (2 ^ Zdigits2 n <= 2 ^ 53)
            by (apply Z.pow_le_mono_r; try lia; apply Zdigits2_nonneg). lia. }
        apply Z.mul_le_mono_nonneg_r; [lia|]. apply round_half_even_mono; lia.
      * assert (2 ^ Zdigits2 v <= 2 ^ (Zdigits2 n - 1)).
        { apply Z.pow_le_mono_r; [lia|]. lia. }
        lia.
Qed.

(** The quotient of two counts, the first no greater than the second. *)
Lemma ratio_le_one (v n : Z) :
  0 <= v <= n -> 0 < n < 2 ^ 63 -> le_one (Prim2SF (of_Z v / of_Z n)).
Proof.
  intros [Hv Hvn] [Hn Hn63]. rewrite div_spec.
  destruct (Prim2SF_of_Z_conv n) as (my & ey & -> & Hdy & Hey & Hmy); [lia|].
  destruct (Z.eq_dec v 0) as [->|Hv0]; [apply SFdiv_zero_le_one|].
  destruct (Prim2SF_of_Z_conv v) as (mx & ex & -> & Hdx & Hex & Hmx); [lia|].
  pose proof (conv_value_mono v n ltac:(lia)) as Hmono.
  assert (Hxy : Zpos mx * 2 ^ (ex + 52) <= Zpos my * 2 ^ (ey + 52)).
  { rewrite Hmx, Hmy. apply Z.mul_le_mono_nonneg_r; [apply Z.pow_nonneg; lia | exact Hmono]. }
  pose proof (digits2_pos_bounds mx) as [Hxlo Hxhi].
  pose proof (digits2_pos_bounds my) as [Hylo Hyhi].
  rewrite Hdx in Hxlo, Hxhi. rewrite Hdy in Hylo, Hyhi.
  change (2 ^ (53 - 1)) with 4503599627370496 in *.
  change (2 ^ 53) with 9007199254740992 in *.
  assert (Hpx : 0 < 2 ^ (ex + 52)) by (apply Z.pow_pos_nonneg; lia).
  assert (Hpy : 0 < 2 ^ (ey + 52)) by (apply Z.pow_pos_nonneg; lia).
  assert (Hexy : ex <= ey).
  { destruct (Z.le_gt_cases ex ey) as [|Hgt]; [assumption|exfalso].
    assert (E : 2 ^ (ex + 52) = 2 ^ (ey + 52) * 2 ^ (ex - ey)).
    { rewrite <- Z.pow_add_r by lia. f_equal. lia. }
    assert (2 <= 2 ^ (ex - ey)) by (apply (Z.pow_le_mono_r 2 1); lia).
    rewrite E in Hxy. nia. }
  apply SFdiv_le_one; try assumption; try lia.
  assert (E : 2 ^ (ey + 52) = 2 ^ (ex + 52) * 2 ^ (ey - ex)).
  { rewrite <- Z.pow_add_r by lia. f_equal. lia. }
  rewrite E in Hxy. nia.
Qed.

(** A float that is at most one, rounded to two decimals, is one of the
    hundredths. *)
Lemma around_2_le_one (x : float) :
  le_one (Prim2SF x) -> exists k, 0 <= k <= 100 /\ around 2 x = (of_Z k / of_Z (10 ^ 2))%float.
Proof.
  intros Hx. unfold around.
  destruct (rint_hundred (x * of_Z (10 ^ 2))) as (k & Hk & ->).
  - rewrite mul_spec. apply SFmul_hundred, Hx.
  - exists k. split; [exact Hk | reflexivity].
Qed.

(** C5 on floats: a count over the number of rows, rounded to two decimals
    once or twice, lies between zero and one. *)
Lemma rounded_ratio_in_unit (v n : Z) :
  0 <= v <= n -> 0 < n < 2 ^ 63 ->
  in_unit (around 2 (of_Z v / of_Z n)) = true
  /\ in_unit (around 2 (around 2 (of_Z v / of_Z n))) = true.
Proof.
  intros Hv Hn.
  destruct (around_2_le_one _ (ratio_le_one v n Hv Hn)) as (k & Hk & ->).
  apply hundredths_in_unit, Hk.
Qed.

End FloatBoundFacts.

(** ** numpy: sort, mean, median and boolean indexing *)

Section NumpyFacts.
Import Numpy FloatSign.
#[local] Open Scope float_scope.

Lemma Forall_insert (P : float -> Prop) x l :
  P x -> Forall P l -> Forall P (insert x l).
Proof.
  intros Hx Hl. induction Hl as [|y l Hy Hl IH]; simpl.
  - repeat constructor; assumption.
  - destruct (x <=? y); repeat constructor; assumption.
Qed.

Lemma Forall_sort (P : float -> Prop) l : Forall P l -> Forall P (sort l).
Proof.
  induction 1 as [|x l Hx Hl IH]; simpl; [constructor|].
  apply Forall_insert; assumption.
Qed.

Lemma length_insert_sorted x l : length (insert x l) = S (length l).
Proof.
  induction l as [|y l IH]; simpl; [reflexivity|].
  destruct (x <=? y); simpl; congruence.
Qed.

Lemma length_sort l : length (sort l) = length l.
Proof.
  induction l as [|x l IH]; simpl; [reflexivity|].
  rewrite length_insert_sorted. congruence.
Qed.

Lemma fold_add_nonneg l x :
  nonneg x -> Forall nonneg l -> nonneg (fold_left add l x).
Proof.
  intros Hx Hl. revert x Hx.
  induction Hl as [|y l Hy Hl IH]; simpl; intros x Hx; [assumption|].
  apply IH, add_nonneg; assumption.
Qed.

Lemma mean_nonneg l : Forall nonneg l -> nonneg (mean l).
Proof.
  intros Hl. unfold mean. apply div_nonneg; [|apply of_nat_nonneg].
  apply fold_add_nonneg.
  - destruct Hl; simpl; [reflexivity | assumption].
  - destruct Hl; simpl; [constructor | assumption].
Qed.

Lemma median_nonneg a : Forall nonneg a -> nonneg (median a).
Proof.
  intros Ha. unfold median.
  destruct (existsb is_nan a); [reflexivity|].
  destruct (Nat.odd (length a));
    apply mean_nonneg, Forall_take, Forall_drop, Forall_sort, Ha.
Qed.

Lemma getitem_mask_map (p : float -> bool) a :
  getitem_mask a (map p a) = Ok (List.filter p a).
Proof.
  induction a as [|x a IH]; simpl; [reflexivity|].
  rewrite IH. simpl. destruct (p x); reflexivity.
Qed.

Lemma sublist_filter_list {A} (p : A -> bool) (l : list A) :
  sublist (List.filter p l) l.
Proof.
  induction l as [|x l IH]; simpl; [constructor|].
  destruct (p x); [apply sublist_skip | apply sublist_cons]; exact IH.
Qed.

End NumpyFacts.

(** ** The univariate outlier filter *)

Section OutlierFacts.
Import Numpy FloatSign Outlier.
#[local] Open Scope float_scope.

Lemma centered_nonneg a m : Forall nonneg (np_abs (sub_scalar a m)).
Proof.
  unfold np_abs, sub_scalar. rewrite map_map.
  induction a as [|x a IH]; simpl; constructor; [apply abs_nonneg | exact IH].
Qed.

(** The local variable [mad] of [univariate] is NaN or has a clear sign bit. *)
Lemma mad_nonneg a :
  nonneg (median (np_abs (sub_scalar a (median a))) * __b).
Proof.
  apply mul_nonneg; [apply median_nonneg, centered_nonneg | reflexivity].
Qed.

Lemma univariate_mask a :
  univariate a =
  Ok (List.filter
        (fun x => abs ((x - median a)
                        / (median (np_abs (sub_scalar a (median a))) * __b)) <? 3) a).
Proof.
  unfold univariate. cbv zeta.
  generalize (median (np_abs (sub_scalar a (median a))) * __b) as mad.
  generalize (median a) as m. intros m mad.
  unfold lt_scalar, np_abs, div_scalar, sub_scalar. rewrite !map_map.
  apply (getitem_mask_map (fun x => abs ((x - m) / mad) <? 3)).
Qed.

(** C1: on [1,2,2,3,100] the filter finds median 2 and MAD 1.4826 and returns
    [1,2,2,3]; on every sample it returns, in the order of the input, exactly
    the elements whose robust z-score
    [|x - median| / (1.4826 * median(|x - median|))] is below 3. *)
Theorem univariate_keeps_robust_z_below_3 :
  median [1; 2; 2; 3; 100] = 2
  /\ median (np_abs (sub_scalar [1; 2; 2; 3; 100] 2)) * __b = 1.4826
  /\ univariate [1; 2; 2; 3; 100] = Ok [1; 2; 2; 3]
  /\ forall a : ndarray,
       univariate a = Ok (List.filter (fun x => robust_z a x <? 3) a)
       /\ sublist (List.filter (fun x => robust_z a x <? 3) a) a.
Proof.
  split; [vm_compute; reflexivity|].
  split; [vm_compute; reflexivity|].
  split; [vm_compute; reflexivity|].
  intros a. split; [|apply sublist_filter_list].
  rewrite univariate_mask. f_equal. apply filter_ext. intros x.
  unfold robust_z.
  rewrite (abs_div _ _ (mad_nonneg a)).
  rewrite (mul_comm 1.4826).
  unfold np_abs, sub_scalar. rewrite map_map. reflexivity.
Qed.

(** Division by a zero never gives a value below 3 in magnitude. *)
Lemma abs_div_zero_not_lt_3 x d : (d =? 0) = true -> (abs (x / d) <? 3) = false.
Proof.
  rewrite FloatAxioms.eqb_spec, FloatAxioms.ltb_spec, abs_spec, div_spec.
  change (Prim2SF 0) with (S754_zero false).
  change (Prim2SF 3) with (S754_finite false 6755399441055744 (-51)).
  destruct (Prim2SF d) as [sd|sd| |sd md ed]; unfold SFeqb; simpl; intros H;
    try discriminate H; try (destruct sd; discriminate H).
  destruct (Prim2SF x) as [sx|sx| |sx mx ex]; reflexivity.
Qed.

(** A sample whose MAD is zero loses every element. *)
Lemma univariate_zero_mad a :
  (median (np_abs (sub_scalar a (median a))) * __b =? 0) = true ->
  univariate a = Ok [].
Proof.
  rewrite univariate_mask.
  generalize (median (np_abs (sub_scalar a (median a))) * __b) as mad.
  generalize (median a) as m. intros m mad H. f_equal.
  induction a as [|x a' IH]; [reflexivity|].
  simpl. rewrite (abs_div_zero_not_lt_3 _ _ H). apply IH.
Qed.

(** C2: on the zero-spread sample [5,5,5,5] the MAD is zero and the filter
    returns the empty array: neither the input nor an exception. *)
Theorem univariate_constant_sample_emptied :
  (median (np_abs (sub_scalar [5; 5; 5; 5] (median [5; 5; 5; 5]))) * __b =? 0) = true
  /\ univariate [5; 5; 5; 5] = Ok []
  /\ univariate [5; 5; 5; 5] <> Ok [5; 5; 5; 5]
  /\ (forall e, univariate [5; 5; 5; 5] <> Raise e).
Proof.
  split; [vm_compute; reflexivity|].
  assert (E : univariate [5; 5; 5; 5] = Ok []) by (vm_compute; reflexivity).
  rewrite E. repeat split; [discriminate | intros e; discriminate].
Qed.

End OutlierFacts.

(** ** pandas: counting in a column *)

Section CountingFacts.
Import Pandas.
#[local] Open Scope Z_scope.

Lemma sum_bool_from (l : list bool) (acc : Z) :
  fold_left (fun acc (b : bool) => if b then acc + 1 else acc) l acc
  = acc + sum_bool l.
Proof.
  unfold sum_bool. revert acc.
  assert (G : forall acc0 acc,
             fold_left (fun a (b : bool) => if b then a + 1 else a) l (acc0 + acc)
             = acc + fold_left (fun a (b : bool) => if b then a + 1 else a) l acc0).
  { induction l as [|b l IH]; intros acc0 acc; simpl; [lia|].
    destruct b; [|apply IH].
    replace (acc0 + acc + 1) with (acc0 + 1 + acc) by lia. apply IH. }
  intros acc. apply (G 0 acc).
Qed.

Lemma sum_bool_cons (b : bool) (l : list bool) :
  sum_bool (b :: l) = (if b then 1 else 0) + sum_bool l.
Proof.
  unfold sum_bool at 1. simpl. destruct b; rewrite sum_bool_from; lia.
Qed.

Lemma sum_bool_bounds (l : list bool) : 0 <= sum_bool l <= Z.of_nat (length l).
Proof.
  induction l as [|b l IH]; [unfold sum_bool; simpl; lia|].
  rewrite sum_bool_cons. cbn [length]. destruct b; lia.
Qed.

Lemma sum_bool_negb (l : list bool) :
  sum_bool (map negb l) + sum_bool l = Z.of_nat (length l).
Proof.
  induction l as [|b l IH]; [reflexivity|].
  cbn [map length]. rewrite !sum_bool_cons. destruct b; simpl negb; lia.
Qed.

Lemma length_isna (v : column_values) : length (isna v) = size v.
Proof. destruct v; simpl; apply length_map. Qed.

(** In every column the values that are present and those that are missing
    add up to the length of the column. *)
Lemma count_plus_isna_sum (v : column_values) :
  count v + isna_sum v = Z.of_nat (size v).
Proof. unfold count, isna_sum. rewrite sum_bool_negb. f_equal. apply length_isna. Qed.

Lemma count_bounds (v : column_values) : 0 <= count v <= Z.of_nat (size v).
Proof.
  unfold count. pose proof (sum_bool_bounds (map negb (isna v))) as B.
  rewrite length_map, length_isna in B. exact B.
Qed.

Lemma length_unique_from {A : Type} (eqb : A -> A -> bool) (l seen : list A) :
  (length (unique_from eqb seen l) <= length l)%nat.
Proof.
  revert seen. induction l as [|x l IH]; intros seen; simpl; [lia|].
  destruct (existsb (eqb x) seen); simpl; [specialize (IH seen) | specialize (IH (x :: seen))]; lia.
Qed.

Lemma length_filter_le {A : Type} (p : A -> bool) (l : list A) :
  (length (List.filter p l) <= length l)%nat.
Proof.
  induction l as [|x l IH]; simpl; [lia|]. destruct (p x); simpl; lia.
Qed.

(** The distinct values of a column are no more than its rows. *)
Lemma nunique_bounds (v : column_values) : 0 <= nunique v <= Z.of_nat (size v).
Proof.
  destruct v as [l|l|l|l]; simpl; (split; [lia|]); apply Nat2Z.inj_le; unfold unique.
  - apply length_unique_from.
  - etransitivity; [apply length_filter_le | apply length_unique_from].
  - apply length_unique_from.
  - etransitivity; [apply length_filter_le | apply length_unique_from].
Qed.

Lemma well_formed_size (df : DataFrame) (c : Series) :
  well_formed df = true -> In c (columns df) -> size (values c) = shape0 df.
Proof.
  unfold well_formed. rewrite forallb_forall. intros Hwf Hc.
  apply Nat.eqb_eq, Hwf, Hc.
Qed.

End CountingFacts.

(** ** The summary table *)

Section InfoTableFacts.
Import Numpy Pandas.
Context `{Libs}.

(** The table [InfoTable.build] assembles, before rounding. *)
Lemma build_eq (df : DataFrame) :
  InfoTable.build df =
  Ok (round
        {| index := RangeIndex (length (columns df));
           columns :=
             [ {| name := "Column";
                  values := ObjectValues (map (fun c => Some (name c)) (columns df)) |};
               {| name := "Dtype";
                  values := ObjectValues
                              (map (fun c => Some (dtype_name (dtype_of (values c))))
                                 (columns df)) |};
               {| name := "Valid";
                  values := Int64Values (map (fun c => count (values c)) (columns df)) |};
               {| name := "Null";
                  values := Int64Values (map (fun c => isna_sum (values c)) (columns df)) |};
               {| name := "Validity";
                  values := Float64Values
                              (map (fun c => of_Z (count (values c))
                                             / of_Z (Z.of_nat (shape0 df)))%float
                                 (columns df)) |};
               {| name := "Unique";
                  values := Int64Values (map (fun c => nunique (values c)) (columns df)) |};
               {| name := "Cardinality";
                  values := Float64Values
                              (map (fun c => of_Z (nunique (values c))
                                             / of_Z (Z.of_nat (shape0 df)))%float
                                 (columns df)) |};
               {| name := "Size";
                  values := Int64Values (map (fun c => memory_usage (values c)) (columns df)) |}
             ] |} 2).
Proof.
  unfold InfoTable.build, set_columns, dtypes_frame, setitem, getitem, truediv, shape0.
  repeat (cbn -[round Z.of_nat of_Z count isna_sum nunique memory_usage Nat.eqb];
          rewrite ?length_map, ?Nat.eqb_refl).
  rewrite !map_map. reflexivity.
Qed.

Lemma rows_from_build (t : DataFrame) (cols : list Series) (f : Series -> Summary.ColumnSummary) :
  (forall i c, cols !! i = Some c -> Summary.row t i = Ok (f c)) ->
  forall n i, i + n = length cols ->
  Summary.rows_from t i n = Ok (map f (drop i cols)).
Proof.
  intros Hrow. induction n as [|n IH]; intros i Hi.
  - simpl. rewrite drop_ge by lia. reflexivity.
  - destruct (lookup_lt_is_Some_2 cols i) as [c Hc]; [lia|].
    simpl. rewrite (Hrow i c Hc). cbn.
    rewrite (IH (S i)) by lia. cbn.
    rewrite (drop_S cols c i Hc). reflexivity.
Qed.

(** The rows of the table [InfoTable.build] returns, one per column of the
    data frame and in the order of its columns. *)
Lemma rows_build (df : DataFrame) :
  exists t, InfoTable.build df = Ok t
    /\ Summary.rows t = Ok (map (Summary.of_column df) (columns df))
    /\ Summary.is_summary_table t = true.
Proof.
  eexists. split; [apply build_eq|].
  match goal with |- Summary.rows ?t = _ /\ _ =>
    assert (E : Summary.rows t = Ok (map (Summary.of_column df) (columns df)))
  end.
  { unfold Summary.rows. cbn [shape0 index index_len round].
    rewrite (rows_from_build _ (columns df) (Summary.of_column df)); [reflexivity| |lia].
    intros i c Hc. unfold Summary.row.
    cbn -[Numpy.around Numpy.of_Z count isna_sum nunique memory_usage].
    rewrite !list_lookup_fmap, Hc. reflexivity. }
  split; [exact E|].
  unfold Summary.is_summary_table. rewrite E. reflexivity.
Qed.

Lemma find_column_round (cols : list Series) (d : Z) (k : string) :
  find_column k (map (fun c => {| name := name c; values := round_values d (values c) |}) cols)
  = (fun c => {| name := name c; values := round_values d (values c) |}) <$> find_column k cols.
Proof.
  induction cols as [|c cols IH]; simpl; [reflexivity|].
  destruct (String.eqb (name c) k); [reflexivity | exact IH].
Qed.

Lemma getitem_round (t : DataFrame) (d : Z) (k : string) :
  getitem (round t d) k = (v ← getitem t k; mret (round_values d v)).
Proof.
  unfold getitem, round. cbn [columns]. rewrite find_column_round.
  destruct (find_column k (columns t)); reflexivity.
Qed.

Ltac read_object t i k :=
  let l := fresh "l" in
  destruct (getitem t k) as [[l|l|l|l]|]; cbn; try discriminate;
  destruct (l !! i) as [[?|]|]; cbn; try discriminate.

Ltac read_number t i k :=
  let l := fresh "l" in
  destruct (getitem t k) as [[l|l|l|l]|]; cbn; try discriminate;
  rewrite ?list_lookup_fmap;
  destruct (l !! i) as [?|]; cbn; try discriminate.

Lemma row_round (t : DataFrame) (d : Z) (i : nat) (s : Summary.ColumnSummary) :
  Summary.row t i = Ok s -> Summary.row (round t d) i = Ok (Summary.round_row d s).
Proof.
  unfold Summary.row. rewrite !getitem_round.
  read_object t i "Column". read_object t i "Dtype".
  read_number t i "Valid". read_number t i "Null". read_number t i "Validity".
  read_number t i "Unique". read_number t i "Cardinality". read_number t i "Size".
  intros E. injection E as <-. reflexivity.
Qed.

Lemma rows_from_round (t : DataFrame) (d : Z) (n i : nat) (l : list Summary.ColumnSummary) :
  Summary.rows_from t i n = Ok l ->
  Summary.rows_from (round t d) i n = Ok (map (Summary.round_row d) l).
Proof.
  revert i l. induction n as [|n IH]; intros i l; simpl.
  - intros [= <-]. reflexivity.
  - destruct (Summary.row t i) as [s|] eqn:Hs; cbn; [|discriminate].
    destruct (Summary.rows_from t (S i) n) as [rest|] eqn:Hrest; cbn; [|discriminate].
    intros [= <-]. rewrite (row_round _ _ _ _ Hs). cbn.
    rewrite (IH _ _ Hrest). reflexivity.
Qed.

(** Rounding a summary table rounds the two ratios of every row. *)
Lemma rows_round (t : DataFrame) (d : Z) (l : list Summary.ColumnSummary) :
  Summary.rows t = Ok l -> Summary.rows (round t d) = Ok (map (Summary.round_row d) l).
Proof. unfold Summary.rows. apply rows_from_round. Qed.

Lemma is_summary_table_round (t : DataFrame) (d : Z) :
  Summary.is_summary_table t = true -> Summary.is_summary_table (round t d) = true.
Proof.
  unfold Summary.is_summary_table.
  destruct (Summary.rows t) as [l|] eqn:E; [|discriminate].
  rewrite (rows_round _ d _ E). cbn [round columns]. rewrite map_map. trivial.
Qed.

Lemma find_column_In (k : string) (cols : list Series) :
  In k (map name cols) -> exists c, find_column k cols = Some c.
Proof.
  induction cols as [|c cols IH]; simpl; [intros []|].
  intros [E|Hk].
  - exists c. apply String.eqb_eq in E. rewrite E. reflexivity.
  - destruct (String.eqb (name c) k); [exists c; reflexivity | exact (IH Hk)].
Qed.

Lemma getitem_summary_table (t : DataFrame) (k : string) :
  Summary.is_summary_table t = true ->
  In k ["Column"; "Dtype"; "Valid"; "Null"; "Validity"; "Unique"; "Cardinality"; "Size"] ->
  exists v, getitem t k = Ok v.
Proof.
  unfold Summary.is_summary_table.
  destruct (Summary.rows t); [|discriminate].
  intros E%bool_decide_eq_true Hk. unfold getitem.
  rewrite <- E in Hk. destruct (find_column_In _ _ Hk) as [c ->]. eauto.
Qed.

End InfoTableFacts.

(** ** Running the methods of [Dataset] *)

(** Reading an attribute of an instance whose dictionary is a chain of
    assignments. *)
Ltac lookup_attr :=
  repeat (rewrite lookup_insert_ne by discriminate);
  first [rewrite lookup_insert_eq | rewrite lookup_empty].

Section DatasetFacts.
Import Pandas Py.
Context `{Libs}.
#[local] Arguments InfoTable.build : simpl never.
#[local] Arguments round : simpl never.

Lemma data_info_run cls name filepath df figs :
  let w := {| self := DataBase.__init__ cls name filepath df; figures := figs |} in
  DataBase.info w = (t ← InfoTable.build df; mret (t, w)).
Proof.
  intros w. unfold DataBase.info, getattr, mbind, M_bind at 1 2.
  cbn [self w]. unfold DataBase.__init__. lookup_attr.
  cbn. destruct (InfoTable.build df); reflexivity.
Qed.

Lemma analysis_info_table_fresh cls name filepath df figs :
  let w := {| self := AnalysisBase.__init__ cls name filepath df; figures := figs |} in
  AnalysisBase._info_table w
  = (t ← InfoTable.build df;
     mret (tt, {| self := <["_info" := VFrame t]> (self w); figures := figs |})).
Proof.
  intros w. unfold AnalysisBase._info_table, getattr, mbind, M_bind at 1.
  cbn [self w]. unfold AnalysisBase.__init__ at 1. lookup_attr.
  unfold M_bind, getattr. cbn [self w]. unfold AnalysisBase.__init__ at 1. lookup_attr.
  cbn. destruct (InfoTable.build df); reflexivity.
Qed.

Lemma analysis_info_table_cached (obj : object) t figs :
  obj !! "_info" = Some (VFrame t) ->
  AnalysisBase._info_table {| self := obj; figures := figs |}
  = Ok (tt, {| self := obj; figures := figs |}).
Proof.
  intros Hinfo. unfold AnalysisBase._info_table, getattr, mbind, M_bind.
  cbn [self]. rewrite Hinfo. reflexivity.
Qed.

Lemma plot_cardinality_run (obj : object) t figs normalized :
  obj !! "_info" = Some (VFrame t) ->
  Summary.is_summary_table t = true ->
  exists ax, AnalysisBase.plot_cardinality normalized {| self := obj; figures := figs |}
             = Ok (ax, {| self := obj; figures := figs |}).
Proof.
  intros Hinfo Ht.
  unfold AnalysisBase.plot_cardinality, getattr, mbind, M_bind.
  cbn [self]. rewrite Hinfo. cbn.
  destruct (getitem_summary_table t "Column" Ht) as [c ->]; [simpl; tauto|].
  destruct (getitem_summary_table t (if normalized then "Cardinality" else "Unique") Ht)
    as [u ->]; [destruct normalized; simpl; tauto|].
  cbn. eauto.
Qed.

Lemma plot_validity_run (obj : object) t figs normalized :
  obj !! "_info" = Some (VFrame t) ->
  Summary.is_summary_table t = true ->
  exists ax, AnalysisBase.plot_validity normalized {| self := obj; figures := figs |}
             = Ok (ax, {| self := obj; figures := figs |}).
Proof.
  intros Hinfo Ht.
  unfold AnalysisBase.plot_validity, getattr, mbind, M_bind.
  cbn [self]. rewrite Hinfo. cbn.
  destruct (getitem_summary_table t "Column" Ht) as [c ->]; [simpl; tauto|].
  destruct (getitem_summary_table t (if normalized then "Validity" else "Valid") Ht)
    as [u ->]; [destruct normalized; simpl; tauto|].
  cbn. eauto.
Qed.

(** With the table cached and the name set, [_info_plot] draws one figure
    and changes nothing else. *)
Lemma info_plot_run (obj : object) name t figs :
  obj !! "_info" = Some (VFrame t) ->
  obj !! "_name" = Some (VStr name) ->
  Summary.is_summary_table t = true ->
  exists fig, AnalysisBase._info_plot {| self := obj; figures := figs |}
              = Ok (tt, {| self := obj; figures := figs ++ [fig] |}).
Proof.
  intros Hinfo Hname Ht.
  destruct (plot_cardinality_run obj t figs false Hinfo Ht) as [ax00 E00].
  destruct (plot_cardinality_run obj t figs true Hinfo Ht) as [ax01 E01].
  destruct (plot_validity_run obj t figs false Hinfo Ht) as [ax10 E10].
  destruct (plot_validity_run obj t figs true Hinfo Ht) as [ax11 E11].
  unfold AnalysisBase._info_plot, mbind, M_bind.
  unfold getattr at 1. cbn [self]. rewrite Hname.
  rewrite E00, E01, E10, E11. unfold show. cbn. eauto.
Qed.

(** [info] once the table is cached. *)
Lemma analysis_info_cached (obj : object) name t figs (table plot : bool) :
  obj !! "_info" = Some (VFrame t) ->
  obj !! "_name" = Some (VStr name) ->
  Summary.is_summary_table t = true ->
  exists drawn,
    AnalysisBase.info table plot {| self := obj; figures := figs |}
    = Ok (if table then VFrame (round t 2) else VNone,
          {| self := obj; figures := figs ++ drawn |})
    /\ length drawn = (if plot then 1 else 0).
Proof.
  intros Hinfo Hname Ht.
  unfold AnalysisBase.info, mbind, M_bind.
  rewrite (analysis_info_table_cached obj t figs Hinfo).
  destruct plot.
  - destruct (info_plot_run obj name t figs Hinfo Hname Ht) as [fig ->].
    exists [fig]. split; [|reflexivity].
    destruct table; [|reflexivity].
    unfold getattr. cbn [self]. rewrite Hinfo. reflexivity.
  - exists []. rewrite app_nil_r. split; [|reflexivity].
    cbn. destruct table; [|reflexivity].
    unfold getattr. cbn [self]. rewrite Hinfo. reflexivity.
Qed.

(** [info] on an instance as [__init__] leaves it: the table is computed,
    stored under [_info], and returned or not as [table] says. *)
Lemma analysis_info_fresh cls name filepath df figs (table plot : bool) :
  let obj := AnalysisBase.__init__ cls name filepath df in
  exists t drawn,
    InfoTable.build df = Ok t
    /\ AnalysisBase.info table plot {| self := obj; figures := figs |}
        = Ok (if table then VFrame (round t 2) else VNone,
              {| self := <["_info" := VFrame t]> obj; figures := figs ++ drawn |})
    /\ length drawn = (if plot then 1 else 0).
Proof.
  intros obj. destruct (rows_build df) as (t & Hbuild & _ & Ht).
  set (obj' := <["_info" := VFrame t]> obj).
  assert (Hinfo : obj' !! "_info" = Some (VFrame t)) by apply lookup_insert_eq.
  assert (Hname : obj' !! "_name" = Some (VStr name)).
  { unfold obj', obj, AnalysisBase.__init__. lookup_attr. reflexivity. }
  destruct (analysis_info_cached obj' name t figs table plot Hinfo Hname Ht)
    as (drawn & Hrun & Hdrawn).
  exists t, drawn. split; [exact Hbuild|]. split; [|exact Hdrawn].
  fold obj'. unfold AnalysisBase.info, mbind, M_bind in Hrun |- *.
  rewrite (analysis_info_table_cached obj' t figs Hinfo) in Hrun.
  pose proof (analysis_info_table_fresh cls name filepath df figs) as Hfresh.
  cbv zeta in Hfresh. fold obj in Hfresh. rewrite Hfresh, Hbuild.
  cbn [mbind result_bind mret M_ret self]. fold obj'. exact Hrun.
Qed.

End DatasetFacts.

(** ** What [info] returns *)

Section InfoFacts.
Import Pandas Py Summary.
Context `{Libs}.
#[local] Open Scope Z_scope.

(** [data.base.Dataset.info] returns the table and leaves the state alone. *)
Lemma data_info_rows cls name filepath df figs :
  let w := {| self := DataBase.__init__ cls name filepath df; figures := figs |} in
  exists t, DataBase.info w = Ok (t, w)
    /\ rows t = Ok (map (of_column df) (columns df))
    /\ is_summary_table t = true.
Proof.
  intros w. destruct (rows_build df) as (t & Hbuild & Hrows & Ht).
  exists t. split; [|split; assumption].
  unfold w. rewrite data_info_run, Hbuild. reflexivity.
Qed.

(** [analysis.base.Dataset.info(table=True)] returns the cached table
    rounded once more. *)
Lemma analysis_info_rows cls name filepath df figs (plot : bool) :
  let w := {| self := AnalysisBase.__init__ cls name filepath df; figures := figs |} in
  exists t w', AnalysisBase.info true plot w = Ok (VFrame t, w')
    /\ rows t = Ok (map (fun c => round_row 2 (of_column df c)) (columns df))
    /\ is_summary_table t = true.
Proof.
  intros w. destruct (rows_build df) as (t & Hbuild & Hrows & Ht).
  destruct (analysis_info_fresh cls name filepath df figs true plot)
    as (t' & drawn & Hbuild' & Hrun & _).
  rewrite Hbuild in Hbuild'. injection Hbuild' as <-.
  eexists _, _. split; [exact Hrun|]. split.
  - rewrite (rows_round _ 2 _ Hrows), map_map. reflexivity.
  - apply is_summary_table_round, Ht.
Qed.

(** C4: in the table [info] returns, for a data frame whose columns are as
    long as its index, every row has [Valid + Null] equal to the number of
    rows of the data frame; there is one row per column. *)
Theorem valid_plus_null_is_row_count cls name filepath df figs :
  well_formed df = true ->
  (exists t l,
      DataBase.info {| self := DataBase.__init__ cls name filepath df; figures := figs |}
      = Ok (t, {| self := DataBase.__init__ cls name filepath df; figures := figs |})
      /\ rows t = Ok l /\ length l = length (columns df)
      /\ Forall (fun s => Valid s + Null s = Z.of_nat (shape0 df)) l)
  /\ (forall plot : bool, exists t l w',
        AnalysisBase.info true plot
          {| self := AnalysisBase.__init__ cls name filepath df; figures := figs |}
        = Ok (VFrame t, w')
        /\ rows t = Ok l /\ length l = length (columns df)
        /\ Forall (fun s => Valid s + Null s = Z.of_nat (shape0 df)) l).
Proof.
  intros Hwf.
  assert (Hcol : forall c, In c (columns df) ->
                   count (values c) + isna_sum (values c) = Z.of_nat (shape0 df)).
  { intros c Hc. rewrite count_plus_isna_sum, (well_formed_size df c Hwf Hc). reflexivity. }
  split.
  - destruct (data_info_rows cls name filepath df figs) as (t & Hrun & Hrows & _).
    exists t, (map (of_column df) (columns df)).
    repeat split; [exact Hrun | exact Hrows | apply length_map |].
    apply List.Forall_forall. intros s Hs.
    apply in_map_iff in Hs as (c & <- & Hc). exact (Hcol c Hc).
  - intros plot.
    destruct (analysis_info_rows cls name filepath df figs plot) as (t & w' & Hrun & Hrows & _).
    exists t, (map (fun c => round_row 2 (of_column df c)) (columns df)), w'.
    repeat split; [exact Hrun | exact Hrows | apply length_map |].
    apply List.Forall_forall. intros s Hs.
    apply in_map_iff in Hs as (c & <- & Hc). exact (Hcol c Hc).
Qed.

(** A column without rows has nothing present, nothing missing and nothing
    distinct. *)
Lemma empty_column_counts (v : column_values) :
  size v = 0%nat -> count v = 0 /\ isna_sum v = 0 /\ nunique v = 0.
Proof.
  intros Hsize.
  pose proof (count_bounds v). pose proof (nunique_bounds v).
  pose proof (count_plus_isna_sum v). rewrite Hsize in *. lia.
Qed.

(** C3, as the code has it: for a data frame with no row, [info] raises
    nothing; it returns its table, in which every count is zero and both
    ratios, [0 / 0], are NaN. *)
Theorem empty_table_summary_is_nan cls name filepath df figs :
  well_formed df = true ->
  shape0 df = 0%nat ->
  let empty s :=
    Valid s = 0 /\ Null s = 0 /\ Unique s = 0
    /\ is_nan (Validity s) = true /\ is_nan (Cardinality s) = true in
  (exists t l,
      DataBase.info {| self := DataBase.__init__ cls name filepath df; figures := figs |}
      = Ok (t, {| self := DataBase.__init__ cls name filepath df; figures := figs |})
      /\ rows t = Ok l /\ length l = length (columns df) /\ Forall empty l)
  /\ (forall plot : bool, exists t l w',
        AnalysisBase.info true plot
          {| self := AnalysisBase.__init__ cls name filepath df; figures := figs |}
        = Ok (VFrame t, w')
        /\ rows t = Ok l /\ length l = length (columns df) /\ Forall empty l).
Proof.
  intros Hwf Hshape empty.
  assert (Hcol : forall c, In c (columns df) ->
                   empty (of_column df c) /\ empty (round_row 2 (of_column df c))).
  { intros c Hc.
    destruct (empty_column_counts (values c)) as (Hcount & Hnull & Hunique).
    { rewrite (well_formed_size df c Hwf Hc). exact Hshape. }
    unfold empty, round_row, of_column.
    cbn [Valid Null Unique Validity Cardinality].
    rewrite Hcount, Hnull, Hunique, Hshape. repeat split; vm_compute; reflexivity. }
  split.
  - destruct (data_info_rows cls name filepath df figs) as (t & Hrun & Hrows & _).
    exists t, (map (of_column df) (columns df)).
    repeat split; [exact Hrun | exact Hrows | apply length_map |].
    apply List.Forall_forall. intros s Hs.
    apply in_map_iff in Hs as (c & <- & Hc). exact (proj1 (Hcol c Hc)).
  - intros plot.
    destruct (analysis_info_rows cls name filepath df figs plot) as (t & w' & Hrun & Hrows & _).
    exists t, (map (fun c => round_row 2 (of_column df c)) (columns df)), w'.
    repeat split; [exact Hrun | exact Hrows | apply length_map |].
    apply List.Forall_forall. intros s Hs.
    apply in_map_iff in Hs as (c & <- & Hc). exact (proj2 (Hcol c Hc)).
Qed.

(** C5: in the table [info] returns, for a data frame with at least one row
    (and fewer than [2 ^ 63], the range of the int64 counts) whose
    columns are as long as its index, the [Validity] and the [Cardinality]
    of every row lie between 0 and 1. *)
Theorem ratios_in_unit_interval cls name filepath df figs :
  well_formed df = true ->
  (0 < shape0 df)%nat ->
  Z.of_nat (shape0 df) < 2 ^ 63 ->
  let in_range s :=
    Numpy.in_unit (Validity s) = true /\ Numpy.in_unit (Cardinality s) = true in
  (exists t l,
      DataBase.info {| self := DataBase.__init__ cls name filepath df; figures := figs |}
      = Ok (t, {| self := DataBase.__init__ cls name filepath df; figures := figs |})
      /\ rows t = Ok l /\ length l = length (columns df) /\ Forall in_range l)
  /\ (forall plot : bool, exists t l w',
        AnalysisBase.info true plot
          {| self := AnalysisBase.__init__ cls name filepath df; figures := figs |}
        = Ok (VFrame t, w')
        /\ rows t = Ok l /\ length l = length (columns df) /\ Forall in_range l).
Proof.
  intros Hwf Hrows Hsmall in_range.
  assert (Hcol : forall c, In c (columns df) ->
                   in_range (of_column df c) /\ in_range (round_row 2 (of_column df c))).
  { intros c Hc.
    pose proof (count_bounds (values c)) as Hcount.
    pose proof (nunique_bounds (values c)) as Hunique.
    rewrite (well_formed_size df c Hwf Hc) in Hcount, Hunique.
    destruct (rounded_ratio_in_unit (count (values c)) (Z.of_nat (shape0 df)))
      as [Hv1 Hv2]; [lia | lia |].
    destruct (rounded_ratio_in_unit (nunique (values c)) (Z.of_nat (shape0 df)))
      as [Hc1 Hc2]; [lia | lia |].
    unfold in_range, round_row, of_column. cbn [Validity Cardinality]. auto. }
  split.
  - destruct (data_info_rows cls name filepath df figs) as (t & Hrun & Hrows' & _).
    exists t, (map (of_column df) (columns df)).
    repeat split; [exact Hrun | exact Hrows' | apply length_map |].
    apply List.Forall_forall. intros s Hs.
    apply in_map_iff in Hs as (c & <- & Hc). exact (proj1 (Hcol c Hc)).
  - intros plot.
    destruct (analysis_info_rows cls name filepath df figs plot) as (t & w' & Hrun & Hrows' & _).
    exists t, (map (fun c => round_row 2 (of_column df c)) (columns df)), w'.
    repeat split; [exact Hrun | exact Hrows' | apply length_map |].
    apply List.Forall_forall. intros s Hs.
    apply in_map_iff in Hs as (c & <- & Hc). exact (proj2 (Hcol c Hc)).
Qed.

(** C6, as the code has it: [data.base.Dataset.info] always returns the
    summary table, one record per column of the data frame and in their
    order; [analysis.base.Dataset.info] builds the same table and keeps it in
    [self._info], returns it, rounded again, under [table=True], and returns
    [None] under [table=False], which is the default. *)
Theorem info_returns_summary_table cls name filepath df figs :
  (exists t,
      DataBase.info {| self := DataBase.__init__ cls name filepath df; figures := figs |}
      = Ok (t, {| self := DataBase.__init__ cls name filepath df; figures := figs |})
      /\ is_summary_table t = true
      /\ rows t = Ok (map (of_column df) (columns df)))
  /\ (forall plot : bool, exists t w',
        AnalysisBase.info true plot
          {| self := AnalysisBase.__init__ cls name filepath df; figures := figs |}
        = Ok (VFrame t, w')
        /\ is_summary_table t = true
        /\ rows t = Ok (map (fun c => round_row 2 (of_column df c)) (columns df)))
  /\ (forall plot : bool, exists t w',
        AnalysisBase.info false plot
          {| self := AnalysisBase.__init__ cls name filepath df; figures := figs |}
        = Ok (VNone, w')
        /\ self w' !! "_info" = Some (VFrame t)
        /\ is_summary_table t = true
        /\ rows t = Ok (map (of_column df) (columns df))).
Proof.
  split; [|split].
  - destruct (data_info_rows cls name filepath df figs) as (t & Hrun & Hrows & Ht).
    exists t. auto.
  - intros plot.
    destruct (analysis_info_rows cls name filepath df figs plot) as (t & w' & Hrun & Hrows & Ht).
    exists t, w'. auto.
  - intros plot. destruct (rows_build df) as (t & Hbuild & Hrows & Ht).
    destruct (analysis_info_fresh cls name filepath df figs false plot)
      as (t' & drawn & Hbuild' & Hrun & _).
    rewrite Hbuild in Hbuild'. injection Hbuild' as <-.
    eexists t, _. split; [exact Hrun|]. cbn [self].
    split; [apply lookup_insert_eq | auto].
Qed.

(** [_info_plot] draws the same figure whatever has been drawn before. *)
Lemma info_plot_any_figures (obj : object) name df t :
  obj !! "_info" = Some (VFrame t) ->
  obj !! "_name" = Some (VStr name) ->
  InfoTable.build df = Ok t ->
  exists fig, forall figs,
    AnalysisBase._info_plot {| self := obj; figures := figs |}
    = Ok (tt, {| self := obj; figures := figs ++ [fig] |}).
Proof.
  intros Hinfo Hname Hbuild. rewrite build_eq in Hbuild. injection Hbuild as <-.
  eexists. intros figs.
  unfold AnalysisBase._info_plot, AnalysisBase.plot_cardinality, AnalysisBase.plot_validity,
    getattr, mbind, M_bind.
  cbn [self]. rewrite Hname.
  repeat (cbn -[Numpy.around Numpy.of_Z count isna_sum nunique memory_usage];
          rewrite ?Hinfo).
  reflexivity.
Qed.

(** [info] with the table cached: the instance stays, [plot] draws one
    figure, the same after whatever figures. *)
Lemma analysis_info_cached_effects (obj : object) name df t (table plot : bool) :
  obj !! "_info" = Some (VFrame t) ->
  obj !! "_name" = Some (VStr name) ->
  InfoTable.build df = Ok t ->
  exists fig, forall figs,
    AnalysisBase.info table plot {| self := obj; figures := figs |}
    = Ok (if table then VFrame (round t 2) else VNone,
          {| self := obj; figures := figs ++ (if plot then [fig] else []) |}).
Proof.
  intros Hinfo Hname Hbuild.
  destruct (info_plot_any_figures obj name df t Hinfo Hname Hbuild) as [fig Hplot].
  exists fig. intros figs. unfold AnalysisBase.info, mbind, M_bind.
  rewrite (analysis_info_table_cached obj t figs Hinfo).
  destruct plot.
  - rewrite Hplot. destruct table; [|reflexivity].
    unfold getattr. cbn [self]. rewrite Hinfo. reflexivity.
  - rewrite app_nil_r. cbn. destruct table; [|reflexivity].
    unfold getattr. cbn [self]. rewrite Hinfo. reflexivity.
Qed.

(** C7, as the code has it: a second call of the summary returns what the
    first returned, and the effects of a call are these.
    [data.base.Dataset.info] has none.  [_info_table] of [analysis.base], on
    an instance whose [self._info] is [None], binds [self._info] to the table
    it built and changes nothing else; called again it changes nothing.
    [info] of [analysis.base] has that effect of [_info_table] at its first
    call and none on the instance at the second; under [plot=True] each of
    the two calls also draws one figure, the same one, and under
    [plot=False] none. *)
Theorem info_is_idempotent cls name filepath df figs :
  (exists t,
      let w := {| self := DataBase.__init__ cls name filepath df; figures := figs |} in
      DataBase.info w = Ok (t, w))
  /\ (exists t,
        let w := {| self := AnalysisBase.__init__ cls name filepath df; figures := figs |} in
        let w1 := {| self := <["_info" := VFrame t]> (self w); figures := figs |} in
        InfoTable.build df = Ok t
        /\ self w !! "_info" = Some VNone
        /\ AnalysisBase._info_table w = Ok (tt, w1)
        /\ AnalysisBase._info_table w1 = Ok (tt, w1))
  /\ (forall table plot : bool, exists v t fig,
        let w := {| self := AnalysisBase.__init__ cls name filepath df; figures := figs |} in
        let drawn := if plot then [fig] else [] in
        let w1 := {| self := <["_info" := VFrame t]> (self w); figures := figs ++ drawn |} in
        let w2 := {| self := self w1; figures := (figs ++ drawn) ++ drawn |} in
        InfoTable.build df = Ok t
        /\ AnalysisBase.info table plot w = Ok (v, w1)
        /\ AnalysisBase.info table plot w1 = Ok (v, w2)).
Proof.
  split; [|split].
  - destruct (data_info_rows cls name filepath df figs) as (t & Hrun & _).
    exists t. exact Hrun.
  - destruct (rows_build df) as (t & Hbuild & _ & _).
    exists t. cbv zeta. split; [exact Hbuild|].
    split; [cbn [self]; unfold AnalysisBase.__init__; lookup_attr; reflexivity|].
    rewrite analysis_info_table_fresh, Hbuild. cbn [mbind result_bind mret M_ret self].
    split; [reflexivity|].
    apply (analysis_info_table_cached _ t). apply lookup_insert_eq.
  - intros table plot.
    destruct (rows_build df) as (t & Hbuild & _ & _).
    set (obj := AnalysisBase.__init__ cls name filepath df).
    set (obj' := <["_info" := VFrame t]> obj).
    assert (Hinfo : obj' !! "_info" = Some (VFrame t)) by apply lookup_insert_eq.
    assert (Hname : obj' !! "_name" = Some (VStr name)).
    { unfold obj', obj, AnalysisBase.__init__. lookup_attr. reflexivity. }
    destruct (analysis_info_cached_effects obj' name df t table plot Hinfo Hname Hbuild)
      as [fig Hcached].
    exists (if table then VFrame (round t 2) else VNone), t, fig.
    cbv zeta. cbn [self figures]. fold obj'.
    split; [exact Hbuild|]. split; [|apply Hcached].
    specialize (Hcached figs). unfold AnalysisBase.info, mbind, M_bind in Hcached |- *.
    rewrite (analysis_info_table_cached obj' t figs Hinfo) in Hcached.
    pose proof (analysis_info_table_fresh cls name filepath df figs) as Hfresh.
    cbv zeta in Hfresh. fold obj in Hfresh. rewrite Hfresh, Hbuild.
    cbn [mbind result_bind mret M_ret self]. fold obj'. exact Hcached.
Qed.

End InfoFacts.

Lemma valid_plus_null_is_row_count_witness :
  Pandas.well_formed Example.subjects = true
  /\ exists t l,
       DataBase.info (H := Example.libs) (Example.data_dataset Example.subjects)
       = Ok (t, Example.data_dataset Example.subjects)
       /\ Summary.rows t = Ok l /\ length l = 3%nat
       /\ Forall (fun s => (Summary.Valid s + Summary.Null s = 3)%Z) l.
Proof.
  split; [reflexivity|].
  exact (proj1 (@valid_plus_null_is_row_count Example.libs "Subject" "Subject" "subjects.csv"
                  Example.subjects [] eq_refl)).
Defined.

Lemma ratios_in_unit_interval_witness :
  Pandas.well_formed Example.subjects = true
  /\ (0 < Pandas.shape0 Example.subjects)%nat
  /\ (Z.of_nat (Pandas.shape0 Example.subjects) < 2 ^ 63)%Z
  /\ exists t l,
       DataBase.info (H := Example.libs) (Example.data_dataset Example.subjects)
       = Ok (t, Example.data_dataset Example.subjects)
       /\ Summary.rows t = Ok l /\ length l = 3%nat
       /\ Forall (fun s => Numpy.in_unit (Summary.Validity s) = true
                           /\ Numpy.in_unit (Summary.Cardinality s) = true) l.
Proof.
  assert (Hrows : (0 < Pandas.shape0 Example.subjects)%nat) by (cbv; lia).
  split; [reflexivity|]. split; [exact Hrows|]. split; [reflexivity|].
  exact (proj1 (@ratios_in_unit_interval Example.libs "Subject" "Subject" "subjects.csv"
                  Example.subjects [] eq_refl Hrows eq_refl)).
Defined.

(** C3 as stated fails: on the header-only file [info] raises nothing and
    returns a table whose ratios are NaN. *)
Lemma empty_table_summary_not_an_error :
  exists t,
    DataBase.info (H := Example.libs) (Example.data_dataset Example.no_subjects)
    = Ok (t, Example.data_dataset Example.no_subjects)
    /\ Pandas.getitem t "Validity" = Ok (Pandas.Float64Values [nan; nan; nan])
    /\ Pandas.getitem t "Cardinality" = Ok (Pandas.Float64Values [nan; nan; nan]).
Proof.
  eexists. split; [|split].
  - unfold Example.data_dataset. rewrite data_info_run. vm_compute. reflexivity.
  - vm_compute. reflexivity.
  - vm_compute. reflexivity.
Qed.

Lemma empty_table_summary_is_nan_witness :
  Pandas.well_formed Example.no_subjects = true
  /\ Pandas.shape0 Example.no_subjects = 0%nat
  /\ exists t l,
       DataBase.info (H := Example.libs) (Example.data_dataset Example.no_subjects)
       = Ok (t, Example.data_dataset Example.no_subjects)
       /\ Summary.rows t = Ok l /\ length l = 3%nat
       /\ Forall (fun s => Summary.Valid s = 0%Z /\ Summary.Null s = 0%Z
                           /\ Summary.Unique s = 0%Z
                           /\ is_nan (Summary.Validity s) = true
                           /\ is_nan (Summary.Cardinality s) = true) l.
Proof.
  split; [reflexivity|]. split; [reflexivity|].
  exact (proj1 (@empty_table_summary_is_nan Example.libs "Subject" "Subject" "subjects.csv"
                  Example.no_subjects [] eq_refl eq_refl)).
Defined.

(** C6 as stated fails: called with its default arguments, [info] of
    [analysis.base] returns [None]. *)
Lemma analysis_info_default_returns_none :
  exists w',
    AnalysisBase.info (H := Example.libs) false true
      (Example.analysis_dataset Example.subjects)
    = Ok (Py.VNone, w').
Proof.
  destruct (@analysis_info_fresh Example.libs "Subject" "Subject" "subjects.csv"
              Example.subjects [] false true) as (t & drawn & _ & Hrun & _).
  eexists. exact Hrun.
Qed.

Section InfoEffects.
Import Pandas Py.

(** C7 as stated fails: a call has effects besides its result.  On the
    example, [_info_table] finds [self._info] bound to [None] and leaves it
    bound to a table, and one call of [info(table=True, plot=True)] changes
    the instance in that attribute and adds a figure to those drawn. *)
Lemma info_has_side_effects :
  let w := Example.analysis_dataset Example.subjects in
  (exists t w1,
      AnalysisBase._info_table (H := Example.libs) w = Ok (tt, w1)
      /\ self w !! "_info" = Some Py.VNone
      /\ self w1 !! "_info" = Some (Py.VFrame t)
      /\ w1 <> w)
  /\ (exists v w1,
        AnalysisBase.info (H := Example.libs) true true w = Ok (v, w1)
        /\ self w1 <> self w
        /\ figures w = []
        /\ length (figures w1) = 1%nat).
Proof.
  intros w. unfold w, Example.analysis_dataset.
  destruct (rows_build (H := Example.libs) Example.subjects) as (t & Hbuild & _ & _).
  assert (Hnone : AnalysisBase.__init__ "Subject" "Subject" "subjects.csv" Example.subjects
                  !! "_info" = Some Py.VNone).
  { unfold AnalysisBase.__init__. lookup_attr. reflexivity. }
  assert (Hne : <["_info" := Py.VFrame t]>
                  (AnalysisBase.__init__ "Subject" "Subject" "subjects.csv" Example.subjects)
                <> AnalysisBase.__init__ "Subject" "Subject" "subjects.csv" Example.subjects).
  { intros E. apply (f_equal (fun o : Py.object => o !! "_info")) in E.
    rewrite lookup_insert_eq, Hnone in E. discriminate E. }
  split.
  - eexists t, _. cbn [self].
    rewrite analysis_info_table_fresh, Hbuild. cbn [mbind result_bind mret M_ret self].
    split; [reflexivity|]. split; [exact Hnone|]. split; [apply lookup_insert_eq|].
    intros E. apply Hne. exact (f_equal self E).
  - destruct (@analysis_info_fresh Example.libs "Subject" "Subject" "subjects.csv"
                Example.subjects [] true true) as (t' & drawn & Hbuild' & Hrun & Hdrawn).
    rewrite Hbuild in Hbuild'. injection Hbuild' as <-.
    eexists _, _. split; [exact Hrun|]. cbn [self figures].
    split; [exact Hne|]. split; [reflexivity | exact Hdrawn].
Qed.

End InfoEffects.

(** ** [describe], abbreviated *)

Section DescribeFacts.
Import Pandas Py Describe.
Context `{Libs}.






Lemma data_describe_run cls name filepath df figs column verbose :
  let w := {| self := DataBase.__init__ cls name filepath df; figures := figs |} in
  DataBase.describe column verbose w
  = (t ← Describe.describe df column verbose; mret (t, w)).
Proof.
  intros w. unfold DataBase.describe, getattr, mbind, M_bind at 1 2.
  cbn [self w]. unfold DataBase.__init__. lookup_attr.
  cbn. destruct (Describe.describe df column verbose); reflexivity.
Qed.

Lemma analysis_describe_run cls name filepath df figs column verbose :
  let w := {| self := AnalysisBase.__init__ cls name filepath df; figures := figs |} in
  AnalysisBase.describe column verbose w
  = (t ← Describe.describe df column verbose; mret (t, w)).
Proof.
  intros w. unfold AnalysisBase.describe, getattr, mbind, M_bind at 1 2.
  cbn [self w]. unfold AnalysisBase.__init__. lookup_attr.
  cbn. destruct (Describe.describe df column verbose); reflexivity.
Qed.


End DescribeFacts.


(** ** [FOGDataset.head] *)

Section FogFacts.
Import Pandas Py.
Context `{Libs}.
#[local] Arguments InfoTable.build : simpl never.

(** No method of the class assigns [_flog]. *)
Lemma fog_flog_unset filepath df (w : world) :
  Fog.reachable filepath df w -> self w !! "_flog" = None.
Proof.
  induction 1 as [figs | w w' Hw IH Hstep].
  - cbn [self]. unfold Fog.__init__. lookup_attr. reflexivity.
  - destruct Hstep as [w w' Hreset | w w' Htable | n w r w' Hhead].
    + unfold Fog.reset, AnalysisBase.reset, setattr, mbind, M_bind in Hreset.
      injection Hreset as <-. cbn [self].
      rewrite !lookup_insert_ne by discriminate. exact IH.
    + unfold Fog._info_table, getattr, mbind, M_bind in Htable.
      destruct (self w !! "_info") as [[| | | |]|]; cbn in Htable;
        try (injection Htable as <-; exact IH); try discriminate Htable.
      destruct (self w !! "_df") as [[| |df'| |]|]; cbn in Htable; try discriminate Htable.
      destruct (InfoTable.build df'); cbn in Htable; [|discriminate Htable].
      injection Htable as <-. cbn [self].
      rewrite lookup_insert_ne by discriminate. exact IH.
    + unfold Fog.head, getattr, mbind, M_bind in Hhead.
      rewrite IH in Hhead. discriminate Hhead.
Qed.

(** C10: in every state an instance of [FOGDataset] reaches through the
    methods of its class, [head(n)] raises [AttributeError] for [_flog]. *)
Theorem fog_head_raises_attribute_error filepath df (w : world) (n : Z) :
  Fog.reachable filepath df w ->
  Fog.head n w = Raise (AttributeError "_flog").
Proof.
  intros Hw. unfold Fog.head, getattr, mbind, M_bind.
  rewrite (fog_flog_unset filepath df w Hw). reflexivity.
Qed.

End FogFacts.

Lemma fog_head_raises_attribute_error_witness :
  Fog.reset (Example.fog_dataset Example.subjects)
  = Ok (tt, {| Py.self := <["_summary" := Py.VNone]>
                            (<["_info" := Py.VNone]>
                               (Fog.__init__ "tdcsfog_metadata.csv" Example.subjects));
               Py.figures := [] |})
  /\ Fog.head 5 {| Py.self := <["_summary" := Py.VNone]>
                                (<["_info" := Py.VNone]>
                                   (Fog.__init__ "tdcsfog_metadata.csv" Example.subjects));
                   Py.figures := [] |}
     = Raise (AttributeError "_flog").
Proof.
  split; [reflexivity|].
  apply (@fog_head_raises_attribute_error Example.libs "tdcsfog_metadata.csv" Example.subjects).
  eapply Fog.reach_step; [apply Fog.reach_init|].
  apply Fog.step_reset. reflexivity.
Defined.

(** * Further properties of the code *)

(** ** Floats: NaN, the infinities and the finite numbers *)

Section FloatClassFacts.
#[local] Open Scope float_scope.

Lemma SFcompare_refl_finite s m e :
  SFcompare (S754_finite s m e) (S754_finite s m e) = Some Eq.
Proof.
  destruct s; cbn [SFcompare]; rewrite Z.compare_refl.
  - rewrite Pos.compare_cont_refl. reflexivity.
  - rewrite Pos.compare_cont_refl. reflexivity.
Qed.

Lemma is_nan_spec x :
  is_nan x = match Prim2SF x with S754_nan => true | _ => false end.
Proof.
  unfold is_nan. rewrite FloatAxioms.eqb_spec. unfold SFeqb.
  destruct (Prim2SF x) as [s|s| |s m e].
  - destruct s; reflexivity.
  - destruct s; reflexivity.
  - reflexivity.
  - rewrite SFcompare_refl_finite. reflexivity.
Qed.

Lemma is_finite_spec x :
  is_finite x = match Prim2SF x with
                | S754_zero _ | S754_finite _ _ _ => true
                | S754_infinity _ | S754_nan => false
                end.
Proof.
  unfold is_finite, is_infinity. rewrite is_nan_spec, FloatAxioms.eqb_spec, abs_spec.
  change (Prim2SF infinity) with (S754_infinity false).
  destruct (Prim2SF x) as [s|s| |s m e]; reflexivity.
Qed.

End FloatClassFacts.

(** ** The outlier filter on NaN, the infinities and a degenerate MAD *)

Section OutlierEdgeFacts.
Import Numpy Outlier.
#[local] Open Scope float_scope.

(** The test of [univariate] fails for every element that is not finite. *)
Lemma kept_is_finite x m mad :
  (abs ((x - m) / mad) <? 3) = true -> is_finite x = true.
Proof.
  rewrite is_finite_spec, FloatAxioms.ltb_spec, abs_spec, div_spec, sub_spec.
  change (Prim2SF 3) with (S754_finite false 6755399441055744 (-51)).
  destruct (Prim2SF x) as [sx|sx| |sx mx ex]; trivial.
  destruct (Prim2SF m) as [sm|sm| |sm mm em], (Prim2SF mad) as [sd|sd| |sd md ed];
    destruct sx; try destruct sm; try destruct sd; intros E; exact E.
Qed.

(** Nothing compares with a NaN median, and nothing with a NaN deviation. *)
Lemma nan_median_not_lt_3 x mad : (abs ((x - nan) / mad) <? 3) = false.
Proof.
  rewrite FloatAxioms.ltb_spec, abs_spec, div_spec, sub_spec.
  change (Prim2SF nan) with S754_nan.
  destruct (Prim2SF x) as [sx|sx| |sx mx ex]; reflexivity.
Qed.

Lemma abs_div_nan_not_lt_3 x d : is_nan d = true -> (abs (x / d) <? 3) = false.
Proof.
  rewrite is_nan_spec, FloatAxioms.ltb_spec, abs_spec, div_spec.
  destruct (Prim2SF d) as [sd|sd| |sd md ed]; try discriminate. intros _.
  destruct (Prim2SF x) as [sx|sx| |sx mx ex]; reflexivity.
Qed.

Lemma filter_nothing {A : Type} (p : A -> bool) (l : list A) :
  (forall x, p x = false) -> List.filter p l = [].
Proof.
  intros Hp. induction l as [|x l IH]; [reflexivity|].
  simpl. rewrite Hp. exact IH.
Qed.

(** X1: whatever the sample, the filter returns, and every element it keeps
    is a finite number: a NaN or an infinity in the sample is never kept. *)
Theorem univariate_keeps_only_finite (a : ndarray) :
  exists r, univariate a = Ok r /\ Forall (fun x => is_finite x = true) r.
Proof.
  rewrite univariate_mask. eexists. split; [reflexivity|].
  apply List.Forall_forall. intros x Hx.
  apply filter_In in Hx as [_ Hx]. exact (kept_is_finite _ _ _ Hx).
Qed.

(** X2: a sample that holds a NaN loses every element: its median is NaN. *)
Theorem univariate_nan_sample_emptied (a : ndarray) :
  existsb is_nan a = true -> univariate a = Ok [].
Proof.
  intros Hnan. rewrite univariate_mask.
  assert (E : median a = nan) by (unfold median; rewrite Hnan; reflexivity).
  rewrite E. f_equal. apply filter_nothing. intros x. apply nan_median_not_lt_3.
Qed.

(** X3: when the scaled median absolute deviation [mad] of [univariate] is
    zero or NaN, the division gives nothing below 3 and the result is empty,
    as on [7, 7, 1000, 7, 6.5]. *)
Theorem univariate_degenerate_mad_emptied (a : ndarray) :
  let mad := median (np_abs (sub_scalar a (median a))) * __b in
  (mad =? 0) || is_nan mad = true -> univariate a = Ok [].
Proof.
  intros mad Hmad. rewrite univariate_mask. fold mad. f_equal.
  apply filter_nothing. intros x.
  apply orb_true_iff in Hmad as [Hzero|Hnan].
  - apply abs_div_zero_not_lt_3, Hzero.
  - apply abs_div_nan_not_lt_3, Hnan.
Qed.

End OutlierEdgeFacts.

Lemma univariate_nan_sample_emptied_witness :
  existsb is_nan [1; nan; 3]%float = true
  /\ Outlier.univariate [1; nan; 3]%float = Ok [].
Proof.
  split; [reflexivity|].
  apply univariate_nan_sample_emptied. reflexivity.
Defined.

Lemma univariate_degenerate_mad_emptied_witness :
  Numpy.median (Numpy.np_abs (Numpy.sub_scalar [7; 7; 1000; 7; 6.5]
                                (Numpy.median [7; 7; 1000; 7; 6.5])))%float = 0%float
  /\ Outlier.univariate [7; 7; 1000; 7; 6.5]%float = Ok [].
Proof.
  split; [vm_compute; reflexivity|].
  apply univariate_degenerate_mad_emptied. vm_compute. reflexivity.
Defined.

(** ** Distinct values against present values *)

Section DistinctFacts.
Import Pandas.
#[local] Open Scope Z_scope.

Lemma sum_bool_count (p : bool -> bool) (l : list bool) :
  sum_bool (map p l) = Z.of_nat (length (List.filter p l)).
Proof.
  induction l as [|b l IH]; [reflexivity|].
  cbn [map List.filter]. rewrite sum_bool_cons, IH.
  destruct (p b); cbn [length]; lia.
Qed.

Lemma length_filter_map {A B : Type} (f : A -> B) (p : B -> bool) (l : list A) :
  length (List.filter p (map f l)) = length (List.filter (fun x => p (f x)) l).
Proof.
  induction l as [|x l IH]; [reflexivity|].
  cbn [map List.filter]. destruct (p (f x)); cbn [length]; rewrite IH; reflexivity.
Qed.

Lemma length_filter_all {A : Type} (p : A -> bool) (l : list A) :
  (forall x, p x = true) -> length (List.filter p l) = length l.
Proof.
  intros Hp. induction l as [|x l IH]; [reflexivity|].
  cbn [List.filter]. rewrite Hp. cbn [length]. rewrite IH. reflexivity.
Qed.

(** [Series.count], by dtype: the values that are not NaN, that are not
    [None], or all of them. *)
Lemma count_present (v : column_values) :
  count v = Z.of_nat (length match v with
                             | Int64Values l => map (fun _ => tt) l
                             | Float64Values l =>
                                 map (fun _ => tt) (List.filter (fun x => negb (is_nan x)) l)
                             | BoolValues l => map (fun _ => tt) l
                             | ObjectValues l =>
                                 map (fun _ => tt)
                                   (List.filter (fun o => match o with
                                                          | None => false
                                                          | Some _ => true
                                                          end) l)
                             end).
Proof.
  unfold count. rewrite sum_bool_count. f_equal.
  destruct v as [l|l|l|l]; cbn [isna]; rewrite length_filter_map, length_map.
  - apply length_filter_all. reflexivity.
  - reflexivity.
  - apply length_filter_all. reflexivity.
  - induction l as [|[x|] l IH]; cbn [List.filter negb length]; congruence.
Qed.

Lemma length_filter_unique_from {A : Type} (eqb : A -> A -> bool) (p : A -> bool)
    (l seen : list A) :
  (length (List.filter p (unique_from eqb seen l)) <= length (List.filter p l))%nat.
Proof.
  revert seen. induction l as [|x l IH]; intros seen; [reflexivity|].
  cbn [unique_from List.filter].
  destruct (existsb (eqb x) seen).
  - specialize (IH seen). destruct (p x); cbn [length]; lia.
  - cbn [List.filter]. specialize (IH (x :: seen)). destruct (p x); cbn [length]; lia.
Qed.

(** The distinct values that are present are no more than the values that
    are present. *)
Lemma nunique_le_count (v : column_values) : 0 <= nunique v <= count v.
Proof.
  split; [apply nunique_bounds|].
  rewrite count_present.
  destruct v as [l|l|l|l]; cbn [nunique]; unfold unique; rewrite length_map;
    apply Nat2Z.inj_le.
  - apply length_unique_from.
  - apply length_filter_unique_from.
  - apply length_unique_from.
  - apply length_filter_unique_from.
Qed.

End DistinctFacts.

(** ** More on the summary table, and [describe] beside it *)

Section SummaryFacts.
Import Pandas Py Summary Describe.
Context `{Libs}.
#[local] Open Scope Z_scope.

(** X4: in every row of the table [info] returns, of either class and
    for any data frame, the number of distinct values is at least 0 and at
    most the number of valid values. *)
Theorem unique_at_most_valid cls name filepath df figs :
  (exists t l,
      DataBase.info {| self := DataBase.__init__ cls name filepath df; figures := figs |}
      = Ok (t, {| self := DataBase.__init__ cls name filepath df; figures := figs |})
      /\ rows t = Ok l /\ length l = length (columns df)
      /\ Forall (fun s => 0 <= Unique s <= Valid s) l)
  /\ (forall plot : bool, exists t l w',
        AnalysisBase.info true plot
          {| self := AnalysisBase.__init__ cls name filepath df; figures := figs |}
        = Ok (VFrame t, w')
        /\ rows t = Ok l /\ length l = length (columns df)
        /\ Forall (fun s => 0 <= Unique s <= Valid s) l).
Proof.
  split.
  - destruct (data_info_rows cls name filepath df figs) as (t & Hrun & Hrows & _).
    exists t, (map (of_column df) (columns df)).
    repeat split; [exact Hrun | exact Hrows | apply length_map |].
    apply List.Forall_forall. intros s Hs.
    apply in_map_iff in Hs as (c & <- & Hc). apply nunique_le_count.
  - intros plot.
    destruct (analysis_info_rows cls name filepath df figs plot) as (t & w' & Hrun & Hrows & _).
    exists t, (map (fun c => round_row 2 (of_column df c)) (columns df)), w'.
    repeat split; [exact Hrun | exact Hrows | apply length_map |].
    apply List.Forall_forall. intros s Hs.
    apply in_map_iff in Hs as (c & <- & Hc). apply nunique_le_count.
Qed.

Lemma find_column_Some (k : string) (cols : list Series) (c : Series) :
  find_column k cols = Some c -> In c cols /\ name c = k.
Proof.
  induction cols as [|c' cols IH]; [discriminate|].
  cbn [find_column]. destruct (String.eqb (name c') k) eqn:E.
  - intros [= <-]. split; [left; reflexivity | apply String.eqb_eq, E].
  - intros Hc. destruct (IH Hc) as [Hin Hname]. split; [right; exact Hin | exact Hname].
Qed.

Lemma getitem_Some (df : DataFrame) (k : string) (v : column_values) :
  getitem df k = Ok v ->
  exists c, In c (columns df) /\ name c = k /\ values c = v.
Proof.
  unfold getitem. destruct (find_column k (columns df)) as [c|] eqn:E; [|discriminate].
  intros [= <-]. destruct (find_column_Some _ _ _ E) as [Hin Hname]. eauto.
Qed.

(** The values [describe] works on are the values [count] counts. *)
Lemma count_numeric_values (v : column_values) (l : list float) :
  numeric_values v = Some l -> count v = Z.of_nat (length l).
Proof.
  rewrite count_present.
  destruct v as [l0|l0|l0|l0]; cbn [numeric_values]; intros [= <-];
    rewrite !length_map; reflexivity.
Qed.

(** The description of one numeric column, under its label [count]. *)
Lemma describe_column_count (df : DataFrame) (k : string) (v : column_values) (l : list float) :
  getitem df k = Ok v -> numeric_values v = Some l ->
  exists t, Describe.describe df (Some k) true = Ok t
    /\ getitem t "count" = Ok (Float64Values [Numpy.of_Z (count v)]).
Proof.
  intros Hv Hl. unfold Describe.describe, describe_column.
  rewrite Hv. cbn [mbind result_bind]. rewrite Hl.
  eexists. split; [reflexivity|].
  rewrite (count_numeric_values v l Hl). reflexivity.
Qed.

(** X5: for a numeric column, the [count] that [describe] reports is
    the [Valid] that [info] reports for the same column, as a float; neither
    call changes the instance. *)
Theorem describe_count_is_info_valid cls name filepath df figs k v l :
  getitem df k = Ok v -> numeric_values v = Some l ->
  let w := {| self := DataBase.__init__ cls name filepath df; figures := figs |} in
  exists td ti records s,
    DataBase.describe (Some k) true w = Ok (td, w)
    /\ DataBase.info w = Ok (ti, w)
    /\ rows ti = Ok records
    /\ In s records /\ Column s = k
    /\ getitem td "count" = Ok (Float64Values [Numpy.of_Z (Valid s)]).
Proof.
  intros Hv Hl w.
  destruct (describe_column_count df k v l Hv Hl) as (td & Hdesc & Hcount).
  destruct (data_info_rows cls name filepath df figs) as (ti & Hrun & Hrows & _).
  destruct (getitem_Some df k v Hv) as (c & Hc & Hname & Hvalues).
  exists td, ti, (map (of_column df) (columns df)), (of_column df c).
  split.
  { unfold w. rewrite data_describe_run, Hdesc. reflexivity. }
  split; [exact Hrun|]. split; [exact Hrows|].
  split; [apply in_map, Hc|]. split; [exact Hname|].
  cbn [of_column Valid]. rewrite Hvalues. exact Hcount.
Qed.

End SummaryFacts.

Lemma describe_count_is_info_valid_witness :
  exists td ti records s,
    DataBase.describe (H := Example.libs) (Some "Age") true
      (Example.data_dataset Example.subjects)
    = Ok (td, Example.data_dataset Example.subjects)
    /\ DataBase.info (H := Example.libs) (Example.data_dataset Example.subjects)
       = Ok (ti, Example.data_dataset Example.subjects)
    /\ Summary.rows ti = Ok records
    /\ In s records /\ Summary.Column s = "Age"
    /\ Pandas.getitem td "count"
       = Ok (Pandas.Float64Values [Numpy.of_Z (Summary.Valid s)]).
Proof.
  exact (@describe_count_is_info_valid Example.libs "Subject" "Subject" "subjects.csv"
           Example.subjects [] "Age" _ _ eq_refl eq_refl).
Defined.

(** ** [head] *)

Section HeadFacts.
Import Pandas Py.

Lemma head_count_le (len : nat) (n : Z) : head_count len n <= len.
Proof. unfold head_count. destruct (n <? 0)%Z; lia. Qed.

Lemma size_head_values (k : nat) (v : column_values) :
  size (head_values k v) = Nat.min k (size v).
Proof. destruct v; cbn [head_values size]; apply length_firstn. Qed.

Lemma head_values_all (k : nat) (v : column_values) :
  size v <= k -> head_values k v = v.
Proof.
  destruct v; cbn [head_values size]; intros Hk; f_equal; apply firstn_all2, Hk.
Qed.

Lemma shape0_head (df : DataFrame) (n : Z) :
  shape0 (head df n) = head_count (shape0 df) n.
Proof.
  pose proof (head_count_le (shape0 df) n) as Hle. revert Hle.
  unfold head, shape0. cbn [index]. destruct (index df) as [stop|labels]; cbn [index_len].
  - reflexivity.
  - intros Hle. rewrite length_firstn. lia.
Qed.

Lemma well_formed_head (df : DataFrame) (n : Z) :
  well_formed df = true -> well_formed (head df n) = true.
Proof.
  intros Hwf. unfold well_formed. rewrite shape0_head.
  apply forallb_forall. intros c' Hc'. unfold head in Hc'. cbn [columns] in Hc'.
  apply in_map_iff in Hc' as (c & <- & Hc). cbn [values].
  rewrite size_head_values, (well_formed_size df c Hwf Hc).
  apply Nat.eqb_eq. pose proof (head_count_le (shape0 df) n). lia.
Qed.

Lemma head_all (df : DataFrame) (n : Z) :
  well_formed df = true -> (Z.of_nat (shape0 df) <= n)%Z -> head df n = df.
Proof.
  intros Hwf Hn.
  assert (Hk : head_count (shape0 df) n = shape0 df).
  { unfold head_count. destruct (Z.ltb_spec n 0); lia. }
  assert (Hcols : forall c, In c (columns df) -> head_values (shape0 df) (values c) = values c).
  { intros c Hc. apply head_values_all. rewrite (well_formed_size df c Hwf Hc). reflexivity. }
  unfold head. rewrite Hk. clear Hk Hn Hwf.
  remember (shape0 df) as k eqn:Ek. unfold shape0 in Ek.
  destruct df as [idx cols]. cbn [index columns] in *. f_equal.
  - destruct idx as [stop|labels]; cbn [index_len] in Ek; subst k; [reflexivity|].
    f_equal. apply firstn_all.
  - clear Ek. induction cols as [|c cols IH]; [reflexivity|].
    cbn [map]. f_equal.
    + destruct c as [nm v]. cbn [name values]. f_equal.
      apply (Hcols {| name := nm; values := v |}). left. reflexivity.
    + apply IH. intros c' Hc'. apply Hcols. right. exact Hc'.
Qed.

Lemma data_head_run cls name filepath df figs n :
  let w := {| self := DataBase.__init__ cls name filepath df; figures := figs |} in
  DataBase.head n w = Ok (head df n, w).
Proof.
  intros w. unfold DataBase.head, getattr, mbind, M_bind.
  cbn [self w]. unfold DataBase.__init__. lookup_attr. reflexivity.
Qed.

Lemma analysis_head_run cls name filepath df figs n :
  let w := {| self := AnalysisBase.__init__ cls name filepath df; figures := figs |} in
  AnalysisBase.head n w = Ok (head df n, w).
Proof.
  intros w. unfold AnalysisBase.head, getattr, mbind, M_bind.
  cbn [self w]. unfold AnalysisBase.__init__. lookup_attr. reflexivity.
Qed.

(** X6: [head(n)] of either [Dataset] leaves the instance as it is and
    returns a data frame with the columns of [self._df], each as long as the
    new index: the first [n] rows, all rows when there are no more than [n],
    and for a negative [n] all but the last [-n]. *)
Theorem head_returns_leading_rows cls name filepath df figs (n : Z) :
  well_formed df = true ->
  exists t,
    (let w := {| self := DataBase.__init__ cls name filepath df; figures := figs |} in
     DataBase.head n w = Ok (t, w))
    /\ (let w := {| self := AnalysisBase.__init__ cls name filepath df; figures := figs |} in
        AnalysisBase.head n w = Ok (t, w))
    /\ well_formed t = true
    /\ map Pandas.name (columns t) = map Pandas.name (columns df)
    /\ map (fun c => dtype_of (values c)) (columns t)
       = map (fun c => dtype_of (values c)) (columns df)
    /\ ((0 <= n)%Z -> shape0 t = Nat.min (shape0 df) (Z.to_nat n))
    /\ ((n < 0)%Z -> shape0 t = shape0 df - Z.to_nat (- n))
    /\ ((Z.of_nat (shape0 df) <= n)%Z -> t = df).
Proof.
  intros Hwf. exists (head df n).
  split; [apply data_head_run|]. split; [apply analysis_head_run|].
  split; [apply well_formed_head, Hwf|].
  split; [unfold head; cbn [columns]; rewrite map_map; reflexivity|].
  split.
  { unfold head. cbn [columns]. rewrite map_map. apply map_ext.
    intros c. cbn [values]. destruct (values c); reflexivity. }
  rewrite shape0_head. unfold head_count.
  split; [|split].
  - intros Hn. destruct (Z.ltb_spec n 0); lia.
  - intros Hn. destruct (Z.ltb_spec n 0); lia.
  - apply head_all, Hwf.
Qed.

End HeadFacts.

Lemma head_returns_leading_rows_witness :
  Pandas.well_formed Example.subjects = true
  /\ exists t,
       DataBase.head 2 (Example.data_dataset Example.subjects)
       = Ok (t, Example.data_dataset Example.subjects)
       /\ Pandas.shape0 t = 2
       /\ Pandas.getitem t "Visit" = Ok (Pandas.Int64Values [1; 2]%Z).
Proof.
  split; [reflexivity|].
  destruct (head_returns_leading_rows "Subject" "Subject" "subjects.csv"
              Example.subjects [] 2 eq_refl) as (t & Hdata & _).
  exists t. split; [exact Hdata|].
  unfold Example.data_dataset in Hdata. rewrite data_head_run in Hdata.
  injection Hdata as <-. split; reflexivity.
Defined.

(** ** The plots and the cached table of [analysis.base.Dataset] *)

Section PlotFacts.
Import Pandas Py Figures.
Context `{Libs}.
#[local] Arguments InfoTable.build : simpl never.

(** [_info_table] when nothing is cached. *)
Lemma analysis_info_table_none (obj : object) df figs :
  obj !! "_info" = Some VNone ->
  obj !! "_df" = Some (VFrame df) ->
  AnalysisBase._info_table {| self := obj; figures := figs |}
  = (t ← InfoTable.build df;
     mret (tt, {| self := <["_info" := VFrame t]> obj; figures := figs |})).
Proof.
  intros Hinfo Hdf. unfold AnalysisBase._info_table, getattr, mbind, M_bind at 1.
  cbn [self]. rewrite Hinfo. unfold M_bind, getattr. cbn [self]. rewrite Hdf.
  cbn. destruct (InfoTable.build df); reflexivity.
Qed.

Lemma info_plot_on_summary (obj : object) nm df t :
  obj !! "_info" = Some (VFrame t) ->
  obj !! "_name" = Some (VStr nm) ->
  InfoTable.build df = Ok t ->
  exists fig,
    (forall figs,
        AnalysisBase._info_plot {| self := obj; figures := figs |}
        = Ok (tt, {| self := obj; figures := figs ++ [fig] |}))
    /\ suptitle fig = nm +:+ " Dataset Summary"
    /\ map (fun ax => (title ax, y ax)) (axes fig)
       = [("Cardinality", "Unique"); ("Cardinality", "Cardinality");
          ("Validity", "Valid"); ("Validity", "Validity")]
    /\ Forall (plotted df) (axes fig).
Proof.
  intros Hinfo Hname Hbuild. rewrite build_eq in Hbuild. injection Hbuild as <-.
  eexists. split; [intros figs|].
  - unfold AnalysisBase._info_plot, AnalysisBase.plot_cardinality, AnalysisBase.plot_validity,
      getattr, mbind, M_bind.
    cbn [self]. rewrite Hname.
    repeat (cbn -[Numpy.around Numpy.of_Z count isna_sum nunique memory_usage];
            rewrite ?Hinfo).
    reflexivity.
  - cbn [suptitle axes map title y].
    split; [reflexivity|]. split; [reflexivity|].
    unfold plotted, well_formed, shape0.
    repeat constructor; cbn; rewrite ?length_map, ?Nat.eqb_refl; reflexivity.
Qed.

(** An instance on which [_info_table] has not run has no table to plot. *)
Lemma plots_without_table (obj : object) figs :
  obj !! "_info" = Some VNone ->
  (forall normalized,
      AnalysisBase.plot_validity normalized {| self := obj; figures := figs |}
      = Raise TypeError
      /\ AnalysisBase.plot_cardinality normalized {| self := obj; figures := figs |}
         = Raise TypeError)
  /\ AnalysisBase.plot_size {| self := obj; figures := figs |} = Raise TypeError.
Proof.
  intros Hinfo.
  unfold AnalysisBase.plot_validity, AnalysisBase.plot_cardinality, AnalysisBase.plot_size,
    getattr, mbind, M_bind.
  cbn [self]. rewrite Hinfo. repeat split.
Qed.

(** X7: on an instance as the constructor leaves it, and again on an
    instance after [reset], the plots of the summary, [plot_validity],
    [plot_cardinality] and [plot_size], raise [TypeError]: [self._info] is
    [None] until [info] or [_info_table] has run. *)
Theorem plots_before_info_raise cls name filepath df figs :
  let fails (w : world) :=
    (forall normalized,
        AnalysisBase.plot_validity normalized w = Raise TypeError
        /\ AnalysisBase.plot_cardinality normalized w = Raise TypeError)
    /\ AnalysisBase.plot_size w = Raise TypeError in
  fails {| self := AnalysisBase.__init__ cls name filepath df; figures := figs |}
  /\ forall w : world, exists w', AnalysisBase.reset w = Ok (tt, w') /\ fails w'.
Proof.
  intros fails. split.
  - apply plots_without_table. unfold AnalysisBase.__init__. lookup_attr. reflexivity.
  - intros [obj figs']. eexists. split; [reflexivity|].
    apply plots_without_table.
    rewrite lookup_insert_ne by discriminate. apply lookup_insert_eq.
Qed.

(** X8: [info] with [plot=True] draws one new figure at every call, the
    second like the first: its title is the name of the dataset followed by
    [Dataset Summary], and its four bar plots show, by column, the distinct
    values, the cardinality, the valid values and the validity, each with one
    bar for each column of the data frame. *)
Theorem info_draws_one_figure_per_call cls name filepath df figs (table : bool) :
  exists v w1 w2 fig,
    AnalysisBase.info table true
      {| self := AnalysisBase.__init__ cls name filepath df; figures := figs |}
    = Ok (v, w1)
    /\ figures w1 = figs ++ [fig]
    /\ AnalysisBase.info table true w1 = Ok (v, w2)
    /\ figures w2 = figs ++ [fig; fig]
    /\ suptitle fig = name +:+ " Dataset Summary"
    /\ map (fun ax => (title ax, y ax)) (axes fig)
       = [("Cardinality", "Unique"); ("Cardinality", "Cardinality");
          ("Validity", "Valid"); ("Validity", "Validity")]
    /\ Forall (plotted df) (axes fig).
Proof.
  destruct (rows_build df) as (t & Hbuild & _ & _).
  set (obj := AnalysisBase.__init__ cls name filepath df).
  set (obj' := <["_info" := VFrame t]> obj).
  assert (Hinfo : obj' !! "_info" = Some (VFrame t)) by apply lookup_insert_eq.
  assert (Hname : obj' !! "_name" = Some (VStr name)).
  { unfold obj', obj, AnalysisBase.__init__. lookup_attr. reflexivity. }
  destruct (info_plot_on_summary obj' name df t Hinfo Hname Hbuild)
    as (fig & Hplot & Htitle & Haxes & Hdata).
  assert (Hcached : forall figs',
             AnalysisBase.info table true {| self := obj'; figures := figs' |}
             = Ok (if table then VFrame (round t 2) else VNone,
                   {| self := obj'; figures := figs' ++ [fig] |})).
  { intros figs'. unfold AnalysisBase.info, mbind, M_bind.
    rewrite (analysis_info_table_cached obj' t figs' Hinfo), Hplot.
    destruct table; [|reflexivity].
    unfold getattr. cbn [self]. rewrite Hinfo. reflexivity. }
  exists (if table then VFrame (round t 2) else VNone),
    {| self := obj'; figures := figs ++ [fig] |},
    {| self := obj'; figures := (figs ++ [fig]) ++ [fig] |}, fig.
  split.
  { specialize (Hcached figs). unfold AnalysisBase.info, mbind, M_bind in Hcached |- *.
    rewrite (analysis_info_table_cached obj' t figs Hinfo) in Hcached.
    pose proof (analysis_info_table_fresh cls name filepath df figs) as Hfresh.
    cbv zeta in Hfresh. fold obj in Hfresh. rewrite Hfresh, Hbuild.
    cbn [mbind result_bind mret M_ret self]. fold obj'. exact Hcached. }
  split; [reflexivity|]. split; [apply Hcached|].
  split; [cbn [figures]; rewrite <- app_assoc; reflexivity|].
  auto.
Qed.

(** X9: once a table is cached, [info] returns it whatever [self._df]
    holds by then; after [reset] the next [info] computes the table of
    [self._df] again and caches it.  [reset] also binds [_summary]. *)
Theorem reset_discards_cached_table (obj : object) (stale : DataFrame) df figs :
  obj !! "_info" = Some (VFrame stale) ->
  obj !! "_df" = Some (VFrame df) ->
  AnalysisBase.info true false {| self := obj; figures := figs |}
  = Ok (VFrame (round stale 2), {| self := obj; figures := figs |})
  /\ exists t w1 w2,
       AnalysisBase.reset {| self := obj; figures := figs |} = Ok (tt, w1)
       /\ self w1 !! "_info" = Some VNone
       /\ self w1 !! "_summary" = Some VNone
       /\ AnalysisBase.info true false w1 = Ok (VFrame (round t 2), w2)
       /\ InfoTable.build df = Ok t
       /\ self w2 !! "_info" = Some (VFrame t)
       /\ figures w2 = figs.
Proof.
  intros Hinfo Hdf. split.
  - unfold AnalysisBase.info, mbind, M_bind.
    rewrite (analysis_info_table_cached obj stale figs Hinfo).
    unfold getattr. cbn [self mret M_ret]. rewrite Hinfo. reflexivity.
  - destruct (rows_build df) as (t & Hbuild & _ & _).
    set (obj0 := <["_summary" := VNone]> (<["_info" := VNone]> obj)).
    assert (Hinfo0 : obj0 !! "_info" = Some VNone).
    { unfold obj0. rewrite lookup_insert_ne by discriminate. apply lookup_insert_eq. }
    assert (Hdf0 : obj0 !! "_df" = Some (VFrame df)).
    { unfold obj0. rewrite !lookup_insert_ne by discriminate. exact Hdf. }
    exists t, {| self := obj0; figures := figs |},
      {| self := <["_info" := VFrame t]> obj0; figures := figs |}.
    split; [reflexivity|]. cbn [self figures].
    split; [exact Hinfo0|]. split; [apply lookup_insert_eq|].
    split.
    { unfold AnalysisBase.info, mbind, M_bind.
      rewrite (analysis_info_table_none obj0 df figs Hinfo0 Hdf0), Hbuild.
      cbn [mbind result_bind mret result_ret M_ret]. unfold getattr. cbn [self].
      rewrite lookup_insert_eq. reflexivity. }
    split; [exact Hbuild|]. split; [apply lookup_insert_eq | reflexivity].
Qed.

End PlotFacts.

Lemma reset_discards_cached_table_witness :
  ExampleCache.stale_dataset !! "_info" = Some (Py.VFrame ExampleCache.summary)
  /\ ExampleCache.stale_dataset !! "_df" = Some (Py.VFrame Example.no_subjects)
  /\ AnalysisBase.info (H := Example.libs) true false
       {| Py.self := ExampleCache.stale_dataset; Py.figures := [] |}
     = Ok (Py.VFrame (Pandas.round ExampleCache.summary 2),
           {| Py.self := ExampleCache.stale_dataset; Py.figures := [] |}).
Proof.
  assert (Hinfo : ExampleCache.stale_dataset !! "_info"
                  = Some (Py.VFrame ExampleCache.summary)).
  { unfold ExampleCache.stale_dataset.
    rewrite lookup_insert_ne by discriminate. apply lookup_insert_eq. }
  assert (Hdf : ExampleCache.stale_dataset !! "_df" = Some (Py.VFrame Example.no_subjects))
    by apply lookup_insert_eq.
  split; [exact Hinfo|]. split; [exact Hdf|].
  exact (proj1 (@reset_discards_cached_table Example.libs ExampleCache.stale_dataset
                  ExampleCache.summary Example.no_subjects [] Hinfo Hdf)).
Defined.

(** ** [FOGDataset]: the inherited [info] *)

Section FogInfoFacts.
Import Pandas Py.
Context `{Libs}.
#[local] Arguments InfoTable.build : simpl never.
#[local] Arguments round : simpl never.

(** [_info_table], run by an instance of any subclass, when nothing is
    cached and when something is. *)
Lemma inherited_info_table_none namespace (obj : object) df figs :
  obj !! "_info" = Some VNone ->
  obj !! "_df" = Some (VFrame df) ->
  Inherited._info_table namespace {| self := obj; figures := figs |}
  = (t ← InfoTable.build df;
     mret (tt, {| self := <["_info" := VFrame t]> obj; figures := figs |})).
Proof.
  intros Hinfo Hdf. unfold Inherited._info_table, getattr, mbind, M_bind at 1.
  cbn [self]. rewrite Hinfo. unfold M_bind, getattr. cbn [self]. rewrite Hdf.
  cbn. destruct (InfoTable.build df); reflexivity.
Qed.

Lemma inherited_info_table_cached namespace (obj : object) t figs :
  obj !! "_info" = Some (VFrame t) ->
  Inherited._info_table namespace {| self := obj; figures := figs |}
  = Ok (tt, {| self := obj; figures := figs |}).
Proof.
  intros Hinfo. unfold Inherited._info_table, getattr, mbind, M_bind.
  cbn [self]. rewrite Hinfo. reflexivity.
Qed.

(** What the methods of [FOGDataset] keep: no [_name], the data frame read
    at construction under [_df], and under [_info] nothing or the summary of
    that data frame. *)
Lemma fog_invariant filepath df (w : world) :
  Fog.reachable filepath df w ->
  self w !! "_name" = None
  /\ self w !! "_df" = Some (VFrame df)
  /\ (self w !! "_info" = Some VNone
      \/ exists t, self w !! "_info" = Some (VFrame t) /\ InfoTable.build df = Ok t).
Proof.
  induction 1 as [figs | w w' Hw IH Hstep].
  - cbn [self]. unfold Fog.__init__.
    split; [lookup_attr; reflexivity|]. split; [lookup_attr; reflexivity|].
    left. lookup_attr. reflexivity.
  - destruct IH as (Hname & Hdf & Hinfo).
    destruct Hstep as [w w' Hreset | w w' Htable | n w r w' Hhead].
    + unfold Fog.reset, AnalysisBase.reset, setattr, mbind, M_bind in Hreset.
      injection Hreset as <-. cbn [self].
      rewrite !lookup_insert_ne by discriminate.
      split; [exact Hname|]. split; [exact Hdf|].
      left. apply lookup_insert_eq.
    + unfold Fog._info_table, getattr, mbind, M_bind in Htable.
      destruct Hinfo as [Hnone | (t & Hsome & Hbuild)].
      * rewrite Hnone, Hdf in Htable. cbn [lift as_frame] in Htable.
        destruct (InfoTable.build df) as [t|e] eqn:Hbuild; cbn in Htable; [|discriminate].
        injection Htable as <-. cbn [self].
        rewrite !lookup_insert_ne by discriminate.
        split; [exact Hname|]. split; [exact Hdf|].
        right. exists t. split; [apply lookup_insert_eq | reflexivity].
      * rewrite Hsome in Htable. injection Htable as <-.
        split; [exact Hname|]. split; [exact Hdf|]. right. eauto.
    + exfalso. unfold Fog.head, getattr, mbind, M_bind in Hhead.
      rewrite (fog_flog_unset filepath df w Hw) in Hhead. discriminate Hhead.
Qed.

(** X10: in every state an instance of [FOGDataset] reaches, the [info]
    it inherits raises [AttributeError] for [_name] when it is to plot, which
    is the default: the constructor of [FOGDataset] does not run the one of
    [Dataset].  With [plot=False] it returns as in [Dataset], the table of
    the data frame under [table=True]. *)
Theorem fog_info_plot_raises_attribute_error filepath df (w : world) (table : bool) :
  Fog.reachable filepath df w ->
  Fog.info table true w = Raise (AttributeError "_name")
  /\ exists t w',
       Fog.info table false w = Ok (if table then VFrame (round t 2) else VNone, w')
       /\ InfoTable.build df = Ok t
       /\ self w' !! "_info" = Some (VFrame t).
Proof.
  intros Hw. destruct (fog_invariant filepath df w Hw) as (Hname & Hdf & Hinfo).
  destruct (rows_build df) as (t & Hbuild & _ & _).
  destruct w as [obj figs]. cbn [self] in *.
  assert (Htable : exists obj',
             Inherited._info_table Fog.namespace {| self := obj; figures := figs |}
             = Ok (tt, {| self := obj'; figures := figs |})
             /\ obj' !! "_name" = None /\ obj' !! "_info" = Some (VFrame t)).
  { destruct Hinfo as [Hnone | (t' & Hsome & Hbuild')].
    - rewrite (inherited_info_table_none _ obj df figs Hnone Hdf), Hbuild.
      eexists. split; [reflexivity|].
      split; [rewrite lookup_insert_ne by discriminate; exact Hname | apply lookup_insert_eq].
    - rewrite Hbuild in Hbuild'. injection Hbuild' as <-.
      rewrite (inherited_info_table_cached _ obj t figs Hsome).
      exists obj. auto. }
  destruct Htable as (obj' & Hrun & Hname' & Hinfo').
  unfold Fog.info, Inherited.info, mbind, M_bind. rewrite Hrun. split.
  - unfold Inherited._info_plot, getattr, mbind, M_bind. cbn [self].
    rewrite Hname'. reflexivity.
  - exists t, {| self := obj'; figures := figs |}.
    split; [|split; [exact Hbuild | exact Hinfo']].
    cbn [mret M_ret]. destruct table; [|reflexivity].
    unfold getattr. cbn [self]. rewrite Hinfo'. reflexivity.
Qed.

End FogInfoFacts.

Lemma fog_info_plot_raises_attribute_error_witness :
  Fog.info (H := Example.libs) false true (Example.fog_dataset Example.subjects)
  = Raise (AttributeError "_name").
Proof.
  exact (proj1 (@fog_info_plot_raises_attribute_error Example.libs "tdcsfog_metadata.csv"
                  Example.subjects _ false (Fog.reach_init _ _ []))).
Defined.

(** ** Floats: a difference of finite numbers *)

Section FloatSubFacts.
#[local] Open Scope float_scope.

Lemma is_infinity_spec x :
  is_infinity x = match Prim2SF x with S754_infinity _ => true | _ => false end.
Proof.
  unfold is_infinity. rewrite FloatAxioms.eqb_spec, abs_spec.
  change (Prim2SF infinity) with (S754_infinity false).
  destruct (Prim2SF x) as [s|s| |s m e]; reflexivity.
Qed.

(** Rounding a mantissa that is not negative gives a number or an
    infinity. *)
Lemma round_aux_not_nan s m e l :
  (0 <= m)%Z -> binary_round_aux prec emax s m e l <> S754_nan.
Proof.
  intros Hm. unfold binary_round_aux.
  destruct (shr_fexp_spec m e l Hm) as (k & _ & _ & _ & Hm1 & _ & _).
  destruct (shr_fexp prec emax m e l) as [mrs1 e1]. cbn [fst snd] in *.
  set (m1 := round_nearest_even (shr_m mrs1) (loc_of_shr_record mrs1)).
  assert (Hm1' : (0 <= m1)%Z).
  { destruct (round_nearest_even_cases (shr_m mrs1) (loc_of_shr_record mrs1))
      as [E|[E _]]; fold m1 in E; lia. }
  destruct (shr_fexp_spec m1 e1 loc_Exact Hm1') as (k2 & _ & _ & _ & Hm2 & _ & _).
  destruct (shr_fexp prec emax m1 e1 loc_Exact) as [mrs2 e2]. cbn [fst snd] in *.
  destruct (shr_m mrs2) as [|p|p]; [discriminate| |lia].
  destruct (Z.leb e2 _); discriminate.
Qed.

Lemma binary_normalize_not_nan m e szero :
  binary_normalize prec emax m e szero <> S754_nan.
Proof.
  unfold binary_normalize, binary_round.
  destruct m as [|p|p]; [discriminate| |];
    destruct (shl_align _ _ _) as [mz ez]; apply round_aux_not_nan; lia.
Qed.

(** The difference of two floats of which none is an infinity is NaN exactly
    when one of them is. *)
Lemma is_nan_sub x y :
  is_infinity x = false -> is_infinity y = false ->
  is_nan (x - y) = is_nan x || is_nan y.
Proof.
  rewrite !is_nan_spec, !is_infinity_spec, sub_spec.
  destruct (Prim2SF x) as [sx|sx| |sx mx ex], (Prim2SF y) as [sy|sy| |sy my ey];
    try discriminate; intros _ _; try reflexivity.
  - destruct sx, sy; reflexivity.
  - unfold SF64sub, SFsub.
    match goal with |- match ?r with _ => _ end = _ =>
      pose proof (binary_normalize_not_nan
                    (cond_Zopp sx (Zpos (fst (shl_align mx ex (Z.min ex ey))))
                     - cond_Zopp sy (Zpos (fst (shl_align my ey (Z.min ex ey)))))%Z
                    (Z.min ex ey) false) as Hr;
      destruct r; try reflexivity; contradiction
    end.
Qed.

End FloatSubFacts.

(** ** [Event] and [Task]: the column [Duration] *)

Section DurationFacts.
Import Pandas Py PandasArith.
Context `{Operators}.

Lemma find_column_assign_eq (k : string) (v : column_values) (cols : list Series) :
  find_column k (assign k v cols) = Some {| name := k; values := v |}.
Proof.
  induction cols as [|c cols IH]; cbn [assign find_column name].
  - rewrite String.eqb_refl. reflexivity.
  - destruct (String.eqb (name c) k) eqn:E; cbn [find_column name].
    + rewrite String.eqb_refl. reflexivity.
    + rewrite E. exact IH.
Qed.

Lemma find_column_assign_ne (k k' : string) (v : column_values) (cols : list Series) :
  k' <> k -> find_column k' (assign k v cols) = find_column k' cols.
Proof.
  intros Hne. apply String.eqb_neq in Hne.
  induction cols as [|c cols IH]; cbn [assign find_column name].
  - rewrite String.eqb_sym, Hne. reflexivity.
  - destruct (String.eqb (name c) k) eqn:E; cbn [find_column name].
    + apply String.eqb_eq in E. rewrite E, (String.eqb_sym k k'), Hne. reflexivity.
    + rewrite IH. reflexivity.
Qed.

Lemma names_assign (k : string) (v : column_values) (cols : list Series) :
  map name (assign k v cols)
  = match find_column k cols with
    | Some _ => map name cols
    | None => map name cols ++ [k]
    end.
Proof.
  induction cols as [|c cols IH]; cbn [assign find_column map app name]; [reflexivity|].
  destruct (String.eqb (name c) k) eqn:E; cbn [map name].
  - apply String.eqb_eq in E. rewrite E. reflexivity.
  - rewrite IH. destruct (find_column k cols); reflexivity.
Qed.

Lemma forallb_assign (p : Series -> bool) (k : string) (v : column_values) (cols : list Series) :
  p {| name := k; values := v |} = true -> forallb p cols = true ->
  forallb p (assign k v cols) = true.
Proof.
  intros Hp. induction cols as [|c cols IH]; cbn [assign forallb].
  - intros _. rewrite Hp. reflexivity.
  - intros [Hc Hcols]%andb_true_iff.
    destruct (String.eqb (name c) k); cbn [forallb].
    + rewrite Hp. exact Hcols.
    + rewrite Hc. apply IH, Hcols.
Qed.

(** The data frame after [df["Duration"] = d], for a [d] as long as the
    index. *)
Lemma setitem_column (df : DataFrame) (k : string) (d : column_values) :
  size d = shape0 df ->
  exists df', setitem df k d = Ok df'
    /\ getitem df' k = Ok d
    /\ shape0 df' = shape0 df
    /\ (well_formed df = true -> well_formed df' = true)
    /\ (forall k', k' <> k -> getitem df' k' = getitem df k')
    /\ map name (columns df')
       = match find_column k (columns df) with
         | Some _ => map name (columns df)
         | None => map name (columns df) ++ [k]
         end.
Proof.
  intros Hsize. unfold setitem. rewrite Hsize, Nat.eqb_refl.
  eexists. split; [reflexivity|].
  unfold getitem, well_formed, shape0. cbn [columns index].
  split; [rewrite find_column_assign_eq; reflexivity|].
  split; [reflexivity|]. split; [|split].
  - apply forallb_assign. cbn [values]. apply Nat.eqb_eq, Hsize.
  - intros k' Hne. rewrite (find_column_assign_ne _ _ _ _ Hne). reflexivity.
  - apply names_assign.
Qed.

(** The difference of two columns of numbers. *)
Lemma sub_numbers (e b : column_values) (n : nat) :
  is_number e = true -> is_number b = true -> size e = n -> size b = n ->
  exists d, sub e b = Ok d /\ size d = n /\ is_number d = true.
Proof.
  destruct e as [x|x|x|x], b as [y|y|y|y]; try discriminate; intros _ _ Hx Hy;
    cbn [sub size] in *; eexists; (split; [reflexivity|]);
    cbn [size is_number]; rewrite length_zip_with; (split; [lia | reflexivity]).
Qed.

(** The statement that derives [Duration], run on an instance that has its
    data frame. *)
Lemma assign_run namespace (stop start : string) (obj : object) df figs :
  obj !! "_df" = Some (VFrame df) ->
  Duration.assign namespace stop start {| self := obj; figures := figs |}
  = match (e ← getitem df stop; b ← getitem df start; d ← sub e b;
           setitem df "Duration" d) with
    | Ok df' => Ok (tt, {| self := <["_df" := VFrame df']> obj; figures := figs |})
    | Raise e => Raise e
    end.
Proof.
  intros Hdf. unfold Duration.assign.
  unfold mbind at 1, M_bind at 1. unfold getattr at 1. cbn [self]. rewrite Hdf.
  unfold mbind at 1, M_bind at 1. cbn [lift as_frame].
  unfold mbind at 1, M_bind at 1. unfold lift at 1.
  destruct (getitem df stop) as [e|err]; [|reflexivity]. cbn [mbind result_bind].
  unfold mbind at 1, M_bind at 1. unfold getattr at 1. cbn [self]. rewrite Hdf.
  unfold mbind at 1, M_bind at 1. cbn [lift as_frame].
  unfold mbind at 1, M_bind at 1. unfold lift at 1.
  destruct (getitem df start) as [b|err]; [|reflexivity]. cbn [mbind result_bind].
  unfold mbind at 1, M_bind at 1. unfold lift at 1.
  destruct (sub e b) as [d|err]; [|reflexivity]. cbn [mbind result_bind].
  unfold mbind at 1, M_bind at 1. unfold getattr at 1. cbn [self]. rewrite Hdf.
  unfold mbind at 1, M_bind at 1. cbn [lift as_frame].
  unfold mbind at 1, M_bind at 1. unfold lift at 1.
  destruct (setitem df "Duration" d) as [df'|err]; reflexivity.
Qed.

(** A constructor that derives [Duration] after the initialiser of its base
    has bound [_df]. *)
Lemma construct_run namespace (stop start : string) (init : object) df :
  init !! "_df" = Some (VFrame df) ->
  Duration.construct init (Duration.assign namespace stop start)
  = (e ← getitem df stop; b ← getitem df start; d ← sub e b;
     df' ← setitem df "Duration" d;
     Ok (<["_df" := VFrame df']> init)).
Proof.
  intros Hdf. unfold Duration.construct. rewrite (assign_run _ _ _ _ df _ Hdf).
  destruct (getitem df stop) as [e|err]; [|reflexivity]. cbn [mbind result_bind].
  destruct (getitem df start) as [b|err]; [|reflexivity]. cbn [mbind result_bind].
  destruct (sub e b) as [d|err]; [|reflexivity]. cbn [mbind result_bind].
  destruct (setitem df "Duration" d) as [df'|err]; reflexivity.
Qed.

Lemma data_init_df cls name filepath df :
  DataBase.__init__ cls name filepath df !! "_df" = Some (VFrame df).
Proof. unfold DataBase.__init__. lookup_attr. reflexivity. Qed.

Lemma analysis_init_df cls name filepath df :
  AnalysisBase.__init__ cls name filepath df !! "_df" = Some (VFrame df).
Proof. unfold AnalysisBase.__init__. lookup_attr. reflexivity. Qed.

Lemma constructed_raises namespace (stop start : string) (init : object) df :
  init !! "_df" = Some (VFrame df) ->
  (find_column stop (columns df) = None ->
   Duration.construct init (Duration.assign namespace stop start) = Raise (KeyError stop))
  /\ (find_column stop (columns df) <> None -> find_column start (columns df) = None ->
      Duration.construct init (Duration.assign namespace stop start)
      = Raise (KeyError start)).
Proof.
  intros Hdf. rewrite (construct_run _ _ _ _ df Hdf). unfold getitem. split.
  - intros ->. reflexivity.
  - intros Hstop ->. destruct (find_column stop (columns df)); [reflexivity | contradiction].
Qed.

(** X11: the constructors of [Event] and [Task], in [data/metadata.py] and
    in [analysis], raise [KeyError] when the file read has no column
    [Completion], respectively [End], and when it has that one and no column
    [Init], respectively [Begin]; the error names the missing column. *)
Theorem duration_needs_both_columns nm filepath df :
  let requires (made : result object) (stop start : string) : Prop :=
    (find_column stop (columns df) = None -> made = Raise (KeyError stop))
    /\ (find_column stop (columns df) <> None -> find_column start (columns df) = None ->
        made = Raise (KeyError start)) in
  requires (MetadataEvent.__init__ nm filepath df) "Completion" "Init"
  /\ requires (MetadataTask.__init__ nm filepath df) "End" "Begin"
  /\ requires (AnalysisEvent.__init__ nm filepath df) "Completion" "Init"
  /\ requires (AnalysisTask.__init__ nm filepath df) "End" "Begin".
Proof.
  intros requires. unfold requires.
  split; [|split; [|split]].
  - apply constructed_raises, data_init_df.
  - apply constructed_raises, data_init_df.
  - apply constructed_raises, analysis_init_df.
  - apply constructed_raises, analysis_init_df.
Qed.

Lemma constructed_derives namespace (stop start : string) (init : object) df e b :
  init !! "_df" = Some (VFrame df) ->
  well_formed df = true ->
  getitem df stop = Ok e -> getitem df start = Ok b ->
  is_number e = true -> is_number b = true ->
  exists d df',
    sub e b = Ok d
    /\ Duration.construct init (Duration.assign namespace stop start)
       = Ok (<["_df" := VFrame df']> init)
    /\ getitem df' "Duration" = Ok d
    /\ is_number d = true
    /\ well_formed df' = true
    /\ shape0 df' = shape0 df
    /\ (forall k, k <> "Duration" -> getitem df' k = getitem df k)
    /\ map Pandas.name (columns df')
       = match find_column "Duration" (columns df) with
         | Some _ => map Pandas.name (columns df)
         | None => map Pandas.name (columns df) ++ ["Duration"]
         end.
Proof.
  intros Hdf Hwf He Hb Hne Hnb.
  destruct (getitem_Some df stop e He) as (ce & Hce & _ & Ee).
  destruct (getitem_Some df start b Hb) as (cb & Hcb & _ & Eb).
  pose proof (well_formed_size df ce Hwf Hce) as Hse. rewrite Ee in Hse.
  pose proof (well_formed_size df cb Hwf Hcb) as Hsb. rewrite Eb in Hsb.
  destruct (sub_numbers e b (shape0 df) Hne Hnb Hse Hsb) as (d & Hsub & Hsd & Hnd).
  destruct (setitem_column df "Duration" d Hsd)
    as (df' & Hset & Hget & Hshape & Hwf' & Hother & Hnames).
  exists d, df'. rewrite (construct_run _ _ _ _ df Hdf), He, Hb.
  cbn [mbind result_bind]. rewrite Hsub. cbn [mbind result_bind]. rewrite Hset.
  repeat split; auto.
Qed.


End DurationFacts.

Lemma duration_needs_both_columns_witness :
  Pandas.find_column "Completion" (Pandas.columns ExampleMetadata.events_without_completion)
  = None
  /\ MetadataEvent.__init__ (H := ExampleMetadata.operators) "Events" "events.csv"
       ExampleMetadata.events_without_completion
     = Raise (KeyError "Completion").
Proof.
  split; [reflexivity|].
  exact (proj1 (proj1 (@duration_needs_both_columns ExampleMetadata.operators
                         "Events" "events.csv" ExampleMetadata.events_without_completion))
           eq_refl).
Defined.


(** ** [Event] and [Task]: where [Duration] is missing *)

Section DurationSummaryFacts.
Import Pandas Py PandasArith Summary.
Context `{Libs} `{Operators}.
#[local] Arguments InfoTable.build : simpl never.
#[local] Arguments round : simpl never.

Lemma isna_sub_floats (e b : list float) :
  Forall (fun x => is_infinity x = false) e ->
  Forall (fun x => is_infinity x = false) b ->
  map is_nan (zip_with (fun p q => p - q)%float e b)
  = zip_with orb (map is_nan e) (map is_nan b).
Proof.
  intros He. revert b. induction He as [|x e Hx He IH]; intros b Hb; [reflexivity|].
  destruct Hb as [|y b Hy Hb]; [reflexivity|].
  cbn [zip_with map]. rewrite (is_nan_sub x y Hx Hy), (IH b Hb). reflexivity.
Qed.

(** [info] of [data/base.py] and [info(table=True, plot=False)] of
    [analysis/base.py], run by an instance of a subclass that has its data
    frame and no table yet. *)
Lemma inherited_data_info_rows namespace (obj : object) df figs :
  obj !! "_df" = Some (VFrame df) ->
  exists t,
    Inherited.data_info namespace {| self := obj; figures := figs |}
    = Ok (t, {| self := obj; figures := figs |})
    /\ rows t = Ok (map (of_column df) (columns df)).
Proof.
  intros Hdf. destruct (rows_build df) as (t & Hbuild & Hrows & _).
  exists t. split; [|exact Hrows].
  unfold Inherited.data_info, getattr, mbind, M_bind. cbn [self]. rewrite Hdf.
  cbn [lift as_frame]. rewrite Hbuild. reflexivity.
Qed.

Lemma inherited_info_rows namespace (obj : object) df figs :
  obj !! "_info" = Some VNone ->
  obj !! "_df" = Some (VFrame df) ->
  exists t w',
    Inherited.info namespace true false {| self := obj; figures := figs |}
    = Ok (VFrame t, w')
    /\ rows t = Ok (map (fun c => round_row 2 (of_column df c)) (columns df)).
Proof.
  intros Hinfo Hdf. destruct (rows_build df) as (t & Hbuild & Hrows & _).
  exists (round t 2). eexists. split.
  - unfold Inherited.info, mbind, M_bind.
    rewrite (inherited_info_table_none _ obj df figs Hinfo Hdf), Hbuild.
    cbn [mbind result_bind mret result_ret M_ret]. unfold getattr. cbn [self].
    rewrite lookup_insert_eq. reflexivity.
  - rewrite (rows_round _ 2 _ Hrows), map_map. reflexivity.
Qed.

(** The instance a constructor makes out of float columns without
    infinities. *)
Lemma constructed_missing namespace (stop start : string) (init : object) df e b :
  init !! "_df" = Some (VFrame df) ->
  well_formed df = true ->
  getitem df stop = Ok (Float64Values e) -> getitem df start = Ok (Float64Values b) ->
  Forall (fun x => is_infinity x = false) e ->
  Forall (fun x => is_infinity x = false) b ->
  exists df' c,
    Duration.construct init (Duration.assign namespace stop start)
    = Ok (<["_df" := VFrame df']> init)
    /\ In c (columns df') /\ Pandas.name c = "Duration"
    /\ dtype_of (values c) = float64
    /\ isna (values c) = zip_with orb (map is_nan e) (map is_nan b).
Proof.
  intros Hdf Hwf He Hb Hfe Hfb.
  destruct (constructed_derives namespace stop start init df _ _ Hdf Hwf He Hb eq_refl eq_refl)
    as (d & df' & Hsub & Hmade & Hget & _).
  injection Hsub as <-.
  destruct (getitem_Some df' "Duration" _ Hget) as (c & Hc & Hname & Hvalues).
  exists df', c. rewrite Hvalues. cbn [dtype_of isna].
  rewrite (isna_sub_floats e b Hfe Hfb). auto.
Qed.

(** X13: when the two columns are float64 columns without infinities, the
    [Duration] of [Event] and of [Task] is a float64 column that is missing
    in exactly the rows where one of the two is missing. *)
Theorem duration_missing_where_an_end_is nm filepath df :
  well_formed df = true ->
  let missing (made : result object) (stop start : string) : Prop :=
    forall e b,
      getitem df stop = Ok (Float64Values e) -> getitem df start = Ok (Float64Values b) ->
      Forall (fun x => is_infinity x = false) e ->
      Forall (fun x => is_infinity x = false) b ->
      exists obj df' d,
        made = Ok obj
        /\ obj !! "_df" = Some (VFrame df')
        /\ getitem df' "Duration" = Ok (Float64Values d)
        /\ isna (Float64Values d)
           = zip_with orb (isna (Float64Values e)) (isna (Float64Values b)) in
  missing (MetadataEvent.__init__ nm filepath df) "Completion" "Init"
  /\ missing (MetadataTask.__init__ nm filepath df) "End" "Begin"
  /\ missing (AnalysisEvent.__init__ nm filepath df) "Completion" "Init"
  /\ missing (AnalysisTask.__init__ nm filepath df) "End" "Begin".
Proof.
  intros Hwf missing.
  assert (G : forall namespace stop start init,
             init !! "_df" = Some (VFrame df) ->
             missing (Duration.construct init (Duration.assign namespace stop start))
               stop start).
  { intros namespace stop start init Hdf e b He Hb Hfe Hfb.
    destruct (constructed_derives namespace stop start init df _ _ Hdf Hwf He Hb
                eq_refl eq_refl) as (d & df' & Hsub & Hmade & Hget & _).
    injection Hsub as <-.
    eexists _, df', _. split; [exact Hmade|].
    split; [apply lookup_insert_eq|]. split; [exact Hget|].
    cbn [isna]. apply isna_sub_floats; assumption. }
  split; [|split; [|split]].
  - apply G, data_init_df.
  - apply G, data_init_df.
  - apply G, analysis_init_df.
  - apply G, analysis_init_df.
Qed.

(** X14: the summary of an [Event] or a [Task] made from such columns has
    a row for [Duration], of dtype float64, whose [Null] is the number of
    rows in which one of the two columns is missing: [info] of
    [data/base.py] for the classes of [data/metadata.py], and
    [info(table=True, plot=False)] of [analysis/base.py] for the two of
    [analysis]. *)
Theorem duration_is_summarised nm filepath df figs :
  well_formed df = true ->
  let row_of (records : list ColumnSummary) (e b : list float) : Prop :=
    exists s, In s records /\ Column s = "Duration" /\ Dtype s = "float64"
              /\ Null s = sum_bool (zip_with orb (map is_nan e) (map is_nan b)) in
  let summarised (made : result object) (run : world -> result (list ColumnSummary))
      (stop start : string) : Prop :=
    forall e b,
      getitem df stop = Ok (Float64Values e) -> getitem df start = Ok (Float64Values b) ->
      Forall (fun x => is_infinity x = false) e ->
      Forall (fun x => is_infinity x = false) b ->
      exists obj records,
        made = Ok obj
        /\ run {| self := obj; figures := figs |} = Ok records
        /\ row_of records e b in
  let data_rows (info : M DataFrame) (w : world) : result (list ColumnSummary) :=
    '(t, _) ← info w; rows t in
  let analysis_rows (info : M value) (w : world) : result (list ColumnSummary) :=
    '(v, _) ← info w; t ← as_frame v; rows t in
  summarised (MetadataEvent.__init__ nm filepath df) (data_rows MetadataEvent.info)
    "Completion" "Init"
  /\ summarised (MetadataTask.__init__ nm filepath df) (data_rows MetadataTask.info)
       "End" "Begin"
  /\ summarised (AnalysisEvent.__init__ nm filepath df)
       (analysis_rows (AnalysisEvent.info true false)) "Completion" "Init"
  /\ summarised (AnalysisTask.__init__ nm filepath df)
       (analysis_rows (AnalysisTask.info true false)) "End" "Begin".
Proof.
  intros Hwf row_of summarised data_rows analysis_rows.
  assert (D : forall namespace stop start cls,
             summarised
               (Duration.construct (DataBase.__init__ cls nm filepath df)
                  (Duration.assign namespace stop start))
               (data_rows (Inherited.data_info namespace)) stop start).
  { intros namespace stop start cls e b He Hb Hfe Hfb.
    destruct (constructed_missing namespace stop start _ df e b
                (data_init_df cls nm filepath df) Hwf He Hb Hfe Hfb)
      as (df' & c & Hmade & Hc & Hname & Hdtype & Hna).
    destruct (inherited_data_info_rows namespace
                (<["_df" := VFrame df']> (DataBase.__init__ cls nm filepath df)) df' figs)
      as (t & Hrun & Hrows); [apply lookup_insert_eq|].
    eexists _, _. split; [exact Hmade|]. split.
    { unfold data_rows. rewrite Hrun. cbn [mbind result_bind]. exact Hrows. }
    exists (of_column df' c). split; [apply in_map, Hc|].
    cbn [of_column Column Dtype Null]. rewrite Hdtype. unfold isna_sum. rewrite Hna. auto. }
  assert (A : forall namespace stop start cls,
             summarised
               (Duration.construct (AnalysisBase.__init__ cls nm filepath df)
                  (Duration.assign namespace stop start))
               (analysis_rows (Inherited.info namespace true false)) stop start).
  { intros namespace stop start cls e b He Hb Hfe Hfb.
    destruct (constructed_missing namespace stop start _ df e b
                (analysis_init_df cls nm filepath df) Hwf He Hb Hfe Hfb)
      as (df' & c & Hmade & Hc & Hname & Hdtype & Hna).
    destruct (inherited_info_rows namespace
                (<["_df" := VFrame df']> (AnalysisBase.__init__ cls nm filepath df)) df' figs)
      as (t & w' & Hrun & Hrows); [|apply lookup_insert_eq|].
    { rewrite lookup_insert_ne by discriminate.
      unfold AnalysisBase.__init__. lookup_attr. reflexivity. }
    eexists _, _. split; [exact Hmade|]. split.
    { unfold analysis_rows. rewrite Hrun. cbn [mbind result_bind as_frame]. exact Hrows. }
    exists (round_row 2 (of_column df' c)). split.
    { apply (in_map (fun c => round_row 2 (of_column df' c))), Hc. }
    cbn [round_row of_column Column Dtype Null]. rewrite Hdtype. unfold isna_sum.
    rewrite Hna. auto. }
  split; [|split; [|split]].
  - apply D.
  - apply D.
  - apply A.
  - apply A.
Qed.

End DurationSummaryFacts.

Lemma duration_missing_where_an_end_is_witness :
  Pandas.well_formed ExampleMetadata.tasks = true
  /\ exists obj df' d,
       MetadataTask.__init__ (H := ExampleMetadata.operators) "Tasks" "tasks.csv"
         ExampleMetadata.tasks = Ok obj
       /\ obj !! "_df" = Some (Py.VFrame df')
       /\ Pandas.getitem df' "Duration" = Ok (Pandas.Float64Values d)
       /\ Pandas.isna (Pandas.Float64Values d) = [false; true; false].
Proof.
  split; [reflexivity|].
  apply (proj1 (proj2 (@duration_missing_where_an_end_is ExampleMetadata.operators
                         "Tasks" "tasks.csv" ExampleMetadata.tasks eq_refl))
           [190.5; nan; 29.75]%float [10; 190.5; 4.25]%float eq_refl eq_refl);
    repeat constructor.
Defined.

Lemma duration_is_summarised_witness :
  Pandas.well_formed ExampleMetadata.tasks = true
  /\ exists obj records,
       MetadataTask.__init__ (H := ExampleMetadata.operators) "Tasks" "tasks.csv"
         ExampleMetadata.tasks = Ok obj
       /\ ('(t, _) ← MetadataTask.info (H := Example.libs)
                      {| Py.self := obj; Py.figures := [] |};
           Summary.rows t) = Ok records
       /\ exists s, In s records /\ Summary.Column s = "Duration"
                    /\ Summary.Dtype s = "float64" /\ Summary.Null s = 1%Z.
Proof.
  split; [reflexivity|].
  apply (proj1 (proj2 (@duration_is_summarised Example.libs ExampleMetadata.operators
                         "Tasks" "tasks.csv" ExampleMetadata.tasks [] eq_refl))
           [190.5; nan; 29.75]%float [10; 190.5; 4.25]%float eq_refl eq_refl);
    repeat constructor.
Defined.

(** ** [describe] of a column the data frame does not have *)

Section DescribeColumnFacts.
Import Pandas Py Describe.
Context `{Libs}.

(** X15: [describe(column)], full or abbreviated and in either class,
    raises [KeyError] naming the column when the data frame has no column of
    that name. *)
Theorem describe_unknown_column_raises cls nm filepath df figs (column : string)
    (verbose : bool) :
  find_column column (columns df) = None ->
  DataBase.describe (Some column) verbose
    {| self := DataBase.__init__ cls nm filepath df; figures := figs |}
  = Raise (KeyError column)
  /\ AnalysisBase.describe (Some column) verbose
       {| self := AnalysisBase.__init__ cls nm filepath df; figures := figs |}
     = Raise (KeyError column).
Proof.
  intros Hnone. rewrite data_describe_run, analysis_describe_run.
  unfold Describe.describe, describe_column, getitem. rewrite Hnone. split; reflexivity.
Qed.

End DescribeColumnFacts.

Lemma describe_unknown_column_raises_witness :
  Pandas.find_column "Weight" (Pandas.columns Example.subjects) = None
  /\ DataBase.describe (H := Example.libs) (Some "Weight") true
       (Example.data_dataset Example.subjects)
     = Raise (KeyError "Weight").
Proof.
  split; [reflexivity|].
  exact (proj1 (@describe_unknown_column_raises Example.libs "Subject" "Subject"
                  "subjects.csv" Example.subjects [] "Weight" true eq_refl)).
Defined.

(** ** The two [info] return one table *)

Section InfoAgreeFacts.
Import Numpy Pandas Py FloatBound.
Context `{Libs}.
#[local] Open Scope Z_scope.

(** A hundredth between 0 and 1 is left as it is by a rounding to two
    decimals. *)
Lemma hundredths_rounded_again (k : Z) :
  0 <= k <= 100 -> around 2 (of_Z k / of_Z (10 ^ 2)) = (of_Z k / of_Z (10 ^ 2))%float.
Proof.
  intros Hk. apply FloatAxioms.Leibniz.eqb_spec.
  apply (forallb_upto
           (fun k => PrimFloat.Leibniz.eqb (around 2 (of_Z k / of_Z (10 ^ 2)))
                       (of_Z k / of_Z (10 ^ 2))%float) 100);
    [vm_compute; reflexivity | exact Hk].
Qed.

(** The ratio of a count to the number of rows, rounded to two decimals, is
    left as it is by a second rounding; without rows it is NaN and stays. *)
Lemma rounded_ratio_rounded_again (v n : Z) :
  0 <= v <= n -> n < 2 ^ 63 ->
  around 2 (around 2 (of_Z v / of_Z n)) = around 2 (of_Z v / of_Z n).
Proof.
  intros Hv Hn. destruct (Z.eq_dec n 0) as [->|Hn0].
  - replace v with 0 by lia. apply FloatAxioms.Leibniz.eqb_spec. vm_compute. reflexivity.
  - destruct (around_2_le_one _ (ratio_le_one v n Hv ltac:(lia))) as (k & Hk & ->).
    apply hundredths_rounded_again, Hk.
Qed.

(** The table [InfoTable.build] returns is rounded already. *)
Lemma build_rounded (df : DataFrame) (t : DataFrame) :
  well_formed df = true -> Z.of_nat (shape0 df) < 2 ^ 63 ->
  InfoTable.build df = Ok t -> round t 2 = t.
Proof.
  intros Hwf Hrows. rewrite build_eq. intros [= <-].
  unfold round. cbn [index columns map name values round_values].
  do 2 f_equal. rewrite !map_map.
  assert (Hratio : forall f : column_values -> Z,
             (forall v, 0 <= f v <= Z.of_nat (size v)) ->
             map (fun c => around 2 (around 2 (of_Z (f (values c))
                                                / of_Z (Z.of_nat (shape0 df))))) (columns df)
             = map (fun c => around 2 (of_Z (f (values c)) / of_Z (Z.of_nat (shape0 df))))
                 (columns df)).
  { intros f Hf. apply map_ext_in. intros c Hc.
    apply rounded_ratio_rounded_again; [|exact Hrows].
    rewrite <- (well_formed_size df c Hwf Hc). apply Hf. }
  rewrite (Hratio count count_bounds), (Hratio nunique nunique_bounds). reflexivity.
Qed.

(** X16: for a well-formed data frame, [info] of [data/base.py] and
    [info(table=True)] of [analysis/base.py] return the same table: rounding
    the cached table once more changes no value. *)
Theorem both_info_return_one_table cls nm filepath df figs (plot : bool) :
  well_formed df = true ->
  Z.of_nat (shape0 df) < 2 ^ 63 ->
  exists t w',
    DataBase.info {| self := DataBase.__init__ cls nm filepath df; figures := figs |}
    = Ok (t, {| self := DataBase.__init__ cls nm filepath df; figures := figs |})
    /\ AnalysisBase.info true plot
         {| self := AnalysisBase.__init__ cls nm filepath df; figures := figs |}
       = Ok (VFrame t, w').
Proof.
  intros Hwf Hrows.
  destruct (analysis_info_fresh cls nm filepath df figs true plot)
    as (t & drawn & Hbuild & Hrun & _).
  rewrite (build_rounded df t Hwf Hrows Hbuild) in Hrun.
  exists t. eexists. split; [|exact Hrun].
  pose proof (data_info_run cls nm filepath df figs) as Hdata. cbv zeta in Hdata.
  rewrite Hdata, Hbuild. reflexivity.
Qed.

End InfoAgreeFacts.

Lemma both_info_return_one_table_witness :
  Pandas.well_formed Example.subjects = true
  /\ (Z.of_nat (Pandas.shape0 Example.subjects) < 2 ^ 63)%Z
  /\ exists t w',
       DataBase.info (H := Example.libs) (Example.data_dataset Example.subjects)
       = Ok (t, Example.data_dataset Example.subjects)
       /\ AnalysisBase.info (H := Example.libs) true false
            (Example.analysis_dataset Example.subjects)
          = Ok (Py.VFrame t, w').
Proof.
  split; [reflexivity|]. split; [reflexivity|].
  exact (@both_info_return_one_table Example.libs "Subject" "Subject" "subjects.csv"
           Example.subjects [] false eq_refl eq_refl).
Defined.

(** ** Floats: sums and quotients that are exact *)

Section FloatExactFacts.
Import Numpy FloatBound.
#[local] Open Scope Z_scope.

Lemma canonical_cases (m : positive) (e : Z) :
  canonical_mantissa prec emax m e = true ->
  Zpos (digits2_pos m) <= 53
  /\ ((Zpos (digits2_pos m) = 53 /\ - 1074 <= e)
      \/ (Zpos (digits2_pos m) < 53 /\ e = - 1074)).
Proof.
  unfold canonical_mantissa, fexp, emin, emax, prec. intros E%Z.eqb_eq. lia.
Qed.

Lemma Zdigits2_shift (m : positive) (k : Z) :
  0 <= k -> Zdigits2 (Zpos m * 2 ^ k) = Zpos (digits2_pos m) + k.
Proof.
  intros Hk. pose proof (digits2_pos_bounds m) as [Hlo Hhi].
  assert (Hp : 0 < 2 ^ k) by (apply Z.pow_pos_nonneg; lia).
  apply Zdigits2_unique; [|lia].
  replace (Zpos (digits2_pos m) + k - 1) with (Zpos (digits2_pos m) - 1 + k) by lia.
  rewrite !Z.pow_add_r by lia. nia.
Qed.

(** Rounding a canonical mantissa that was shifted left by [k] bits gives it
    back, or an infinity when its exponent is too large. *)
Lemma round_aux_shift (s : bool) (m : positive) (e k : Z) :
  0 <= k -> canonical_mantissa prec emax m e = true ->
  binary_round_aux prec emax s (Zpos m * 2 ^ k) (e - k) loc_Exact
  = if e <=? emax - prec then S754_finite s m e else S754_infinity s.
Proof.
  intros Hk Hcanon. pose proof Hcanon as Hfexp. apply Z.eqb_eq in Hfexp.
  assert (Hp : 0 < 2 ^ k) by (apply Z.pow_pos_nonneg; lia).
  unfold binary_round_aux, shr_fexp at 1.
  rewrite Zdigits2_shift by exact Hk.
  replace (Zpos (digits2_pos m) + k + (e - k)) with (Zpos (digits2_pos m) + e) by lia.
  rewrite Hfexp. replace (e - (e - k)) with k by lia.
  assert (Hshr : shr (shr_record_of_loc (Zpos m * 2 ^ k) loc_Exact) (e - k) k
                 = ({| shr_m := Zpos m; shr_r := false; shr_s := false |}, e)
                 \/ exists mrs, shr (shr_record_of_loc (Zpos m * 2 ^ k) loc_Exact) (e - k) k
                                = (mrs, e)
                                /\ shr_m mrs = Zpos m /\ loc_of_shr_record mrs = loc_Exact).
  { destruct k as [|p|p]; [left|right|lia].
    - cbn [shr]. rewrite Z.mul_1_r, Z.sub_0_r. reflexivity.
    - cbn [shr]. eexists. split; [f_equal; lia|].
      destruct (iter_pos_shr_exact (Zpos m * 2 ^ Zpos p) p ltac:(lia) 0 _ ltac:(lia)
                  (shr_exact_init (Zpos m * 2 ^ Zpos p))) as [Hm Hloc].
      rewrite Z.add_0_l in Hm, Hloc.
      rewrite Z.div_mul in Hm by lia. rewrite Z.mod_mul in Hloc by lia.
      split; [exact Hm | exact Hloc]. }
  assert (Hlast : forall mrs,
             shr_m mrs = Zpos m -> loc_of_shr_record mrs = loc_Exact ->
             (let '(mrs'', e'') :=
                shr_fexp prec emax (round_nearest_even (shr_m mrs) (loc_of_shr_record mrs))
                  e loc_Exact in
              match shr_m mrs'' with
              | 0 => S754_zero s
              | Zpos m0 => if e'' <=? emax - prec then S754_finite s m0 e'' else S754_infinity s
              | Zneg _ => S754_nan
              end)
             = if e <=? emax - prec then S754_finite s m e else S754_infinity s).
  { intros mrs Hm Hloc. rewrite Hm, Hloc. cbn [round_nearest_even].
    unfold shr_fexp. cbn [Zdigits2]. rewrite Hfexp, Z.sub_diag.
    cbn [shr shr_record_of_loc shr_m]. reflexivity. }
  destruct Hshr as [-> | (mrs & -> & Hm & Hloc)].
  - apply (Hlast {| shr_m := Zpos m; shr_r := false; shr_s := false |}); reflexivity.
  - apply Hlast; assumption.
Qed.


Lemma bounded_cases (m : positive) (e : Z) :
  bounded prec emax m e = true ->
  canonical_mantissa prec emax m e = true /\ e <= emax - prec.
Proof.
  unfold bounded. intros [Hc He]%andb_true_iff. split; [exact Hc | apply Z.leb_le, He].
Qed.

(** The sum of a number with itself is the number with the next exponent,
    an infinity when there is none, and for a subnormal number the doubled
    mantissa. *)
Lemma SFadd_double (s : bool) (m : positive) (e : Z) :
  bounded prec emax m e = true ->
  SF64add (S754_finite s m e) (S754_finite s m e)
  = if Zpos (digits2_pos m) =? 53
    then (if e + 1 <=? emax - prec then S754_finite s m (e + 1) else S754_infinity s)
    else S754_finite s m~0 e.
Proof.
  intros [Hcanon He]%bounded_cases.
  destruct (canonical_cases m e Hcanon) as [Hd Hcase].
  unfold SF64add, SFadd. rewrite Z.min_id. unfold shl_align at 1 2. rewrite Z.sub_diag.
  cbn [fst].
  assert (Hsum : (cond_Zopp s (Zpos m) + cond_Zopp s (Zpos m))%Z
                 = cond_Zopp s (Zpos m~0)) by (destruct s; cbn [cond_Zopp]; lia).
  rewrite Hsum.
  assert (Hnorm : binary_normalize prec emax (cond_Zopp s (Zpos m~0)) e false
                  = binary_round prec emax s m~0 e) by (destruct s; reflexivity).
  rewrite Hnorm. unfold binary_round, shl_align. cbn [digits2_pos].
  rewrite Pos2Z.inj_succ.
  destruct (fexp prec emax (Z.succ (Zpos (digits2_pos m)) + e) - e) as [|p|p] eqn:Ef;
    try (exfalso; unfold fexp, emin, emax, prec in Ef; unfold canonical_mantissa, fexp, emin, emax, prec in Hcanon;
         apply Z.eqb_eq in Hcanon; lia).
  - (* the doubled mantissa is canonical *)
    assert (Hsub : Zpos (digits2_pos m) < 53).
    { unfold fexp, emin, emax, prec in Ef. lia. }
    replace (Zpos (digits2_pos m) =? 53) with false by (symmetry; apply Z.eqb_neq; lia).
    pose proof (round_aux_shift s m~0 e 0 ltac:(lia)) as Hr.
    rewrite Z.mul_1_r, Z.sub_0_r in Hr. rewrite Hr.
    + replace (e <=? emax - prec) with true by (symmetry; apply Z.leb_le; exact He).
      reflexivity.
    + unfold canonical_mantissa. cbn [digits2_pos]. rewrite Pos2Z.inj_succ.
      apply Z.eqb_eq. lia.
  - (* one more bit than the precision *)
    assert (Hnormal : Zpos (digits2_pos m) = 53 /\ p = 1%positive).
    { unfold fexp, emin, emax, prec in Ef. lia. }
    destruct Hnormal as [Hd53 ->].
    rewrite Hd53. change (53 =? 53) with true. cbv iota.
    pose proof (round_aux_shift s m (e + 1) 1 ltac:(lia)) as Hr.
    replace (Zpos m * 2 ^ 1) with (Zpos m~0) in Hr by lia.
    replace (e + 1 - 1) with e in Hr by lia. apply Hr.
    unfold canonical_mantissa, fexp, emin, emax, prec. apply Z.eqb_eq. lia.
Qed.

Lemma div_eucl_mul (a b : Z) : 0 < b -> Z.div_eucl (a * b) b = (a, 0).
Proof.
  intros Hb. pose proof (Z.div_mul a b ltac:(lia)) as Hq.
  pose proof (Z.mod_mul a b ltac:(lia)) as Hr.
  unfold Z.div, Z.modulo in Hq, Hr.
  destruct (Z.div_eucl (a * b) b) as [q r]. cbn [fst snd] in *. congruence.
Qed.

(** Division by 1 and by 2, written [2 ^ 52 * 2 ^ (j - 52)], of a number
    [m1 * 2 ^ e1] whose quotient [m * 2 ^ e] is a float. *)
Lemma SFdiv_pow2 (s : bool) (m m1 : positive) (e e1 t j : Z) :
  bounded prec emax m e = true ->
  0 <= t <= 1 -> 0 <= j <= 1 ->
  Zpos m1 = Zpos m * 2 ^ t -> e1 = e + j - t ->
  SF64div (S754_finite s m1 e1) (S754_finite false 4503599627370496 (j - 52))
  = S754_finite s m e.
Proof.
  intros [Hcanon He]%bounded_cases Ht Hj Hm1 ->.
  destruct (canonical_cases m e Hcanon) as [Hd Hcase].
  unfold SF64div, SFdiv, SFdiv_core_binary.
  rewrite Hm1, Zdigits2_shift by lia.
  change (Zdigits2 4503599627370496) with 53.
  set (k := if e =? -1074 then 0 else 1).
  assert (Hk : 0 <= k <= 1) by (unfold k; destruct (e =? -1074); lia).
  replace (Z.min (fexp prec emax (Zpos (digits2_pos m) + t + (e + j - t) - (53 + (j - 52))))
             (e + j - t - (j - 52))) with (e - k)
    by (unfold k, fexp, emin, emax, prec; destruct (Z.eqb_spec e (-1074)); lia).
  replace (e + j - t - (j - 52) - (e - k)) with (52 - t + k) by lia.
  destruct (52 - t + k) as [|p|p] eqn:Es; try lia.
  rewrite Z.shiftl_mul_pow2 by lia. rewrite <- Es.
  replace (Zpos m * 2 ^ t * 2 ^ (52 - t + k)) with (Zpos m * 2 ^ k * 4503599627370496).
  2:{ rewrite <- !Z.mul_assoc. f_equal. rewrite <- Z.pow_add_r by lia.
      replace (t + (52 - t + k)) with (k + 52) by lia.
      rewrite Z.pow_add_r by lia. reflexivity. }
  rewrite div_eucl_mul by lia.
  rewrite xorb_false_r.
  replace (new_location 4503599627370496 0) with loc_Exact by reflexivity.
  rewrite (round_aux_shift s m e k) by (lia || exact Hcanon).
  replace (e <=? emax - prec) with true by (symmetry; apply Z.leb_le; exact He).
  reflexivity.
Qed.

End FloatExactFacts.

(** ** The outlier filter on a sample of one value *)

Section ConstantSampleFacts.
Import Numpy Outlier.
#[local] Open Scope float_scope.

(** [x / 1] is [x]. *)
Lemma div_one (x : float) : x / 1 = x.
Proof.
  apply Prim2SF_inj. rewrite div_spec.
  change (Prim2SF 1) with (S754_finite false 4503599627370496 (0 - 52)).
  pose proof (Prim2SF_valid x) as Hv.
  destruct (Prim2SF x) as [s|s| |s m e]; cbn [valid_binary] in Hv.
  - destruct s; reflexivity.
  - destruct s; reflexivity.
  - reflexivity.
  - apply (SFdiv_pow2 s m m e e 0 0 Hv); lia.
Qed.

(** [(x + x) / 2] is [x], unless the sum overflows; then it is an infinity
    and [x] is finite. *)
Lemma half_double (x : float) :
  (x + x) / 2 = x
  \/ (is_infinity ((x + x) / 2) = true /\ is_finite x = true).
Proof.
  rewrite is_infinity_spec, is_finite_spec, div_spec, add_spec.
  change (Prim2SF 2) with (S754_finite false 4503599627370496 (1 - 52)).
  pose proof (Prim2SF_valid x) as Hv.
  destruct (Prim2SF x) as [s|s| |s m e] eqn:Ex; cbn [valid_binary] in Hv.
  - left. apply Prim2SF_inj. rewrite div_spec, add_spec, Ex. destruct s; reflexivity.
  - left. apply Prim2SF_inj. rewrite div_spec, add_spec, Ex. destruct s; reflexivity.
  - left. apply Prim2SF_inj. rewrite div_spec, add_spec, Ex. reflexivity.
  - rewrite (SFadd_double s m e Hv).
    destruct (bounded_cases m e Hv) as [Hcanon He].
    destruct (Z.eqb_spec (Zpos (digits2_pos m)) 53) as [Hd|Hd].
    + destruct (Z.leb_spec (e + 1)%Z (emax - prec)%Z) as [Hle|Hgt].
      * left. apply Prim2SF_inj. rewrite div_spec, add_spec, Ex, (SFadd_double s m e Hv).
        replace (Zpos (digits2_pos m) =? 53)%Z with true by (symmetry; apply Z.eqb_eq, Hd).
        replace (e + 1 <=? emax - prec)%Z with true by (symmetry; apply Z.leb_le, Hle).
        change (Prim2SF 2) with (S754_finite false 4503599627370496 (1 - 52)).
        apply (SFdiv_pow2 s m m e (e + 1) 0 1 Hv); lia.
      * right. split; reflexivity.
    + left. apply Prim2SF_inj. rewrite div_spec, add_spec, Ex, (SFadd_double s m e Hv).
      replace (Zpos (digits2_pos m) =? 53)%Z with false by (symmetry; apply Z.eqb_neq, Hd).
      change (Prim2SF 2) with (S754_finite false 4503599627370496 (1 - 52)).
      apply (SFdiv_pow2 s m m~0 e e 1 1 Hv); lia.
Qed.

(** A float that is not NaN is at most itself. *)
Lemma leb_refl (x : float) : is_nan x = false -> (x <=? x) = true.
Proof.
  rewrite is_nan_spec, leb_spec. unfold SFleb.
  destruct (Prim2SF x) as [s|s| |s m e]; try discriminate; intros _.
  - reflexivity.
  - destruct s; reflexivity.
  - rewrite SFcompare_refl_finite. reflexivity.
Qed.

Lemma sort_replicate (c : float) (n : nat) :
  is_nan c = false -> sort (replicate n c) = replicate n c.
Proof.
  intros Hc. induction n as [|n IH]; [reflexivity|].
  cbn [replicate sort]. rewrite IH.
  destruct n as [|n]; [reflexivity|]. cbn [replicate insert].
  rewrite (leb_refl c Hc). reflexivity.
Qed.

Lemma existsb_replicate (c : float) (n : nat) :
  existsb is_nan (replicate n c) = match n with O => false | S _ => is_nan c end.
Proof.
  destruct n as [|n]; [reflexivity|]. cbn [replicate existsb].
  induction n as [|n IH]; cbn [replicate existsb].
  - apply orb_false_r.
  - rewrite IH. destruct (is_nan c); reflexivity.
Qed.

(** The median of a sample of one value that is not NaN. *)
Lemma median_replicate (c : float) (n : nat) :
  is_nan c = false ->
  median (replicate (S n) c) = (if Nat.odd (S n) then c / 1 else (c + c) / 2).
Proof.
  intros Hc. unfold median.
  rewrite existsb_replicate, Hc, (sort_replicate c (S n) Hc), length_replicate.
  rewrite !drop_replicate, !take_replicate.
  destruct (Nat.odd (S n)) eqn:Hodd.
  - assert (Hlt : (S n / 2 < S n)%nat) by (apply Nat.div_lt; lia).
    replace (1 `min` (S n - S n / 2))%nat with 1%nat by lia. reflexivity.
  - destruct n as [|n]; [discriminate Hodd|].
    assert (Hle : (S (S n) / 2 <= S n)%nat).
    { apply Nat.Div0.div_le_upper_bound. lia. }
    assert (Hpos : (1 <= S (S n) / 2)%nat).
    { apply Nat.div_le_lower_bound; lia. }
    replace (2 `min` (S (S n) - (S (S n) / 2 - 1)))%nat with 2%nat by lia. reflexivity.
Qed.


(** The difference of a finite number with itself is [+0]. *)
Lemma sub_self (x : float) : is_finite x = true -> x - x = 0.
Proof.
  rewrite is_finite_spec. intros Hx. apply Prim2SF_inj. rewrite sub_spec.
  change (Prim2SF 0) with (S754_zero false).
  destruct (Prim2SF x) as [s|s| |s m e]; try discriminate.
  - destruct s; reflexivity.
  - unfold SF64sub, SFsub. rewrite Z.min_id, Z.sub_diag. reflexivity.
Qed.

(** No element is kept when the median is an infinity. *)
Lemma infinite_median_not_lt_3 x m mad :
  is_infinity m = true -> (abs ((x - m) / mad) <? 3) = false.
Proof.
  rewrite is_infinity_spec, FloatAxioms.ltb_spec, abs_spec, div_spec, sub_spec.
  destruct (Prim2SF m) as [sm|sm| |sm mm em]; try discriminate. intros _.
  destruct (Prim2SF x) as [sx|sx| |sx mx ex], (Prim2SF mad) as [sd|sd| |sd md ed];
    try destruct sx; destruct sm; reflexivity.
Qed.

Lemma filter_replicate {A : Type} (p : A -> bool) (x : A) (n : nat) :
  p x = false -> List.filter p (replicate n x) = [].
Proof.
  intros Hp. induction n as [|n IH]; [reflexivity|].
  cbn [replicate List.filter]. rewrite Hp. exact IH.
Qed.

Lemma centered_replicate (c m : float) (n : nat) :
  np_abs (sub_scalar (replicate n c) m) = replicate n (abs (c - m)).
Proof.
  unfold np_abs, sub_scalar. induction n as [|n IH]; [reflexivity|].
  cbn [replicate map]. rewrite <- IH. reflexivity.
Qed.

(** The scaled MAD of a sample of one finite value whose median is that
    value. *)
Lemma mad_replicate (c : float) (n : nat) :
  is_finite c = true ->
  (median (np_abs (sub_scalar (replicate (S n) c) c)) * __b =? 0) = true.
Proof.
  intros Hc. rewrite centered_replicate, (sub_self c Hc).
  change (abs 0) with 0%float. rewrite median_replicate by reflexivity.
  destruct (Nat.odd (S n)); vm_compute; reflexivity.
Qed.

(** X17: a sample in which every element is the same value, whatever the
    value and however many, comes back empty. *)
Theorem univariate_one_value_sample_emptied (c : float) (n : nat) :
  univariate (replicate n c) = Ok [].
Proof.
  rewrite univariate_mask. f_equal.
  destruct n as [|n]; [reflexivity|].
  apply filter_replicate.
  destruct (is_finite c) eqn:Hfin.
  2:{ match goal with |- ?t = false => destruct t eqn:Hkept; [|reflexivity] end.
      apply kept_is_finite in Hkept. congruence. }
  assert (Hnan : is_nan c = false).
  { unfold is_finite in Hfin. destruct (is_nan c); [discriminate | reflexivity]. }
  assert (Hmedian : median (replicate (S n) c) = c
                    \/ is_infinity (median (replicate (S n) c)) = true).
  { rewrite (median_replicate c n Hnan). destruct (Nat.odd (S n)).
    - left. apply div_one.
    - destruct (half_double c) as [E|[E _]]; [left | right]; exact E. }
  destruct Hmedian as [-> | Hinf].
  - apply abs_div_zero_not_lt_3, mad_replicate, Hfin.
  - apply infinite_median_not_lt_3, Hinf.
Qed.

End ConstantSampleFacts.

(** ** [Dataset.get] *)

Section GetFacts.
Import Pandas Py Selection.
Context `{Labelled}.

Lemma get_run cls nm filepath df figs (x filter_var filter_val : option string) :
  let w := {| self := AnalysisBase.__init__ cls nm filepath df; figures := figs |} in
  AnalysisBase.get x filter_var filter_val w
  = match x with
    | None =>
        if truthy filter_var then
          match filter_var with
          | Some var =>
              tested ← getitem df var;
              Ok (getitem_mask df (eq_scalar tested filter_val), w)
          | None => Ok (WholeFrame df, w)
          end
        else Ok (WholeFrame df, w)
    | Some x =>
        v ← getitem df x;
        if truthy filter_var then
          match filter_var, index df with
          | Some var, RangeIndex _ => Raise (KeyError var)
          | Some var, LabelIndex labels =>
              r ← filter_by_label labels {| name := x; values := v |} var filter_val;
              Ok (r, w)
          | None, _ => Ok (WholeColumn (index df) {| name := x; values := v |}, w)
          end
        else Ok (WholeColumn (index df) {| name := x; values := v |}, w)
    end.
Proof.
  intros w. subst w. unfold AnalysisBase.get, getattr, mbind, M_bind. cbn [self].
  rewrite analysis_init_df. cbn [lift as_frame].
  destruct x as [x|].
  - cbn [self]. rewrite analysis_init_df. cbn [lift as_frame].
    destruct (getitem df x) as [v|e]; [|reflexivity]. cbn [mbind result_bind].
    destruct filter_var as [[|a var]|]; cbn [truthy]; try reflexivity.
    destruct (index df) as [stop|labels]; [reflexivity|].
    unfold lift. destruct (filter_by_label _ _ _ _); reflexivity.
  - destruct filter_var as [[|a var]|]; cbn [truthy]; try reflexivity.
    unfold lift. destruct (getitem df (String a var)); reflexivity.
Qed.

(** X18: [get] raises [KeyError] naming [x] when the data frame has no
    column [x], and naming [filter_var] when the latter is given without [x]
    and is no column; given a column [x] together with a [filter_var], it
    raises [KeyError] naming [filter_var] on every data frame with a
    [RangeIndex], which is what [pd.read_csv(filepath)] returns: the filter is
    looked up in the column, not in the data frame. *)
Theorem get_raises_key_error cls nm filepath df figs (x var : string)
    (filter_var filter_val : option string) :
  let w := {| self := AnalysisBase.__init__ cls nm filepath df; figures := figs |} in
  (find_column x (columns df) = None ->
   AnalysisBase.get (Some x) filter_var filter_val w = Raise (KeyError x))
  /\ (var <> "" -> find_column var (columns df) = None ->
      AnalysisBase.get None (Some var) filter_val w = Raise (KeyError var))
  /\ (var <> "" -> find_column x (columns df) <> None ->
      forall stop, index df = RangeIndex stop ->
      AnalysisBase.get (Some x) (Some var) filter_val w = Raise (KeyError var)).
Proof.
  intros w. unfold w. split; [|split].
  - intros Hx. rewrite get_run. unfold getitem. rewrite Hx. reflexivity.
  - intros Hvar Hnone. rewrite get_run.
    destruct var as [|a var]; [contradiction|]. cbn [truthy].
    unfold getitem. rewrite Hnone. reflexivity.
  - intros Hvar Hx stop Hidx. rewrite get_run. unfold getitem.
    destruct (find_column x (columns df)); [|contradiction]. cbn [mbind result_bind].
    destruct var as [|a var]; [contradiction|]. cbn [truthy]. rewrite Hidx. reflexivity.
Qed.

Lemma length_eq_scalar (v : column_values) (val : option string) :
  length (eq_scalar v val) = size v.
Proof. destruct v, val; cbn [eq_scalar size]; apply length_map. Qed.

Lemma nth_map_lookup {A : Type} (f : A -> bool) (l : list A) (i : nat) :
  nth i (map f l) false = match l !! i with Some x => f x | None => false end.
Proof.
  revert i. induction l as [|x l IH]; intros [|i]; try reflexivity. apply IH.
Qed.

(** The mask of [series == val] is true where the cell is the string. *)
Lemma nth_eq_scalar (v : column_values) (val : option string) (i : nat) :
  nth i (eq_scalar v val) false = holds (iloc v i) val.
Proof.
  destruct v as [l|l|l|l], val as [s|]; cbn [eq_scalar iloc];
    rewrite nth_map_lookup; destruct (l !! i) as [x|]; try reflexivity.
  destruct x; reflexivity.
Qed.

Lemma filter_map_succ (p : nat -> bool) (l : list nat) :
  List.filter p (map S l) = map S (List.filter (fun i => p (S i)) l).
Proof.
  induction l as [|x l IH]; [reflexivity|].
  cbn [map List.filter]. destruct (p (S x)); cbn [map]; rewrite IH; reflexivity.
Qed.

(** What a mask keeps, by position: the [j]-th element kept is the element
    at the [j]-th position where the mask is true. *)
Lemma keep_lookup {A : Type} (mask : list bool) (l : list A) (p : nat -> bool) (j : nat) :
  length mask = length l ->
  (forall i, nth i mask false = p i) ->
  keep mask l !! j = List.filter p (seq 0 (length l)) !! j ≫= (fun i => l !! i).
Proof.
  revert l p j. induction mask as [|b mask IH]; intros [|x l] p j; try discriminate.
  - reflexivity.
  - intros [= Hlen] Hp. cbn [length seq List.filter keep].
    rewrite <- seq_shift, filter_map_succ, <- (Hp 0%nat). cbn [nth].
    assert (Hrest : forall j', keep mask l !! j'
                               = map S (List.filter (fun i => p (S i)) (seq 0 (length l))) !! j'
                                 ≫= (fun i => (x :: l) !! i)).
    { intros j'. rewrite (IH l (fun i => p (S i)) j' Hlen (fun i => Hp (S i))).
      change (map S ?t !! j') with ((S <$> t) !! j'). rewrite list_lookup_fmap.
      destruct (_ !! j'); reflexivity. }
    destruct b; [destruct j as [|j]; [reflexivity|]|]; apply Hrest.
Qed.

Lemma iloc_keep_values (mask : list bool) (v : column_values) (p : nat -> bool) (j : nat) :
  length mask = size v ->
  (forall i, nth i mask false = p i) ->
  iloc (keep_values mask v) j = List.filter p (seq 0 (size v)) !! j ≫= iloc v.
Proof.
  intros Hlen Hp.
  destruct v as [l|l|l|l]; cbn [keep_values iloc size] in *;
    rewrite (keep_lookup mask l p j Hlen Hp);
    destruct (_ !! j); reflexivity.
Qed.

(** X19: [get(filter_var=var, filter_val=val)] on a well-formed data frame
    that has the column [var] leaves the instance as it is and returns
    exactly the rows in which that column holds the string [val], in their
    order and under their labels.  With [positions] the positions of those
    rows, ascending: the [j]-th row of the result has the label of row
    [positions[j]], and in every column, which keeps its place, its name and
    its dtype, the cell of that row; there is no other row.  A column of
    numbers or booleans holds no string, and [None] is equal to nothing:
    then no row is returned. *)
Theorem get_filter_keeps_matching_rows cls nm filepath df figs (var : string)
    (filter_val : option string) (tested : column_values) :
  well_formed df = true ->
  var <> "" ->
  getitem df var = Ok tested ->
  let w := {| self := AnalysisBase.__init__ cls nm filepath df; figures := figs |} in
  let positions :=
    List.filter (fun i => holds (iloc tested i) filter_val) (seq 0 (shape0 df)) in
  exists labels cols,
    AnalysisBase.get None (Some var) filter_val w = Ok (Rows labels cols, w)
    /\ match labels, index df with
       | IntLabels _, RangeIndex _ | StrLabels _, LabelIndex _ => True
       | _, _ => False
       end
    /\ (forall j, kept_label labels j = positions !! j ≫= label_at (index df))
    /\ map Pandas.name cols = map Pandas.name (columns df)
    /\ map (fun c => dtype_of (values c)) cols
       = map (fun c => dtype_of (values c)) (columns df)
    /\ (forall k c, columns df !! k = Some c ->
          exists c', cols !! k = Some c'
                     /\ forall j, iloc (values c') j = positions !! j ≫= iloc (values c))
    /\ ((dtype_of tested <> object_ \/ filter_val = None) -> positions = []).
Proof.
  intros Hwf Hvar Htested w positions.
  set (mask := eq_scalar tested filter_val).
  destruct (getitem_Some df var tested Htested) as (ct & Hct & _ & Ect).
  assert (Hmask : length mask = shape0 df).
  { unfold mask. rewrite length_eq_scalar, <- Ect. apply (well_formed_size df ct Hwf Hct). }
  assert (Hp : forall i, nth i mask false = holds (iloc tested i) filter_val).
  { intros i. apply nth_eq_scalar. }
  eexists _, _. split.
  { unfold w. rewrite get_run. destruct var as [|a var]; [contradiction|].
    cbn [truthy]. rewrite Htested. reflexivity. }
  fold mask. subst positions. unfold shape0 in *.
  split; [|split; [|split; [|split; [|split]]]].
  - destruct (index df); exact I.
  - intros j. destruct (index df) as [stop|labels]; cbn [index_len kept_label label_at] in *.
    + rewrite (keep_lookup mask (seq 0 stop) _ j (eq_trans Hmask (eq_sym (length_seq stop 0))) Hp).
      rewrite length_seq. destruct (List.filter _ _ !! j) as [i|]; [|reflexivity].
      cbn [mbind option_bind label_at].
      destruct (Nat.ltb_spec i stop) as [Hi|Hi].
      * rewrite lookup_seq_lt by exact Hi. reflexivity.
      * rewrite lookup_seq_ge by exact Hi. reflexivity.
    + rewrite (keep_lookup mask labels _ j Hmask Hp).
      destruct (List.filter _ _ !! j) as [i|]; reflexivity.
  - rewrite map_map. reflexivity.
  - rewrite map_map. apply map_ext. intros c. cbn [values]. destruct (values c); reflexivity.
  - intros k c Hk.
    assert (Hc : In c (columns df)).
    { apply list_elem_of_In. eapply list_elem_of_lookup_2. exact Hk. }
    pose proof (well_formed_size df c Hwf Hc) as Hsize. unfold shape0 in Hsize.
    eexists. split.
    + change (map ?f ?l !! k) with ((f <$> l) !! k). rewrite list_lookup_fmap, Hk. reflexivity.
    + intros j. cbn [values]. rewrite <- Hsize.
      apply iloc_keep_values; [rewrite Hsize; exact Hmask | exact Hp].
  - intros Hnone. apply filter_nothing. intros i.
    destruct tested as [l|l|l|l], filter_val as [s|]; cbn [iloc];
      try (destruct (l !! i) as [x|]; reflexivity).
    + destruct Hnone as [Hd|Hs]; [contradiction Hd; reflexivity | discriminate].
    + destruct (l !! i) as [[x|]|]; reflexivity.
Qed.

End GetFacts.

Lemma get_raises_key_error_witness :
  Pandas.index Example.subjects = Pandas.RangeIndex 3
  /\ AnalysisBase.get (H := ExampleMetadata.labelled) (Some "Age") (Some "Subject") (Some "a1")
       (Example.analysis_dataset Example.subjects)
     = Raise (KeyError "Subject").
Proof.
  split; [reflexivity|].
  apply (proj2 (proj2 (@get_raises_key_error ExampleMetadata.labelled "Subject" "Subject"
                         "subjects.csv" Example.subjects [] "Age" "Subject"
                         (Some "Subject") (Some "a1")))) with (stop := 3);
    [discriminate | discriminate | reflexivity].
Defined.

Lemma get_filter_keeps_matching_rows_witness :
  Pandas.well_formed Example.subjects = true
  /\ exists labels cols,
       AnalysisBase.get (H := ExampleMetadata.labelled) None (Some "Subject") (Some "a1")
         (Example.analysis_dataset Example.subjects)
       = Ok (Selection.Rows labels cols, Example.analysis_dataset Example.subjects)
       /\ Selection.kept_label labels 0 = Some (Selection.IntLabel 0)
       /\ Selection.kept_label labels 1 = Some (Selection.IntLabel 2)
       /\ Selection.kept_label labels 2 = None.
Proof.
  split; [reflexivity|].
  destruct (@get_filter_keeps_matching_rows ExampleMetadata.labelled "Subject" "Subject"
              "subjects.csv" Example.subjects [] "Subject" (Some "a1") _
              eq_refl ltac:(discriminate) eq_refl)
    as (labels & cols & Hrun & _ & Hlabels & _).
  exists labels, cols. split; [exact Hrun|].
  rewrite !Hlabels. repeat split.
Defined.

(** ** [Outlier.univariate] on a sample with a majority value *)

Section FloatOrderFacts.

Ltac compare_cases :=
  repeat match goal with
         | H : context [Pos.compare_cont Eq ?a ?b] |- _ =>
             change (Pos.compare_cont Eq a b) with (Pos.compare a b) in H
         | |- context [Pos.compare_cont Eq ?a ?b] =>
             change (Pos.compare_cont Eq a b) with (Pos.compare a b)
         end;
  repeat match goal with
         | H : context [Z.compare ?a ?b] |- _ => destruct (Z.compare_spec a b)
         | |- context [Z.compare ?a ?b] => destruct (Z.compare_spec a b)
         | H : context [Pos.compare ?a ?b] |- _ => destruct (Pos.compare_spec a b)
         | |- context [Pos.compare ?a ?b] => destruct (Pos.compare_spec a b)
         end;
  cbn [CompOpp] in *; try discriminate; try contradiction; try reflexivity; try lia.

(** The order of the specification is transitive, strictly when one of the
    two steps is strict. *)
Lemma SFcompare_trans (x y z : spec_float) (c1 c2 : comparison) :
  SFcompare x y = Some c1 -> SFcompare y z = Some c2 ->
  c1 <> Gt -> c2 <> Gt ->
  SFcompare x z = Some (match c1, c2 with Eq, Eq => Eq | _, _ => Lt end).
Proof.
  destruct x as [sx|sx| |sx mx ex], y as [sy|sy| |sy my ey], z as [sz|sz| |sz mz ez];
    cbn [SFcompare]; try discriminate;
    try destruct sx; try destruct sy; try destruct sz;
    intros [= <-] [= <-] H1 H2; try contradiction; try reflexivity;
    compare_cases.
Qed.


Lemma SFcompare_opp (x y : spec_float) (c : comparison) :
  SFcompare x y = Some c -> SFcompare y x = Some (CompOpp c).
Proof.
  destruct x as [sx|sx| |sx mx ex], y as [sy|sy| |sy my ey];
    cbn [SFcompare]; try discriminate;
    try destruct sx; try destruct sy; intros [= <-]; try reflexivity;
    f_equal; rewrite (Z.compare_antisym ey ex);
    change (Pos.compare_cont Eq mx my) with (Pos.compare mx my);
    change (Pos.compare_cont Eq my mx) with (Pos.compare my mx);
    rewrite (Pos.compare_antisym my mx);
    destruct (ey ?= ex)%Z; cbn [CompOpp]; try reflexivity;
    destruct (my ?= mx)%positive; reflexivity.
Qed.

Lemma SFcompare_some (x y : spec_float) :
  x <> S754_nan -> y <> S754_nan -> exists c, SFcompare x y = Some c.
Proof.
  destruct x as [sx|sx| |sx mx ex], y as [sy|sy| |sy my ey];
    cbn [SFcompare]; intros Hx Hy; try contradiction; eauto.
Qed.

#[local] Open Scope float_scope.

Lemma not_nan_spec (x : float) : is_nan x = false <-> Prim2SF x <> S754_nan.
Proof.
  rewrite is_nan_spec. destruct (Prim2SF x); split; intros E; congruence.
Qed.

(** How a float that is not NaN compares with another. *)
Lemma compare_floats (x y : float) :
  is_nan x = false -> is_nan y = false ->
  exists c, SFcompare (Prim2SF x) (Prim2SF y) = Some c
    /\ (x <? y) = match c with Lt => true | _ => false end
    /\ (x =? y) = match c with Eq => true | _ => false end
    /\ (y <? x) = match c with Gt => true | _ => false end
    /\ (x <=? y) = match c with Gt => false | _ => true end
    /\ (y <=? x) = match c with Lt => false | _ => true end.
Proof.
  intros Hx%not_nan_spec Hy%not_nan_spec.
  destruct (SFcompare_some _ _ Hx Hy) as [c Hc]. exists c.
  pose proof (SFcompare_opp _ _ _ Hc) as Hc'.
  rewrite !FloatAxioms.ltb_spec, FloatAxioms.eqb_spec, !leb_spec.
  unfold SFltb, SFeqb, SFleb. rewrite Hc, Hc'.
  destruct c; repeat split; reflexivity.
Qed.

Lemma leb_not_nan (x y : float) :
  (x <=? y) = true -> is_nan x = false /\ is_nan y = false.
Proof.
  rewrite leb_spec, !is_nan_spec. unfold SFleb.
  destruct (Prim2SF x), (Prim2SF y); cbn [SFcompare]; try discriminate; auto.
Qed.

Lemma leb_trans (x y z : float) :
  (x <=? y) = true -> (y <=? z) = true -> (x <=? z) = true.
Proof.
  intros Hxy Hyz.
  destruct (leb_not_nan _ _ Hxy) as [Hx Hy]. destruct (leb_not_nan _ _ Hyz) as [_ Hz].
  destruct (compare_floats x y Hx Hy) as (c1 & E1 & _ & _ & _ & L1 & _).
  destruct (compare_floats y z Hy Hz) as (c2 & E2 & _ & _ & _ & L2 & _).
  rewrite L1 in Hxy. rewrite L2 in Hyz.
  assert (H1 : c1 <> Gt) by (destruct c1; congruence).
  assert (H2 : c2 <> Gt) by (destruct c2; congruence).
  pose proof (SFcompare_trans _ _ _ _ _ E1 E2 H1 H2) as E3.
  rewrite leb_spec. unfold SFleb. rewrite E3. destruct c1, c2; reflexivity.
Qed.

Lemma leb_total (x y : float) :
  is_nan x = false -> is_nan y = false -> (x <=? y) = false -> (y <=? x) = true.
Proof.
  intros Hx Hy. destruct (compare_floats x y Hx Hy) as (c & _ & _ & _ & _ & -> & ->).
  destruct c; congruence.
Qed.

(** The place of [y] against [v], for [x <= y], from the place of [x]. *)
Lemma leb_after (v x y : float) :
  is_nan v = false -> (x <=? y) = true ->
  ((x =? v) = true -> (y <? v) = false)
  /\ ((v <? x) = true -> (y <? v) = false /\ (y =? v) = false).
Proof.
  intros Hv Hxy. destruct (leb_not_nan _ _ Hxy) as [Hx Hy].
  destruct (compare_floats x y Hx Hy) as (c1 & E1 & _ & _ & _ & L1 & _).
  destruct (compare_floats y v Hy Hv) as (c2 & E2 & Lt2 & Eq2 & _ & _ & _).
  destruct (compare_floats x v Hx Hv) as (c3 & E3 & _ & Eq3 & Gt3 & _ & _).
  rewrite L1 in Hxy. rewrite Lt2, Eq2, Eq3, Gt3.
  assert (H1 : c1 <> Gt) by (destruct c1; congruence).
  assert (Hcase : c2 = Gt \/ c3 = match c1, c2 with Eq, Eq => Eq | _, _ => Lt end).
  { destruct (comparison_eq_dec c2 Gt) as [|H2]; [left; assumption | right].
    pose proof (SFcompare_trans _ _ _ _ _ E1 E2 H1 H2) as E. congruence. }
  destruct Hcase as [-> | ->]; [split; auto|].
  destruct c1, c2; split; intros; try split; congruence.
Qed.

End FloatOrderFacts.

Section MajorityFacts.
Import Numpy Outlier Ascending.
#[local] Open Scope float_scope.

Lemma float_eqb_sym (x y : float) : (x =? y) = (y =? x).
Proof.
  rewrite !FloatAxioms.eqb_spec. unfold SFeqb.
  destruct (SFcompare (Prim2SF x) (Prim2SF y)) as [c|] eqn:E.
  - rewrite (SFcompare_opp _ _ _ E). destruct c; reflexivity.
  - destruct (SFcompare (Prim2SF y) (Prim2SF x)) as [c'|] eqn:E'; [|reflexivity].
    rewrite (SFcompare_opp _ _ _ E') in E. discriminate.
Qed.

Lemma float_eqb_trans (x y z : float) :
  (x =? y) = true -> (y =? z) = true -> (x =? z) = true.
Proof.
  rewrite !FloatAxioms.eqb_spec. unfold SFeqb.
  destruct (SFcompare (Prim2SF x) (Prim2SF y)) as [[]|] eqn:E1; try discriminate.
  destruct (SFcompare (Prim2SF y) (Prim2SF z)) as [[]|] eqn:E2; try discriminate.
  intros _ _.
  rewrite (SFcompare_trans _ _ _ _ _ E1 E2) by discriminate. reflexivity.
Qed.

Lemma eqb_not_nan (x y : float) :
  (x =? y) = true -> is_nan x = false /\ is_nan y = false.
Proof.
  rewrite FloatAxioms.eqb_spec, !is_nan_spec. unfold SFeqb.
  destruct (Prim2SF x), (Prim2SF y); cbn [SFcompare]; try discriminate; auto.
Qed.

Lemma ltb_not_eqb (x y : float) :
  (x <? y) = true -> (x =? y) = false /\ (y =? x) = false.
Proof.
  intros Hlt. rewrite <- (float_eqb_sym x y). revert Hlt.
  rewrite FloatAxioms.ltb_spec, FloatAxioms.eqb_spec. unfold SFltb, SFeqb.
  destruct (SFcompare (Prim2SF x) (Prim2SF y)) as [[]|]; try discriminate; auto.
Qed.

(** *** Insertion sort orders a sample without NaN *)

Lemma ascending_insert (x : float) (l : list float) :
  is_nan x = false -> Forall (fun y => is_nan y = false) l ->
  ascending l -> ascending (insert x l).
Proof.
  intros Hx Hl. induction Hl as [|y l Hy Hl IH]; cbn [insert ascending].
  - intros _. split; [constructor | exact I].
  - intros [Hall Hasc]. destruct (x <=? y) eqn:Hxy; cbn [ascending].
    + split; [|split; assumption].
      constructor; [exact Hxy|].
      eapply Forall_impl; [exact Hall|]. intros z Hz. exact (leb_trans x y z Hxy Hz).
    + split; [|apply IH, Hasc].
      apply Forall_insert; [apply (leb_total x y Hx Hy Hxy) | exact Hall].
Qed.

Lemma ascending_sort (l : list float) :
  Forall (fun y => is_nan y = false) l -> ascending (sort l).
Proof.
  induction 1 as [|x l Hx Hl IH]; cbn [sort]; [exact I|].
  apply ascending_insert; [exact Hx | apply Forall_sort, Hl | exact IH].
Qed.

Lemma length_filter_insert (p : float -> bool) (x : float) (l : list float) :
  length (List.filter p (insert x l)) = length (List.filter p (x :: l)).
Proof.
  induction l as [|y l IH]; [reflexivity|].
  cbn [insert]. destruct (x <=? y); [reflexivity|].
  cbn [List.filter] in *. destruct (p y), (p x); cbn [length] in *; lia.
Qed.

Lemma length_filter_sort (p : float -> bool) (l : list float) :
  length (List.filter p (sort l)) = length (List.filter p l).
Proof.
  induction l as [|x l IH]; [reflexivity|].
  cbn [sort]. rewrite length_filter_insert. cbn [List.filter].
  destruct (p x); cbn [length]; rewrite IH; reflexivity.
Qed.

Lemma not_nan_Forall (l : list float) :
  existsb is_nan l = false <-> Forall (fun y => is_nan y = false) l.
Proof.
  induction l as [|x l IH]; cbn [existsb].
  - split; [constructor | reflexivity].
  - rewrite orb_false_iff, IH. split.
    + intros [Hx Hl]. constructor; assumption.
    + intros Hl. inversion Hl; subst. split; assumption.
Qed.

(** *** The values below, equal to and above a value, in an ascending list *)

Lemma ascending_split (v : float) (s : list float) :
  is_nan v = false -> Forall (fun y => is_nan y = false) s -> ascending s ->
  exists below equal above,
    s = below ++ equal ++ above
    /\ Forall (fun x => (x <? v) = true) below
    /\ Forall (fun x => (x =? v) = true) equal
    /\ Forall (fun x => (v <? x) = true) above.
Proof.
  intros Hv Hs. induction Hs as [|x s Hx Hs IH]; cbn [ascending].
  - intros _. exists [], [], []. repeat split; constructor.
  - intros [Hall Hasc].
    destruct (IH Hasc) as (below & equal & above & -> & Hb & He & Ha).
    destruct (compare_floats x v Hx Hv) as (c & _ & Hlt & Heq & Hgt & _).
    destruct c.
    + (* x = v *)
      destruct below as [|y below].
      * exists [], (x :: equal), above. repeat split; try assumption; constructor; assumption.
      * exfalso. apply Forall_cons in Hall as [Hxy _]. apply Forall_cons in Hb as [Hy _].
        destruct (leb_after v x y Hv Hxy) as [H1 _]. rewrite (H1 Heq) in Hy. discriminate.
    + (* x < v *)
      exists (x :: below), equal, above. repeat split; try assumption.
      constructor; assumption.
    + (* v < x *)
      destruct below as [|y below].
      * destruct equal as [|y equal].
        -- exists [], [], (x :: above). repeat split; try assumption; constructor; assumption.
        -- exfalso. apply Forall_cons in Hall as [Hxy _]. apply Forall_cons in He as [Hy _].
           destruct (leb_after v x y Hv Hxy) as [_ H2].
           destruct (H2 Hgt) as [_ H3]. rewrite H3 in Hy. discriminate.
      * exfalso. apply Forall_cons in Hall as [Hxy _]. apply Forall_cons in Hb as [Hy _].
        destruct (leb_after v x y Hv Hxy) as [_ H2].
        destruct (H2 Hgt) as [H3 _]. rewrite H3 in Hy. discriminate.
Qed.

Lemma filter_none (p : float -> bool) (l : list float) :
  Forall (fun x => p x = false) l -> List.filter p l = [].
Proof.
  induction 1 as [|x l Hx Hl IH]; [reflexivity|]. cbn [List.filter]. rewrite Hx. exact IH.
Qed.

Lemma filter_all (p : float -> bool) (l : list float) :
  Forall (fun x => p x = true) l -> List.filter p l = l.
Proof.
  induction 1 as [|x l Hx Hl IH]; [reflexivity|]. cbn [List.filter]. rewrite Hx, IH. reflexivity.
Qed.

(** A slice of an ascending list that lies among the values equal to [v],
    when these are more than half of the list. *)
Lemma middle_of_ascending (v : float) (s : list float) (i t : nat) :
  is_nan v = false -> Forall (fun y => is_nan y = false) s -> ascending s ->
  (length s < 2 * length (List.filter (fun x => (x =? v)%float) s))%nat ->
  (length s <= 2 * i + 2)%nat -> (2 * (i + t) <= length s + 2)%nat ->
  exists l, firstn t (skipn i s) = l /\ length l = t
            /\ Forall (fun x => (x =? v) = true) l.
Proof.
  intros Hv Hs Hasc Hmajor Hlo Hhi.
  destruct (ascending_split v s Hv Hs Hasc) as (below & equal & above & -> & Hb & He & Ha).
  assert (Hcount : List.filter (fun x => x =? v) (below ++ equal ++ above) = equal).
  { rewrite !List.filter_app. rewrite (filter_all _ equal He).
    rewrite (filter_none _ below), (filter_none _ above).
    - rewrite app_nil_r. reflexivity.
    - eapply Forall_impl; [exact Ha|]. intros x Hx. apply (ltb_not_eqb v x Hx).
    - eapply Forall_impl; [exact Hb|]. intros x Hx. apply (ltb_not_eqb x v Hx). }
  rewrite Hcount in Hmajor. rewrite !length_app in Hmajor, Hlo, Hhi.
  exists (firstn t (skipn (i - length below) equal)).
  split; [|split].
  - rewrite drop_app_ge by lia. rewrite drop_app_le by lia.
    rewrite take_app_le; [reflexivity|]. rewrite length_drop. lia.
  - rewrite length_take, length_drop. lia.
  - apply Forall_take, Forall_drop, He.
Qed.

(** *** Equal floats *)

Lemma eqb_cases (x y : float) :
  (x =? y) = true ->
  (exists s s', Prim2SF x = S754_zero s /\ Prim2SF y = S754_zero s')
  \/ (exists s, Prim2SF x = S754_infinity s /\ Prim2SF y = S754_infinity s)
  \/ x = y.
Proof.
  rewrite FloatAxioms.eqb_spec. unfold SFeqb.
  destruct (Prim2SF x) as [sx|sx| |sx mx ex] eqn:Ex,
           (Prim2SF y) as [sy|sy| |sy my ey] eqn:Ey; cbn [SFcompare]; intros Hcmp;
    try discriminate Hcmp;
    try (destruct sx; discriminate Hcmp); try (destruct sy; discriminate Hcmp).
  - left. eauto.
  - right. left. destruct sx, sy; try discriminate Hcmp; eauto.
  - right. right. apply Prim2SF_inj. rewrite Ex, Ey.
    destruct sx, sy; try discriminate Hcmp;
      destruct (Z.compare_spec ex ey) as [->| |]; try discriminate Hcmp;
      change (Pos.compare_cont Eq mx my) with (Pos.compare mx my) in Hcmp;
      destruct (Pos.compare_spec mx my) as [->| |]; try discriminate Hcmp; reflexivity.
Qed.

(** The mean of two equal floats is equal to them, or has overflowed. *)
Lemma half_sum (x y : float) :
  (x =? y) = true ->
  ((x + y) / 2 =? x) = true \/ is_infinity ((x + y) / 2) = true.
Proof.
  intros Hxy. pose proof (float_eqb_trans x y x Hxy) as Hrefl.
  rewrite (float_eqb_sym y x) in Hrefl. specialize (Hrefl Hxy).
  destruct (eqb_cases x y Hxy) as [(s & s' & Ex & Ey)|[(s & Ex & Ey)| <-]].
  - left. rewrite FloatAxioms.eqb_spec, div_spec, add_spec, Ex, Ey.
    destruct s, s'; reflexivity.
  - left. rewrite FloatAxioms.eqb_spec, div_spec, add_spec, Ex, Ey.
    destruct s; reflexivity.
  - destruct (half_double x) as [-> | [Hinf _]]; [left; exact Hrefl | right; exact Hinf].
Qed.

Lemma half_sum_zero (x y : float) :
  (x =? 0) = true -> (y =? 0) = true -> ((x + y) / 2 =? 0) = true.
Proof.
  rewrite !FloatAxioms.eqb_spec, div_spec, add_spec.
  change (Prim2SF 0) with (S754_zero false). unfold SFeqb.
  destruct (Prim2SF x) as [sx|sx| |sx mx ex]; cbn [SFcompare];
    try discriminate; try (destruct sx; discriminate).
  destruct (Prim2SF y) as [sy|sy| |sy my ey]; cbn [SFcompare];
    try discriminate; try (destruct sy; discriminate).
  intros _ _. destruct sx, sy; reflexivity.
Qed.

(** The distance between two equal floats that are not infinities is [+0]. *)
Lemma abs_sub_equal (x m : float) :
  (x =? m) = true -> is_infinity m = false -> abs (x - m) = 0.
Proof.
  intros Hxm Hinf.
  destruct (eqb_cases x m Hxm) as [(s & s' & Ex & Em)|[(s & Ex & Em)| ->]].
  - apply Prim2SF_inj. rewrite abs_spec, sub_spec, Ex, Em. destruct s, s'; reflexivity.
  - rewrite is_infinity_spec, Em in Hinf. discriminate.
  - rewrite sub_self; [reflexivity|].
    destruct (eqb_not_nan m m Hxm) as [Hnan _].
    unfold is_finite. rewrite Hnan, Hinf. reflexivity.
Qed.

Lemma zero_scaled (z : float) : (z =? 0) = true -> (z * __b =? 0) = true.
Proof.
  rewrite !FloatAxioms.eqb_spec, mul_spec.
  change (Prim2SF 0) with (S754_zero false). unfold SFeqb.
  destruct (Prim2SF z) as [s|s| |s m e]; cbn [SFcompare];
    try discriminate; try (destruct s; discriminate).
  intros _. destruct s; reflexivity.
Qed.

Lemma nan_scaled : is_nan (nan * __b) = true.
Proof. reflexivity. Qed.

Lemma length_filter_mono (p q : float -> bool) (l : list float) :
  (forall x, p x = true -> q x = true) ->
  (length (List.filter p l) <= length (List.filter q l))%nat.
Proof.
  intros Hpq. induction l as [|x l IH]; [reflexivity|].
  cbn [List.filter]. destruct (p x) eqn:Hp.
  - rewrite (Hpq x Hp). cbn [length]. lia.
  - destruct (q x); cbn [length]; lia.
Qed.

(** *** The median of a sample with a majority value *)

Lemma median_majority (a : ndarray) (v : float) :
  existsb is_nan a = false -> is_nan v = false ->
  (length a < 2 * length (List.filter (fun x => (x =? v)%float) a))%nat ->
  exists x y, (x =? v) = true /\ (y =? v) = true
              /\ median a = if Nat.odd (length a) then x / 1 else (x + y) / 2.
Proof.
  intros Hnan Hv Hmajor. unfold median. rewrite Hnan.
  apply not_nan_Forall in Hnan.
  pose proof (Forall_sort _ _ Hnan) as Hs.
  pose proof (ascending_sort a Hnan) as Hasc.
  rewrite <- (length_filter_sort (fun x => x =? v) a), <- (length_sort a) in Hmajor.
  rewrite <- (length_sort a).
  set (s := sort a) in *. set (n := length s) in *.
  pose proof (Nat.div2_odd n) as Hn. rewrite Nat.div2_div in Hn.
  pose proof (List.filter_length_le (fun x => x =? v) s) as Hle. fold n in Hle.
  destruct (Nat.odd n); cbn [Nat.b2n] in Hn.
  - destruct (middle_of_ascending v s (n / 2) 1 Hv Hs Hasc Hmajor) as (l & -> & Hlen & Hl);
      [fold n; lia | fold n; lia |].
    destruct l as [|x [|y l]]; try discriminate Hlen.
    apply Forall_cons in Hl as [Hx _].
    exists x, x. repeat split; assumption.
  - destruct (middle_of_ascending v s (n / 2 - 1) 2 Hv Hs Hasc Hmajor) as (l & -> & Hlen & Hl);
      [fold n; lia | fold n; lia |].
    destruct l as [|x [|y [|z l]]]; try discriminate Hlen.
    apply Forall_cons in Hl as [Hx Hl]. apply Forall_cons in Hl as [Hy _].
    exists x, y. repeat split; assumption.
Qed.

(** The median of a sample with a majority value is equal to the value, or
    is an infinity. *)
Lemma median_majority_value (a : ndarray) (v : float) :
  existsb is_nan a = false -> is_nan v = false ->
  (length a < 2 * length (List.filter (fun x => (x =? v)%float) a))%nat ->
  (median a =? v) = true \/ is_infinity (median a) = true.
Proof.
  intros Hnan Hv Hmajor.
  destruct (median_majority a v Hnan Hv Hmajor) as (x & y & Hx & Hy & ->).
  destruct (Nat.odd (length a)).
  - left. rewrite div_one. exact Hx.
  - assert (Hxy : (x =? y) = true).
    { apply (float_eqb_trans x v y Hx). rewrite float_eqb_sym. exact Hy. }
    destruct (half_sum x y Hxy) as [Hh|Hh]; [left | right; exact Hh].
    exact (float_eqb_trans _ x v Hh Hx).
Qed.

Lemma median_majority_zero (a : ndarray) :
  existsb is_nan a = false ->
  (length a < 2 * length (List.filter (fun x => (x =? 0)%float) a))%nat ->
  (median a =? 0) = true.
Proof.
  intros Hnan Hmajor.
  destruct (median_majority a 0 Hnan eq_refl Hmajor) as (x & y & Hx & Hy & ->).
  destruct (Nat.odd (length a)).
  - rewrite div_one. exact Hx.
  - apply half_sum_zero; assumption.
Qed.

(** X20: a sample in which more than half of the elements are equal to one
    value comes back empty. *)
Theorem univariate_majority_value_emptied (a : ndarray) (v : float) :
  (length a < 2 * length (List.filter (fun x => (x =? v)%float) a))%nat ->
  univariate a = Ok [].
Proof.
  intros Hmajor. rewrite univariate_mask. f_equal. apply filter_nothing. intros x.
  destruct (existsb is_nan a) eqn:Hnan.
  { unfold median at 1. rewrite Hnan. apply nan_median_not_lt_3. }
  destruct (is_nan v) eqn:Hv.
  { exfalso. rewrite (filter_nothing (fun x => x =? v)) in Hmajor; [cbn in Hmajor; lia|].
    intros y. destruct (y =? v) eqn:Hy; [|reflexivity].
    apply eqb_not_nan in Hy as [_ Hy]. congruence. }
  destruct (median_majority_value a v Hnan Hv Hmajor) as [Hm|Hm];
    [|apply infinite_median_not_lt_3, Hm].
  destruct (is_infinity (median a)) eqn:Hinf;
    [apply infinite_median_not_lt_3, Hinf|].
  set (m := median a) in *.
  destruct (existsb is_nan (np_abs (sub_scalar a m))) eqn:Hcnan.
  { apply abs_div_nan_not_lt_3. unfold median. rewrite Hcnan. apply nan_scaled. }
  apply abs_div_zero_not_lt_3, zero_scaled, median_majority_zero; [exact Hcnan|].
  unfold np_abs, sub_scalar. rewrite map_map, length_map, length_filter_map.
  eapply Nat.lt_le_trans; [exact Hmajor|].
  apply Nat.mul_le_mono_l, length_filter_mono. intros y Hy.
  rewrite (abs_sub_equal y m); [reflexivity | | exact Hinf].
  apply (float_eqb_trans y v m Hy). rewrite float_eqb_sym. exact Hm.
Qed.

Lemma univariate_majority_value_emptied_witness :
  (length [1; 3; 3; 7; 3]%float
   < 2 * length (List.filter (fun x => (x =? 3)%float) [1; 3; 3; 7; 3]%float))%nat
  /\ univariate [1; 3; 3; 7; 3] = Ok [].
Proof.
  split; [vm_compute; lia|].
  apply (univariate_majority_value_emptied [1; 3; 3; 7; 3] 3). vm_compute. lia.
Defined.

End MajorityFacts.
